(** * Deep research agent: orchestration core

    A shallow embedding of the routing functions of [src/graph.py], the
    decision logic of [reflection_node] ([src/reflection.py]), the candidate
    ranking and the re-research fallbacks of [src/researcher.py], and the
    citation formatter of [src/compiler.py], together with the properties the
    specification states about them; then the reducers of [src/state.py],
    the planner of [src/planner.py], the rest of the research pipeline and
    the graph as a whole, with properties read off the code.

    Modelling conventions.
    - Python [str] values are [string]s; a character is a code point in the
      range 0..255.
    - Python [int] values are [Z].  Search scores are ordinals that the code
      only compares ([>] and the sort key); they are taken in [Z].
    - A Python [dict] keeps its keys in insertion order, and assigning to an
      existing key keeps the key's position: it is an association list
      ([PyDict]).
    - Calls to the completion service and to the search provider are
      arguments of the functions that use them (Section variables). *)

From Stdlib Require Import List String Ascii ZArith Bool Lia Arith.
From Stdlib Require Import Sorting.Sorted Sorting.Permutation.
From Stdlib Require Import Structures.OrderedTypeEx DecimalString.
Import ListNotations.

Local Open Scope string_scope.
Local Open Scope Z_scope.

(** ** Insertion-ordered dictionaries *)

Module PyDict.

Section Dict.
Context {V : Type}.

Definition t := list (string * V).

Definition empty : t := [].

(** [d.get(k)] *)
Fixpoint get (k : string) (d : t) : option V :=
  match d with
  | [] => None
  | (k', v) :: d' => if String.eqb k k' then Some v else get k d'
  end.

(** [d[k] = v]: an existing key keeps its position, a new key goes last. *)
Fixpoint set (k : string) (v : V) (d : t) : t :=
  match d with
  | [] => [(k, v)]
  | (k', v') :: d' =>
      if String.eqb k k' then (k, v) :: d' else (k', v') :: set k v d'
  end.

Definition keys (d : t) : list string := map fst d.

(** [d.values()] *)
Definition values (d : t) : list V := map snd d.

(** [existing.copy(); merged.update(new)] *)
Definition update (d new : t) : t :=
  fold_left (fun acc kv => set (fst kv) (snd kv) acc) new d.

End Dict.

Arguments t : clear implicits.

End PyDict.

(** ** Python helpers *)

(** Truth value of a string: only the empty string is false. *)
Definition str_truthy (s : string) : bool := negb (String.eqb s "").

(** Truth value of a list. *)
Definition list_truthy {A : Type} (l : list A) : bool :=
  match l with [] => false | _ :: _ => true end.

(** [x or default] on an optional list. *)
Definition or_empty {A : Type} (o : option (list A)) : list A :=
  match o with Some l => l | None => [] end.

(** [sorted(l, key=key, reverse=True)]: the sort is stable, also under
    [reverse=True], so an element is inserted in front of the first element
    whose key does not exceed its own. *)
Section SortedReverse.
Context {A : Type} (key : A -> Z).

Fixpoint insert_desc (x : A) (l : list A) : list A :=
  match l with
  | [] => [x]
  | y :: l' => if key x <? key y then y :: insert_desc x l' else x :: y :: l'
  end.

Definition sorted_reverse (l : list A) : list A :=
  fold_right insert_desc [] l.
End SortedReverse.

(** [sorted(l, key=key)] with natural-number keys, stable. *)
Section SortedByKey.
Context {A : Type} (key : A -> nat).

Fixpoint insert_asc (x : A) (l : list A) : list A :=
  match l with
  | [] => [x]
  | y :: l' =>
      if (key y <=? key x)%nat then y :: insert_asc x l' else x :: y :: l'
  end.

Definition sorted_by_key (l : list A) : list A :=
  fold_right insert_asc [] l.
End SortedByKey.

(** ** Data model ([src/state.py]) *)

Record SubQuestion := {
  sq_question_id : string;
  sq_question : string;
  sq_search_strategy : string;
  sq_importance : string
}.

Record ResearchPlan := {
  main_question : string;
  sub_questions : list SubQuestion
}.

Record SourceMetadata := {
  src_id : string;
  src_url : string;
  src_title : string;
  src_full_content : string;
  src_timestamp : string
}.

Record Finding := {
  claim : string;
  evidence : string;
  source_ids : list string;
  f_confidence : string
}.

Record QuestionAnswer := {
  qa_question_id : string;
  qa_question : string;
  answer : string;
  key_findings : list Finding;
  sources : list SourceMetadata;
  confidence : string;
  completeness : string
}.

Record WeakAnswer := {
  wa_question_id : string;
  issue : string;
  suggestion : string
}.

Inductive Assessment := strong | adequate | needs_improvement.

Record AgentAnalysis := {
  overall_assessment : Assessment;
  weak_answers : list WeakAnswer;
  knowledge_gaps : list string;
  conflicting_info : list string;
  suggested_questions : list string;
  suggested_searches : list string;
  reasoning : string
}.

(** A raw search hit: a dict of the search provider; every key may be
    absent. *)
Record SearchResult := {
  res_url : option string;
  res_title : option string;
  res_content : option string;
  res_score : option Z;
  res_full_content : option string
}.

(** ** Candidate ranking ([Researcher.research_question], lines 363-378, and
    [Researcher.improve_research], lines 456-472) *)

Module Ranker.

(** [r.get("score", 0)] *)
Definition score (r : SearchResult) : Z :=
  match res_score r with Some s => s | None => 0 end.

(** [if url:] on [r.get("url")] *)
Definition url_of (r : SearchResult) : option string :=
  match res_url r with
  | Some u => if str_truthy u then Some u else None
  | None => None
  end.

(** One iteration of the deduplication loop. *)
Definition dedupe_step (url_to_result : PyDict.t SearchResult)
    (r : SearchResult) : PyDict.t SearchResult :=
  match url_of r with
  | Some url =>
      match PyDict.get url url_to_result with
      | None => PyDict.set url r url_to_result
      | Some stored =>
          if score stored <? score r
          then PyDict.set url r url_to_result
          else url_to_result
      end
  | None => url_to_result
  end.

Definition dedupe (all_results : list SearchResult)
    : PyDict.t SearchResult :=
  fold_left dedupe_step all_results PyDict.empty.

Definition top_k : nat := 10.

(** Deduplicate by URL, sort by score descending, take the top 10. *)
Definition rank (all_results : list SearchResult) : list SearchResult :=
  firstn top_k (sorted_reverse score (PyDict.values (dedupe all_results))).

Definition sorted_desc (l : list SearchResult) : Prop :=
  StronglySorted (fun a b => score b <= score a) l.

End Ranker.

(** ** Regular expressions of [src/compiler.py]

    The two patterns of [_format_citations] only star character classes, so
    the matcher below recurses on the text.  [rmatch r s] lists what is left
    of [s] after each way of matching [r] at the start of [s], in the order
    in which a backtracking matcher with greedy quantifiers tries them; the
    match that [re] reports is the first one. *)

Module Re.

Inductive regex :=
| Eps
| Chr (p : ascii -> bool)
| Seq (r1 r2 : regex)
| Opt (r : regex)
| Star (p : ascii -> bool).

(** [p+] *)
Definition Plus (p : ascii -> bool) : regex := Seq (Chr p) (Star p).

Fixpoint Lit (chars : list (ascii -> bool)) : regex :=
  match chars with
  | [] => Eps
  | p :: ps => Seq (Chr p) (Lit ps)
  end.

Fixpoint star_class (p : ascii -> bool) (s : string) : list string :=
  match s with
  | EmptyString => [EmptyString]
  | String c s' => if p c then star_class p s' ++ [s] else [s]
  end.

Fixpoint rmatch (r : regex) (s : string) : list string :=
  match r with
  | Eps => [s]
  | Chr p =>
      match s with
      | String c s' => if p c then [s'] else []
      | EmptyString => []
      end
  | Seq r1 r2 => flat_map (rmatch r2) (rmatch r1 s)
  | Opt r' => rmatch r' s ++ [s]
  | Star p => star_class p s
  end.

(** The text matched at the start of [s], if any.  Neither pattern of the
    program matches the empty string; an empty match counts as none. *)
Definition match_at (r : regex) (s : string) : option string :=
  match rmatch r s with
  | rest :: _ =>
      let m := substring 0 (String.length s - String.length rest) s in
      match m with EmptyString => None | _ => Some m end
  | [] => None
  end.

Inductive piece :=
| Text (c : ascii)
| Match (m : string).

(** Left-to-right scan for non-overlapping matches: [skip] counts the
    characters of the current match that are still to be passed over. *)
Fixpoint scan (r : regex) (skip : nat) (s : string) : list piece :=
  match s with
  | EmptyString => []
  | String c s' =>
      match skip with
      | S k => scan r k s'
      | O =>
          match match_at r s with
          | Some m => Match m :: scan r (String.length m - 1) s'
          | None => Text c :: scan r 0 s'
          end
      end
  end.

Definition matched (p : piece) : list string :=
  match p with Match m => [m] | Text _ => [] end.

Definition render (repl : string -> string) (p : piece) : string :=
  match p with Match m => repl m | Text c => String c EmptyString end.

(** [re.finditer]: the matched texts, in order. *)
Definition matches (r : regex) (s : string) : list string :=
  flat_map matched (scan r 0 s).

(** [re.sub(r, repl, s)] with a function [repl] of the matched text. *)
Definition sub (r : regex) (repl : string -> string) (s : string) : string :=
  String.concat "" (map (render repl) (scan r 0 s)).

End Re.

(** ** Citation formatting ([ReportCompiler._format_citations]) *)

Module Citations.
Import Re.

Definition nl : string := String "010" EmptyString.

Definition code (c : ascii) : nat := nat_of_ascii c.

Definition between (lo hi : nat) (c : ascii) : bool :=
  ((lo <=? code c) && (code c <=? hi))%nat.

Definition just (c : ascii) : ascii -> bool := Ascii.eqb c.

(** [[a-zA-Z0-9]] *)
Definition is_alnum (c : ascii) : bool :=
  between 97 122 c || between 65 90 c || between 48 57 c.

(** [\s] on [str]: the characters for which [str.isspace] holds. *)
Definition is_space (c : ascii) : bool :=
  between 9 13 c || between 28 32 c
  || (code c =? 133)%nat || (code c =? 160)%nat.

Definition lower (c : ascii) : ascii :=
  if between 65 90 c then ascii_of_nat (code c + 32) else c.

(** A literal letter under [re.IGNORECASE]. *)
Definition nocase (c : ascii) : ascii -> bool :=
  fun x => Ascii.eqb (lower x) (lower c).

(** [.] under [re.DOTALL] *)
Definition any : ascii -> bool := fun _ => true.

(** [r'\[(src_[a-zA-Z0-9]+)\]'] *)
Definition marker_re : regex :=
  Seq (Chr (just "["))
      (Seq (Lit [just "s"; just "r"; just "c"; just "_"])
           (Seq (Plus is_alnum) (Chr (just "]")))).

(** [r'\n+##?\s*References?\s*\n.*'] with [re.DOTALL | re.IGNORECASE] *)
Definition references_re : regex :=
  Seq (Plus (just "010"))
      (Seq (Chr (just "#"))
           (Seq (Opt (Chr (just "#")))
                (Seq (Star is_space)
                     (Seq (Lit (map nocase (list_ascii_of_string "Reference")))
                          (Seq (Opt (Chr (nocase "s")))
                               (Seq (Star is_space)
                                    (Seq (Chr (just "010")) (Star any)))))))).

(** Group 1 of a marker match: the text between the brackets. *)
Definition group1 (m : string) : string :=
  substring 1 (String.length m - 2) m.

(** [re.findall(r'\[(src_[a-zA-Z0-9]+)\]', report)] *)
Definition findall (report : string) : list string :=
  map group1 (matches marker_re report).

(** [set(...)]: the distinct identifiers; nothing below depends on the
    order in which a set enumerates them. *)
Definition used_ids (report : string) : list string :=
  nodup string_dec (findall report).

(** [sorted(...)] on strings: ascending by code point. *)
Fixpoint insert_str (x : string) (l : list string) : list string :=
  match l with
  | [] => [x]
  | y :: l' => if String.ltb y x then y :: insert_str x l' else x :: y :: l'
  end.

Definition sorted_str (l : list string) : list string :=
  fold_right insert_str [] l.

(** [enumerate(l, start)] *)
Fixpoint enumerate {A : Type} (start : nat) (l : list A) : list (nat * A) :=
  match l with
  | [] => []
  | x :: l' => (start, x) :: enumerate (S start) l'
  end.

(** [{sid: idx for idx, sid in enumerate(sorted(used_ids), 1)}] *)
Definition id_to_num (report : string) : PyDict.t nat :=
  fold_left (fun d p => PyDict.set (snd p) (fst p) d)
            (enumerate 1%nat (sorted_str (used_ids report)))
            PyDict.empty.

(** [{s.id: s for s in sources}] *)
Definition source_map (sources : list SourceMetadata)
    : PyDict.t SourceMetadata :=
  fold_left (fun d s => PyDict.set (src_id s) s d) sources PyDict.empty.

(** [str(n)] *)
Definition str_of_nat (n : nat) : string :=
  DecimalString.NilEmpty.string_of_uint (Nat.to_uint n).

(** The inner function [replace] of [_format_citations]. *)
Definition replace (nums : PyDict.t nat) (m : string) : string :=
  let sid := group1 m in
  "[" ++ match PyDict.get sid nums with
         | Some n => str_of_nat n
         | None => "?"
         end ++ "]".

Definition strip_references (report : string) : string :=
  Re.sub references_re (fun _ => "") report.

Definition references_header : string :=
  nl ++ nl ++ "## References" ++ nl ++ nl.

(** One line of the reference list, or nothing when [num and source]
    fails. *)
Definition reference_entry (nums : PyDict.t nat)
    (srcs : PyDict.t SourceMetadata) (sid : string) : list string :=
  match PyDict.get sid nums, PyDict.get sid srcs with
  | Some num, Some source =>
      if (num =? 0)%nat then []
      else ["[" ++ str_of_nat num ++ "] [" ++ src_title source ++ "]("
                ++ src_url source ++ ")" ++ nl]
  | _, _ => []
  end.

Definition _format_citations (report : string)
    (sources : list SourceMetadata) : string :=
  let used := used_ids report in
  let srcs := source_map sources in
  let nums := id_to_num report in
  let report := Re.sub marker_re (replace nums) report in
  let report := strip_references report in
  if list_truthy used then
    let refs :=
      references_header
      :: flat_map (reference_entry nums srcs)
           (sorted_by_key
              (fun x => match PyDict.get x nums with
                        | Some n => n
                        | None => 999%nat
                        end)
              used) in
    report ++ String.concat "" refs
  else report.

End Citations.

(** ** Run state ([ResearchState]) and routing ([src/graph.py])

    A [NotRequired] key that the code reads with [state.get] is an option.
    The [messages] log and the report preferences play no part in routing
    and are left out. *)

Record ResearchState := {
  original_query : option string;
  research_plan : option ResearchPlan;
  question_answers : PyDict.t QuestionAnswer;
  compressed_findings : PyDict.t string;
  current_iteration : option Z;
  agent_analysis : option AgentAnalysis;
  final_report : option string;
  next_step : option string
}.

(** The payload of a [Send("parallel_researcher", {...})]: the keys that
    [researcher_node] reads, absent when the sender does not set them. *)
Record ResearcherInput := {
  in_sub_question : SubQuestion;
  in_main_query : option string;
  in_previous_answer : option string;
  in_previous_sources : option (list SourceMetadata);
  in_improvement_suggestion : option string;
  in_suggested_searches : option (list string)
}.

Inductive Send :=
| SendCompiler (state : ResearchState)
| SendResearcher (input : ResearcherInput).

Module Graph.

Definition MAX_ITERATIONS : Z := 2.

(** A plan object is always true, so [not plan] holds of [None] only. *)
Definition _get_plan (state : ResearchState) : option ResearchPlan :=
  research_plan state.

Definition _get_weak_answers (state : ResearchState) : list WeakAnswer :=
  match agent_analysis state with
  | None => []
  | Some analysis => weak_answers analysis
  end.

Definition _get_suggested_searches (state : ResearchState) : list string :=
  match agent_analysis state with
  | None => []
  | Some analysis => suggested_searches analysis
  end.

Definition _get_answer_data (state : ResearchState) (q_id : string)
    : string * list SourceMetadata :=
  match PyDict.get q_id (question_answers state) with
  | None => ("", [])
  | Some a => (answer a, sources a)
  end.

Definition get_iteration (state : ResearchState) : Z :=
  match current_iteration state with Some i => i | None => 0 end.

Definition get_query (state : ResearchState) : string :=
  match original_query state with Some q => q | None => "" end.

Definition route_after_planner (state : ResearchState) : list Send :=
  match _get_plan state with
  | None => [SendCompiler state]
  | Some plan =>
      let main_query := get_query state in
      map (fun sq =>
             SendResearcher
               {| in_sub_question := sq;
                  in_main_query := Some main_query;
                  in_previous_answer := None;
                  in_previous_sources := None;
                  in_improvement_suggestion := None;
                  in_suggested_searches := None |})
          (sub_questions plan)
  end.

(** [{sq.question_id: sq for sq in plan.sub_questions}] *)
Definition sq_map (plan : ResearchPlan) : PyDict.t SubQuestion :=
  fold_left (fun d sq => PyDict.set (sq_question_id sq) sq d)
            (sub_questions plan) PyDict.empty.

(** The body of the loop over [weak_answers]: the [Send] appended for
    [wa], none when its question is not in the plan. *)
Definition send_for (state : ResearchState) (sqs : PyDict.t SubQuestion)
    (suggested : list string) (wa : WeakAnswer) : list Send :=
  let q_id := wa_question_id wa in
  match PyDict.get q_id sqs with
  | None => []
  | Some sq =>
      let '(prev_text, prev_sources) := _get_answer_data state q_id in
      [SendResearcher
         {| in_sub_question := sq;
            in_main_query := None;
            in_previous_answer := Some prev_text;
            in_previous_sources := Some prev_sources;
            in_improvement_suggestion := Some (suggestion wa);
            in_suggested_searches := Some suggested |}]
  end.

Definition is_re_research (step : option string) : bool :=
  match step with
  | Some s => String.eqb s "re_research"
  | None => false
  end.

Definition route_after_reflection (state : ResearchState) : list Send :=
  let iteration := get_iteration state in
  let weak := _get_weak_answers state in
  let suggested := _get_suggested_searches state in
  let needs_improvement := is_re_research (next_step state) in
  if negb needs_improvement || (MAX_ITERATIONS <=? iteration)
     || negb (list_truthy weak)
  then [SendCompiler state]
  else
    match _get_plan state with
    | None => [SendCompiler state]
    | Some plan =>
        let sends := flat_map (send_for state (sq_map plan) suggested) weak in
        if list_truthy sends then sends else [SendCompiler state]
    end.

(** The reducers of [question_answers] and [compressed_findings]. *)
Definition merge_question_answers
    (existing new : PyDict.t QuestionAnswer) : PyDict.t QuestionAnswer :=
  PyDict.update existing new.

Definition merge_compressed_findings
    (existing new : PyDict.t string) : PyDict.t string :=
  PyDict.update existing new.

(** Where a routing result leads. *)
Definition is_researcher (s : Send) : bool :=
  match s with SendResearcher _ => true | SendCompiler _ => false end.

Definition enters_re_research (sends : list Send) : bool :=
  existsb is_researcher sends.

End Graph.

(** ** Reflection ([reflection_node]) *)

Module Reflection.

Section Node.
(** [ReflectionAnalyzer.analyze_research], a call to the completion
    service. *)
Variable analyze_research :
  ResearchPlan -> PyDict.t QuestionAnswer -> AgentAnalysis.

(** [agent_config.max_iterations] *)
Variable max_iterations : Z.

(** The value of the local [needs_improvement]. *)
Definition should_improve (analysis : AgentAnalysis)
    (current_iteration : Z) : bool :=
  match overall_assessment analysis with
  | needs_improvement => true
  | _ => false
  end
  && list_truthy (weak_answers analysis)
  && (current_iteration <? max_iterations).

(** The state after the update returned by [reflection_node] is merged;
    [None] when [state["research_plan"]] holds no plan and the node
    raises.  The node runs after a research round, so the key
    [question_answers] is set. *)
Definition reflection_node (state : ResearchState)
    : option ResearchState :=
  match research_plan state with
  | None => None
  | Some plan =>
      let answers := question_answers state in
      let current := Graph.get_iteration state in
      let analysis := analyze_research plan answers in
      let needs := should_improve analysis current in
      let step := if needs then "re_research" else "compile" in
      let new_iteration := if needs then current + 1 else current in
      Some {| original_query := original_query state;
              research_plan := research_plan state;
              question_answers := question_answers state;
              compressed_findings := compressed_findings state;
              current_iteration := Some new_iteration;
              agent_analysis := Some analysis;
              final_report := final_report state;
              next_step := Some step |}
  end.

(** One pass through the assessing stage: the reflection node, then the
    conditional edge out of it. *)
Definition reflection_round (state : ResearchState)
    : option (ResearchState * list Send) :=
  match reflection_node state with
  | None => None
  | Some state' => Some (state', Graph.route_after_reflection state')
  end.
End Node.

End Reflection.

(** ** Targeted re-research ([Researcher.improve_research]) *)

Module Researcher.

Definition _assess_confidence (findings : list Finding)
    (srcs : list SourceMetadata) : string :=
  if ((5 <=? List.length srcs) && (4 <=? List.length findings))%nat then "high"
  else if ((3 <=? List.length srcs) && (2 <=? List.length findings))%nat then "medium"
  else "low".

Definition _assess_completeness (findings : list Finding)
    (srcs : list SourceMetadata) : string :=
  if ((3 <=? List.length findings) && (3 <=? List.length srcs))%nat then "complete"
  else if (2 <=? List.length findings)%nat then "partial"
  else "insufficient".

Definition _make_answer (sq : SubQuestion) (ans : string)
    (findings : list Finding) (srcs : list SourceMetadata)
    : QuestionAnswer :=
  {| qa_question_id := sq_question_id sq;
     qa_question := sq_question sq;
     answer := ans;
     key_findings := findings;
     sources := srcs;
     confidence := "medium";
     completeness := "partial" |}.

Definition mem (x : string) (l : list string) : bool :=
  existsb (String.eqb x) l.

(** The loop of [_merge_sources] over source objects: [acc] is
    [(all_sources, seen)]. *)
Definition merge_step (acc : list SourceMetadata * list string)
    (src : SourceMetadata) : list SourceMetadata * list string :=
  let '(all_sources, seen) := acc in
  if mem (src_url src) seen then acc
  else ((all_sources ++ [src])%list, src_url src :: seen).

Definition _merge_sources (new prev : list SourceMetadata)
    : list SourceMetadata :=
  fst (fold_left merge_step prev (new, map src_url new)).

Section Improve.
(** The search provider, the extraction provider and the two uses of
    the completion service. *)
Variable search_tavily : string -> Z -> list SearchResult.
Variable extract_full_content : list string -> PyDict.t string.
Variable extract_findings :
  list SearchResult -> SubQuestion -> list Finding * list SourceMetadata.
Variable _synthesize_improved :
  SubQuestion -> string -> list Finding -> string -> string.

Definition queries_of (improvement_suggestion : string)
    (suggested : list string) : list string :=
  if list_truthy suggested then firstn 4 suggested
  else [improvement_suggestion].

Definition collect_results (queries : list string) : list SearchResult :=
  flat_map (fun query => search_tavily query 5) queries.

(** [r["full_content"] = full_content[r["url"]]] where the URL was
    extracted. *)
Definition enrich (full_content : PyDict.t string) (r : SearchResult)
    : SearchResult :=
  match res_url r with
  | Some u =>
      match PyDict.get u full_content with
      | Some text =>
          {| res_url := res_url r;
             res_title := res_title r;
             res_content := res_content r;
             res_score := res_score r;
             res_full_content := Some text |}
      | None => r
      end
  | None => r
  end.

Definition improve_research (sub_question : SubQuestion)
    (previous_answer improvement_suggestion : string)
    (previous_sources : option (list SourceMetadata))
    (suggested_searches : option (list string)) : QuestionAnswer :=
  let previous_sources := or_empty previous_sources in
  let suggested_searches := or_empty suggested_searches in
  let queries := queries_of improvement_suggestion suggested_searches in
  let all_results := collect_results queries in
  if negb (list_truthy all_results)
  then _make_answer sub_question previous_answer [] []
  else
    let top_results := Ranker.rank all_results in
    let top_urls :=
      flat_map (fun r => match Ranker.url_of r with
                         | Some u => [u]
                         | None => []
                         end) top_results in
    let full_content := extract_full_content top_urls in
    let top_results := map (enrich full_content) top_results in
    let '(findings, srcs) := extract_findings top_results sub_question in
    if negb (list_truthy findings)
    then _make_answer sub_question previous_answer [] previous_sources
    else
      let answer_text :=
        _synthesize_improved sub_question previous_answer findings
                             improvement_suggestion in
      let all_sources := _merge_sources srcs previous_sources in
      {| qa_question_id := sq_question_id sub_question;
         qa_question := sq_question sub_question;
         answer := answer_text;
         key_findings := findings;
         sources := all_sources;
         confidence := _assess_confidence findings all_sources;
         completeness := _assess_completeness findings all_sources |}.
End Improve.

End Researcher.

(** ** Compilation ([compiler_node], [ReportCompiler.compile_report]) *)

Module Compiler.
Import Citations.

(** The fallback of [compiler_node] when no compressed findings exist. *)
Definition fallback_findings (answers : PyDict.t QuestionAnswer)
    : PyDict.t string :=
  fold_left
    (fun d kv =>
       PyDict.set (fst kv)
         ("## " ++ qa_question (snd kv) ++ nl ++ nl ++ answer (snd kv)) d)
    answers PyDict.empty.

(** The loop gathering sources: [acc] is [(all_sources, seen_urls)]. *)
Definition gather_step (acc : list SourceMetadata * list string)
    (src : SourceMetadata) : list SourceMetadata * list string :=
  let '(all_sources, seen_urls) := acc in
  let url := src_url src in
  if str_truthy url && negb (Researcher.mem url seen_urls)
  then ((all_sources ++ [src])%list, url :: seen_urls)
  else acc.

Definition gather_sources (answers : PyDict.t QuestionAnswer)
    : list SourceMetadata :=
  fst (fold_left
         (fun acc kv => fold_left gather_step (sources (snd kv)) acc)
         answers ([], [])).

Section Node.
(** The completion-service part of [compile_report]: the section texts
    written for a question from the combined findings and the source
    list ([_plan_report], then [_generate_section] per section). *)
Variable write_sections : string -> string -> string -> list string.

Definition source_line (s : SourceMetadata) : string :=
  "- [" ++ src_id s ++ "] " ++ src_title s ++ ": " ++ src_url s.

Definition compile_report (plan : ResearchPlan)
    (srcs : list SourceMetadata) (compressed : PyDict.t string)
    : string :=
  let all_findings := String.concat (nl ++ nl) (PyDict.values compressed) in
  let source_list := String.concat nl (map source_line (firstn 50 srcs)) in
  let section_texts :=
    write_sections (main_question plan) all_findings source_list in
  let report := String.concat (nl ++ nl) section_texts in
  _format_citations report srcs.

(** The report that [compiler_node] stores in [final_report]; [None]
    when the state holds no plan and [plan.main_question] raises. *)
Definition compiler_node (state : ResearchState) : option string :=
  let compressed :=
    if list_truthy (compressed_findings state)
    then compressed_findings state
    else fallback_findings (question_answers state) in
  let all_sources := gather_sources (question_answers state) in
  match research_plan state with
  | None => None
  | Some plan => Some (compile_report plan all_sources compressed)
  end.
End Node.

End Compiler.

(** ** String methods used by the planner and the researcher *)

Module PyStr.

(** [s.lstrip()] *)
Fixpoint lstrip (s : string) : string :=
  match s with
  | EmptyString => EmptyString
  | String c s' => if Citations.is_space c then lstrip s' else s
  end.

(** [s.rstrip()] *)
Fixpoint rstrip (s : string) : string :=
  match s with
  | EmptyString => EmptyString
  | String c s' =>
      match rstrip s' with
      | EmptyString =>
          if Citations.is_space c then EmptyString else String c EmptyString
      | r => String c r
      end
  end.

(** [s.strip()] *)
Definition strip (s : string) : string := rstrip (lstrip s).

(** [s.split("\n")]: the pieces between newlines, at least one. *)
Fixpoint split_lines (s : string) : list string :=
  match s with
  | EmptyString => [EmptyString]
  | String c s' =>
      if Ascii.eqb c "010" then EmptyString :: split_lines s'
      else
        match split_lines s' with
        | line :: rest => String c line :: rest
        | [] => [String c EmptyString]
        end
  end.

(** [s.startswith(p)] *)
Definition startswith (p s : string) : bool := String.prefix p s.

(** [s[n:]] for a literal [n >= 0] *)
Fixpoint slice_from (n : nat) (s : string) : string :=
  match n, s with
  | O, _ => s
  | S k, EmptyString => EmptyString
  | S k, String _ s' => slice_from k s'
  end.

(** [s[:n]] for an integer [n]: a negative [n] counts from the end. *)
Definition slice_to (n : Z) (s : string) : string :=
  if n <? 0 then substring 0 (String.length s - Z.to_nat (- n)) s
  else substring 0 (Z.to_nat n) s.

(** [s.lower()]; on the code points 0..255 it differs from the map below
    only on letters above 127, which no comparison of the program
    involves. *)
Fixpoint lower (s : string) : string :=
  match s with
  | EmptyString => EmptyString
  | String c s' => String (Citations.lower c) (lower s')
  end.

(** [s.endswith(p)] *)
Definition endswith (p s : string) : bool :=
  (String.length p <=? String.length s)%nat
  && String.eqb (slice_from (String.length s - String.length p) s) p.

End PyStr.

(** [l[:n]] on a list, for an integer [n]. *)
Definition list_slice_to {A : Type} (n : Z) (l : list A) : list A :=
  if n <? 0 then firstn (List.length l - Z.to_nat (- n)) l
  else firstn (Z.to_nat n) l.

(** ** Planning ([src/planner.py]) *)

Inductive Message :=
| HumanMessage (content : string)
| OtherMessage (content : string).

Record ReportPreferences := {
  research_question : string;
  style : string;
  focus_areas : list string;
  audience : string;
  constraints : string
}.

Module Planner.

Definition has_importance (level : string) (q : SubQuestion) : bool :=
  String.eqb (sq_importance q) level.

Section Plan.
(** [self.config.max_questions] *)
Variable max_questions : Z.
(** The two structured completions: the parsed request and the plan. *)
Variable parse_request : string -> ReportPreferences.
Variable llm_plan : ReportPreferences -> ResearchPlan.

(** The cut that [Planner.plan] applies to the plan it was given. *)
Definition limit (p : ResearchPlan) : ResearchPlan :=
  if max_questions <? Z.of_nat (List.length (sub_questions p)) then
    let critical := filter (has_importance "critical") (sub_questions p) in
    let important := filter (has_importance "important") (sub_questions p) in
    let supporting :=
      filter (has_importance "supporting") (sub_questions p) in
    {| main_question := main_question p;
       sub_questions :=
         list_slice_to max_questions
                       (critical ++ important ++ supporting)%list |}
  else p.

Definition plan (preferences : ReportPreferences) : ResearchPlan :=
  limit (llm_plan preferences).

(** The content of the last human message, if there is one. *)
Definition last_human (messages : list Message) : option string :=
  match find (fun m => match m with HumanMessage _ => true | _ => false end)
             (rev messages) with
  | Some (HumanMessage content) => Some content
  | _ => None
  end.

(** The query that [planner_node] settles on; [None] where it raises
    [ValueError]. *)
Definition find_query (state : ResearchState) (messages : list Message)
    : option string :=
  let query :=
    match original_query state with
    | Some q => if str_truthy q then Some q else last_human messages
    | None => last_human messages
    end in
  match query with
  | Some q => if str_truthy q then Some q else None
  | None => None
  end.

(** The state after the update of [planner_node] is merged, with the
    preferences it stores. *)
Definition planner_node (state : ResearchState) (messages : list Message)
    : option (ResearchState * ReportPreferences) :=
  match find_query state messages with
  | None => None
  | Some query =>
      let preferences := parse_request query in
      let research_plan' := plan preferences in
      Some ({| original_query := Some query;
               research_plan := Some research_plan';
               question_answers := question_answers state;
               compressed_findings := compressed_findings state;
               current_iteration := current_iteration state;
               agent_analysis := agent_analysis state;
               final_report := final_report state;
               next_step := next_step state |},
            preferences)
  end.
End Plan.

End Planner.

(** ** The research pipeline ([src/researcher.py]) *)

(** An entry of the extraction provider's response. *)
Record ExtractResult := {
  ext_url : option string;
  ext_raw_content : option string
}.

(** The finding being assembled by the parser of [extract_findings]: the
    dict [current_finding], each key absent or set. *)
Record Draft := {
  d_claim : option string;
  d_evidence : option string;
  d_source_ids : option (list string);
  d_confidence : option string
}.

Module Pipeline.
Import Researcher Citations.

Definition get_str (o : option string) : string :=
  match o with Some s => s | None => EmptyString end.

Definition opt_truthy (o : option string) : bool :=
  match o with Some s => str_truthy s | None => false end.

Definition empty_draft : Draft :=
  {| d_claim := None; d_evidence := None;
     d_source_ids := None; d_confidence := None |}.

(** [Finding(claim=current_finding.get("claim", ""), ...)] *)
Definition finish (d : Draft) : Finding :=
  {| claim := get_str (d_claim d);
     evidence := get_str (d_evidence d);
     source_ids := or_empty (d_source_ids d);
     f_confidence :=
       match d_confidence d with Some c => c | None => "medium" end |}.

Definition confidence_levels : list string := ["high"; "medium"; "low"].

(** One line of the response: [acc] is [(all_findings, current_finding)]. *)
Definition parse_line (acc : list Finding * Draft) (line : string)
    : list Finding * Draft :=
  let '(found, current) := acc in
  let line := PyStr.strip line in
  if PyStr.startswith "CLAIM:" line then
    let found :=
      if opt_truthy (d_claim current)
      then (found ++ [finish current])%list else found in
    (found,
     {| d_claim := Some (PyStr.strip (PyStr.slice_from 6 line));
        d_evidence := None; d_source_ids := None; d_confidence := None |})
  else if PyStr.startswith "EVIDENCE:" line then
    (found,
     {| d_claim := d_claim current;
        d_evidence := Some (PyStr.strip (PyStr.slice_from 9 line));
        d_source_ids := d_source_ids current;
        d_confidence := d_confidence current |})
  else if PyStr.startswith "SOURCE:" line then
    let src := PyStr.strip (PyStr.slice_from 7 line) in
    (found,
     {| d_claim := d_claim current;
        d_evidence := d_evidence current;
        d_source_ids := Some (if str_truthy src then [src] else []);
        d_confidence := d_confidence current |})
  else if PyStr.startswith "CONFIDENCE:" line then
    let conf := PyStr.lower (PyStr.strip (PyStr.slice_from 11 line)) in
    (found,
     {| d_claim := d_claim current;
        d_evidence := d_evidence current;
        d_source_ids := d_source_ids current;
        d_confidence :=
          Some (if mem conf confidence_levels then conf else "medium") |})
  else acc.

(** The parsing loop of [extract_findings] and the step after it. *)
Definition parse_findings (findings_text : string) : list Finding :=
  let '(found, current) :=
    fold_left parse_line (PyStr.split_lines findings_text) ([], empty_draft) in
  if opt_truthy (d_claim current)
  then (found ++ [finish current])%list else found.

(** The fallback of [extract_findings] when the completion fails. *)
Definition fallback_finding (source : SourceMetadata) : list Finding :=
  if str_truthy (src_full_content source)
  then [{| claim := src_title source;
           evidence := PyStr.slice_to 500 (src_full_content source);
           source_ids := [src_id source];
           f_confidence := "low" |}]
  else [].

(** [result.get("full_content") or result.get("content", "")] *)
Definition content_of (result : SearchResult) : string :=
  if opt_truthy (res_full_content result)
  then get_str (res_full_content result)
  else get_str (res_content result).

Section Calls.
(** Configuration. *)
Variable max_search_results : Z.
Variable chars_per_source : Z.
(** The search provider: the results of a response, or [None] for an error
    that the caller catches. *)
Variable client_search : string -> Z -> option (list SearchResult).
Variable client_extract : list string -> option (list ExtractResult).
(** The identifiers drawn by [uuid.uuid4().hex], by position, and the
    clock. *)
Variable uuid_hex : nat -> string.
Variable now : string.
(** The completion service: the query list, the findings (or [None] for
    an error that [extract_findings] catches), the answer (first try or
    retry), the improved answer and the compression (or [None] for an
    error). *)
Variable llm_queries : SubQuestion -> string -> string.
Variable llm_findings : SubQuestion -> string -> option string.
Variable llm_answer : SubQuestion -> list Finding -> bool -> string.
Variable _synthesize_improved :
  SubQuestion -> string -> list Finding -> string -> string.
Variable llm_compress : string -> option string.

Definition generate_search_queries (sub_question : SubQuestion)
    (main_query : string) : list string :=
  let content := llm_queries sub_question main_query in
  let queries :=
    filter str_truthy
           (map PyStr.strip (PyStr.split_lines (PyStr.strip content))) in
  firstn 4 queries.

Definition search_tavily (query : string) (max_results : option Z)
    : list SearchResult :=
  let max_results :=
    match max_results with Some n => n | None => max_search_results end in
  match client_search query max_results with
  | Some results => results
  | None => []
  end.

Definition extract_full_content (urls : list string) : PyDict.t string :=
  if negb (list_truthy urls) then PyDict.empty
  else
    match client_extract (firstn 10 urls) with
    | Some results =>
        fold_left
          (fun d r =>
             if opt_truthy (ext_url r) && opt_truthy (ext_raw_content r)
             then PyDict.set (get_str (ext_url r))
                             (get_str (ext_raw_content r)) d
             else d)
          results PyDict.empty
    | None => PyDict.empty
    end.

(** The source made for the [i]-th search result. *)
Definition make_source (i : nat) (result : SearchResult) : SourceMetadata :=
  {| src_id := "src_" ++ substring 0 8 (uuid_hex i);
     src_url := get_str (res_url result);
     src_title := get_str (res_title result);
     src_full_content := content_of result;
     src_timestamp := now |}.

Fixpoint make_sources (i : nat) (results : list SearchResult)
    : list SourceMetadata :=
  match results with
  | [] => []
  | r :: rest => make_source i r :: make_sources (S i) rest
  end.

(** The text given to the completion service: the sources that have
    content, each cut to 4000 characters. *)
Definition formatted_sources (srcs : list SourceMetadata) : string :=
  String.concat (nl ++ nl)
    (flat_map
       (fun s =>
          if str_truthy (src_full_content s)
          then ["[" ++ src_id s ++ "] " ++ src_title s ++ nl
                    ++ PyStr.slice_to 4000 (src_full_content s)]
          else [])
       srcs).

Definition extract_findings (search_results : list SearchResult)
    (sub_question : SubQuestion) : list Finding * list SourceMetadata :=
  if negb (list_truthy search_results) then ([], [])
  else
    let all_sources := make_sources 0 search_results in
    match llm_findings sub_question (formatted_sources all_sources) with
    | Some findings_text => (parse_findings findings_text, all_sources)
    | None => (flat_map fallback_finding (firstn 5 all_sources), all_sources)
    end.

(** The test for a truncated answer.  Of the three suffixes of the source
    only ["..."] lies in the code points 0..255. *)
Definition seems_cut_off (answer_text : string) : bool :=
  (String.length answer_text <? 300)%nat
  || PyStr.endswith "..." (PyStr.rstrip answer_text).

Definition synthesize_answer (sub_question : SubQuestion)
    (findings : list Finding) (srcs : list SourceMetadata)
    : QuestionAnswer :=
  if negb (list_truthy findings) then
    {| qa_question_id := sq_question_id sub_question;
       qa_question := sq_question sub_question;
       answer := "Insufficient information found to answer this question.";
       key_findings := [];
       sources := [];
       confidence := "low";
       completeness := "insufficient" |}
  else
    let answer_text := llm_answer sub_question findings false in
    let answer_text :=
      if seems_cut_off answer_text
      then llm_answer sub_question findings true else answer_text in
    {| qa_question_id := sq_question_id sub_question;
       qa_question := sq_question sub_question;
       answer := answer_text;
       key_findings := findings;
       sources := srcs;
       confidence := _assess_confidence findings srcs;
       completeness := _assess_completeness findings srcs |}.

Definition urls_of (results : list SearchResult) : list string :=
  flat_map (fun r => match Ranker.url_of r with
                     | Some u => [u]
                     | None => []
                     end) results.

Definition research_question (sub_question : SubQuestion)
    (main_query : string) : QuestionAnswer :=
  let queries := generate_search_queries sub_question main_query in
  let all_results :=
    flat_map (fun query => search_tavily query None) (firstn 4 queries) in
  if negb (list_truthy all_results) then
    {| qa_question_id := sq_question_id sub_question;
       qa_question := sq_question sub_question;
       answer := "No search results found.";
       key_findings := [];
       sources := [];
       confidence := "low";
       completeness := "insufficient" |}
  else
    let all_search_results := Ranker.rank all_results in
    let top_urls := urls_of all_search_results in
    let full_content := extract_full_content top_urls in
    let all_search_results := map (enrich full_content) all_search_results in
    let '(all_findings, all_sources) :=
      extract_findings all_search_results sub_question in
    synthesize_answer sub_question all_findings all_sources.

(** [improve_research] with the calls of this class. *)
Definition improve (sub_question : SubQuestion)
    (previous_answer improvement_suggestion : string)
    (previous_sources : option (list SourceMetadata))
    (suggested_searches : option (list string)) : QuestionAnswer :=
  improve_research (fun query n => search_tavily query (Some n))
                   extract_full_content extract_findings
                   _synthesize_improved sub_question previous_answer
                   improvement_suggestion previous_sources
                   suggested_searches.

Definition source_text (source : SourceMetadata) : string :=
  "### [" ++ src_id source ++ "] " ++ src_title source ++ nl
  ++ "URL: " ++ src_url source ++ nl ++ nl
  ++ PyStr.slice_to chars_per_source (src_full_content source) ++ nl.

Definition _build_compression_context (ans : QuestionAnswer)
    (sub_question : SubQuestion) : string :=
  "## Research Question: " ++ sq_question sub_question ++ nl ++ nl
  ++ "## Synthesized Answer:" ++ nl ++ answer ans ++ nl ++ nl
  ++ "## Source Materials:" ++ nl
  ++ String.concat "" (map source_text (sources ans)) ++ nl.

Definition compress_research (ans : QuestionAnswer)
    (sub_question : SubQuestion) : string :=
  if negb (list_truthy (sources ans)) then
    "## " ++ sq_question sub_question ++ nl ++ nl ++ "No sources found." ++ nl
  else
    match llm_compress (_build_compression_context ans sub_question) with
    | Some content =>
        "# Research: " ++ sq_question sub_question ++ nl ++ nl ++ content
    | None =>
        "# Research: " ++ sq_question sub_question ++ nl ++ nl ++ answer ans
    end.

(** Which of the two procedures [researcher_node] runs. *)
Definition is_improvement (input : ResearcherInput) : bool :=
  opt_truthy (in_previous_answer input)
  && opt_truthy (in_improvement_suggestion input).

(** The update returned by [researcher_node]: the entries for
    [question_answers] and for [compressed_findings]. *)
Definition researcher_node (input : ResearcherInput)
    : PyDict.t QuestionAnswer * PyDict.t string :=
  let sq := in_sub_question input in
  let main_query := get_str (in_main_query input) in
  let ans :=
    if is_improvement input then
      improve sq (get_str (in_previous_answer input))
              (get_str (in_improvement_suggestion input))
              (Some (or_empty (in_previous_sources input)))
              (Some (or_empty (in_suggested_searches input)))
    else research_question sq main_query in
  let compressed := compress_research ans sq in
  ([(sq_question_id sq, ans)], [(sq_question_id sq, compressed)]).
End Calls.

End Pipeline.

(** ** The compiled graph ([create_research_graph])

    The edges of the graph, run node by node.  The researchers of one
    fan-out each receive their own payload and do not read the shared
    state; their updates are merged by the reducers in the order of the
    [Send]s. *)

Inductive Outcome :=
| Compiled (state : ResearchState) (re_research_rounds : nat)
| Halted (state : ResearchState)
| Raised
| Unfinished.

Module Run.
Import Graph.

Section Nodes.
Variable max_questions : Z.
Variable parse_request : string -> ReportPreferences.
Variable llm_plan : ReportPreferences -> ResearchPlan.
(** The node [parallel_researcher]. *)
Variable researcher_node :
  ResearcherInput -> PyDict.t QuestionAnswer * PyDict.t string.
Variable analyze_research :
  ResearchPlan -> PyDict.t QuestionAnswer -> AgentAnalysis.
Variable max_iterations : Z.
Variable write_sections : string -> string -> string -> list string.

(** The reducers applied to one researcher's update. *)
Definition apply_update (state : ResearchState)
    (update : PyDict.t QuestionAnswer * PyDict.t string) : ResearchState :=
  {| original_query := original_query state;
     research_plan := research_plan state;
     question_answers :=
       merge_question_answers (question_answers state) (fst update);
     compressed_findings :=
       merge_compressed_findings (compressed_findings state) (snd update);
     current_iteration := current_iteration state;
     agent_analysis := agent_analysis state;
     final_report := final_report state;
     next_step := next_step state |}.

(** One fan-out to [parallel_researcher]. *)
Definition dispatch (sends : list Send) (state : ResearchState)
    : ResearchState :=
  fold_left
    (fun st s =>
       match s with
       | SendResearcher input => apply_update st (researcher_node input)
       | SendCompiler _ => st
       end)
    sends state.

(** [aggregate_research] returns the empty update. *)
Definition aggregate_research (state : ResearchState) : ResearchState :=
  state.

(** The node [compiler], then [END]. *)
Definition compile (rounds : nat) (state : ResearchState) : Outcome :=
  match Compiler.compiler_node write_sections state with
  | Some report =>
      Compiled {| original_query := original_query state;
                  research_plan := research_plan state;
                  question_answers := question_answers state;
                  compressed_findings := compressed_findings state;
                  current_iteration := current_iteration state;
                  agent_analysis := agent_analysis state;
                  final_report := Some report;
                  next_step := next_step state |}
               rounds
  | None => Raised
  end.

(** From [reflection] on: assess, then re-research and assess again, or
    compile.  [rounds] counts the re-research fan-outs so far. *)
Fixpoint assess (fuel rounds : nat) (state : ResearchState) : Outcome :=
  match fuel with
  | O => Unfinished
  | S fuel' =>
      match Reflection.reflection_node analyze_research max_iterations
                                       state with
      | None => Raised
      | Some state' =>
          let sends := route_after_reflection state' in
          if enters_re_research sends
          then assess fuel' (S rounds)
                      (aggregate_research (dispatch sends state'))
          else compile rounds state'
      end
  end.

(** The rounds that the gate of the router still allows from [state]. *)
Definition budget (state : ResearchState) : nat :=
  Z.to_nat (MAX_ITERATIONS - 1 - get_iteration state).

(** The whole graph from [START]. *)
Definition run (state : ResearchState) (messages : list Message) : Outcome :=
  match Planner.planner_node max_questions parse_request llm_plan
                             state messages with
  | None => Raised
  | Some (planned, _) =>
      match route_after_planner planned with
      | [] => Halted planned
      | sends =>
          if enters_re_research sends
          then
            let researched := aggregate_research (dispatch sends planned) in
            assess (S (budget researched)) 0 researched
          else compile 0 planned
      end
  end.
End Nodes.

End Run.

(** * Properties *)

(** ** Dictionaries *)

Module PyDictFacts.
Import PyDict.

Section Facts.
Context {V : Type}.
Implicit Types (d : PyDict.t V) (k : string) (v : V).

Lemma get_set_same k v d : get k (set k v d) = Some v.
Proof.
  induction d as [|[k' v'] d IH]; simpl.
  - now rewrite String.eqb_refl.
  - destruct (String.eqb k k') eqn:E; simpl; rewrite ?String.eqb_refl, ?E; auto.
Qed.

Lemma get_set_other k k' v d : k' <> k -> get k' (set k v d) = get k' d.
Proof.
  intros Hne. induction d as [|[k0 v0] d IH]; simpl.
  - apply String.eqb_neq in Hne. now rewrite Hne.
  - destruct (String.eqb k k0) eqn:E; simpl.
    + apply String.eqb_eq in E. subst k0.
      apply String.eqb_neq in Hne. now rewrite Hne.
    + now rewrite IH.
Qed.

Lemma get_set k k' v d :
  get k' (set k v d) = if String.eqb k' k then Some v else get k' d.
Proof.
  destruct (String.eqb k' k) eqn:E.
  - apply String.eqb_eq in E. subst. apply get_set_same.
  - apply String.eqb_neq in E. now apply get_set_other.
Qed.

Lemma get_None_notin k d : get k d = None <-> ~ In k (keys d).
Proof.
  induction d as [|[k' v'] d IH]; simpl.
  - tauto.
  - destruct (String.eqb k k') eqn:E.
    + apply String.eqb_eq in E. subst. split; [discriminate | tauto].
    + apply String.eqb_neq in E. rewrite IH. intuition congruence.
Qed.

Lemma get_In k v d : get k d = Some v -> In (k, v) d.
Proof.
  induction d as [|[k' v'] d IH]; simpl; [discriminate|].
  destruct (String.eqb k k') eqn:E.
  - apply String.eqb_eq in E. intros [= ->]. subst. now left.
  - auto.
Qed.

Lemma In_get k v d : NoDup (keys d) -> In (k, v) d -> get k d = Some v.
Proof.
  induction d as [|[k' v'] d IH]; simpl; [tauto|].
  intros Hnd [[= -> ->]|Hin].
  - now rewrite String.eqb_refl.
  - inversion Hnd as [|? ? Hnotin Hnd']; subst.
    destruct (String.eqb k k') eqn:E; [|auto].
    apply String.eqb_eq in E. subst k'.
    exfalso. apply Hnotin. change k with (fst (k, v)). now apply in_map.
Qed.

Lemma set_new k v d : get k d = None -> set k v d = (d ++ [(k, v)])%list.
Proof.
  induction d as [|[k' v'] d IH]; simpl; [reflexivity|].
  destruct (String.eqb k k'); [discriminate|].
  intros H. now rewrite IH.
Qed.

Lemma keys_set_present k v d :
  get k d <> None -> keys (set k v d) = keys d.
Proof.
  induction d as [|[k' v'] d IH]; simpl; [congruence|].
  destruct (String.eqb k k') eqn:E; simpl.
  - apply String.eqb_eq in E. now subst.
  - intros H. now rewrite IH.
Qed.

Lemma NoDup_keys_set k v d : NoDup (keys d) -> NoDup (keys (set k v d)).
Proof.
  intros Hnd. destruct (get k d) eqn:E.
  - rewrite keys_set_present; congruence.
  - rewrite set_new by assumption. unfold keys. rewrite map_app. simpl.
    apply get_None_notin in E.
    apply Permutation_NoDup with (l := k :: map fst d).
    + apply Permutation_cons_append.
    + now constructor.
Qed.

Lemma In_values v d : In v (values d) -> exists k, In (k, v) d.
Proof.
  unfold values. rewrite in_map_iff. intros [[k v'] [E Hin]].
  simpl in E. subst. now exists k.
Qed.
End Facts.

End PyDictFacts.

(** ** Stable descending sort and prefixes *)

Lemma In_firstn {A : Type} (n : nat) (l : list A) (x : A) :
  In x (firstn n l) -> In x l.
Proof.
  intros H. rewrite <- (firstn_skipn n l). apply in_or_app. now left.
Qed.

Section SortedReverseFacts.
Context {A : Type} (key : A -> Z).

Let ge_key (a b : A) : Prop := key b <= key a.

Lemma insert_desc_perm (x : A) (l : list A) :
  Permutation (x :: l) (insert_desc key x l).
Proof.
  induction l as [|y l IH]; simpl; [reflexivity|].
  destruct (key x <? key y); [|reflexivity].
  rewrite perm_swap. now apply perm_skip.
Qed.

Lemma sorted_reverse_perm (l : list A) :
  Permutation l (sorted_reverse key l).
Proof.
  induction l as [|x l IH]; simpl; [reflexivity|].
  rewrite <- insert_desc_perm. now apply perm_skip.
Qed.

Lemma insert_desc_sorted (x : A) (l : list A) :
  StronglySorted ge_key l -> StronglySorted ge_key (insert_desc key x l).
Proof.
  induction 1 as [|y l Hs IH Hall]; simpl.
  - repeat constructor.
  - destruct (key x <? key y) eqn:E.
    + constructor; [assumption|].
      apply Forall_forall. intros z Hz.
      apply (Permutation_in _ (Permutation_sym (insert_desc_perm x l))) in Hz.
      destruct Hz as [<-|Hz].
      * unfold ge_key. lia.
      * rewrite Forall_forall in Hall. auto.
    + apply Z.ltb_ge in E.
      constructor; [now constructor|].
      constructor; [exact E|].
      rewrite Forall_forall in *. intros z Hz.
      specialize (Hall z Hz). unfold ge_key in *. lia.
Qed.

Lemma sorted_reverse_sorted (l : list A) :
  StronglySorted ge_key (sorted_reverse key l).
Proof.
  induction l; simpl; [constructor | now apply insert_desc_sorted].
Qed.

Lemma sorted_reverse_fixed (l : list A) :
  StronglySorted ge_key l -> sorted_reverse key l = l.
Proof.
  induction 1 as [|x l Hs IH Hall]; simpl; [reflexivity|].
  rewrite IH. destruct l as [|y l]; simpl; [reflexivity|].
  inversion Hall as [|? ? Hxy _]; subst. unfold ge_key in Hxy.
  destruct (key x <? key y) eqn:E; [|reflexivity].
  apply Z.ltb_lt in E. lia.
Qed.

Lemma StronglySorted_firstn (R : A -> A -> Prop) (n : nat) (l : list A) :
  StronglySorted R l -> StronglySorted R (firstn n l).
Proof.
  intros Hs. revert n. induction Hs as [|x l Hs IH Hall]; intros [|n]; simpl;
    try constructor.
  - apply IH.
  - rewrite Forall_forall in *. intros z Hz. apply Hall.
    eapply In_firstn; eassumption.
Qed.
End SortedReverseFacts.

Lemma NoDup_firstn {A : Type} (n : nat) (l : list A) :
  NoDup l -> NoDup (firstn n l).
Proof.
  intros H. rewrite <- (firstn_skipn n l) in H.
  now apply NoDup_app_remove_r in H.
Qed.

(** ** Candidate ranking *)

Module RankerFacts.
Import PyDict PyDictFacts Ranker.

(** What the deduplication loop maintains, [done] being the hits already
    processed: keys are distinct; the hit stored under a URL is the first
    hit of that URL with the highest score; every URL met is a key. *)
Record inv (done : list SearchResult) (d : PyDict.t SearchResult) : Prop := {
  inv_nodup : NoDup (keys d);
  inv_best : forall k v, get k d = Some v ->
    url_of v = Some k /\
    exists before after, done = (before ++ v :: after)%list /\
      (forall h, In h before -> url_of h = Some k -> score h < score v) /\
      (forall h, In h after -> url_of h = Some k -> score h <= score v);
  inv_keys : forall h k, In h done -> url_of h = Some k -> get k d <> None
}.

Lemma inv_empty : inv [] empty.
Proof.
  split; simpl; [constructor | discriminate | tauto].
Qed.

(** A stored hit stays the best when a hit of another URL, or one that
    does not beat it, is appended. *)
Lemma best_snoc done k v r :
  (url_of r = Some k -> score r <= score v) ->
  (exists before after, done = (before ++ v :: after)%list /\
     (forall h, In h before -> url_of h = Some k -> score h < score v) /\
     (forall h, In h after -> url_of h = Some k -> score h <= score v)) ->
  exists before after, (done ++ [r] = before ++ v :: after)%list /\
     (forall h, In h before -> url_of h = Some k -> score h < score v) /\
     (forall h, In h after -> url_of h = Some k -> score h <= score v).
Proof.
  intros Hr (before & after & -> & Hb & Ha).
  exists before, (after ++ [r])%list. repeat split; auto.
  - now rewrite <- app_assoc.
  - intros h Hin Hk. apply in_app_or in Hin. destruct Hin as [Hin|[<-|[]]]; auto.
Qed.

(** Every processed hit of a URL scores at most the stored one. *)
Lemma stored_bounds done d k v h :
  inv done d -> get k d = Some v -> In h done -> url_of h = Some k ->
  score h <= score v.
Proof.
  intros Hinv Hget Hin Hk.
  destruct (inv_best _ _ Hinv k v Hget) as (_ & before & after & -> & Hb & Ha).
  apply in_app_or in Hin. destruct Hin as [Hin|[<-|Hin]].
  - specialize (Hb h Hin Hk). lia.
  - lia.
  - auto.
Qed.

Lemma inv_replace done d u r :
  inv done d -> url_of r = Some u ->
  (forall h, In h done -> url_of h = Some u -> score h < score r) ->
  inv (done ++ [r]) (set u r d).
Proof.
  intros Hinv Hu Hlt. split.
  - apply NoDup_keys_set, Hinv.
  - intros k v. rewrite get_set. destruct (String.eqb k u) eqn:E.
    + apply String.eqb_eq in E. subst k. intros [= <-]. split; [assumption|].
      exists done, []. repeat split; auto. simpl. tauto.
    + apply String.eqb_neq in E. intros Hget.
      destruct (inv_best _ _ Hinv k v Hget) as [Hv Hex]. split; [assumption|].
      apply best_snoc; [|assumption]. congruence.
  - intros h k Hin Hk. rewrite get_set.
    destruct (String.eqb k u) eqn:E; [discriminate|].
    apply in_app_or in Hin. destruct Hin as [Hin|[<-|[]]].
    + eapply inv_keys; eassumption.
    + apply String.eqb_neq in E. congruence.
Qed.

Lemma inv_keep done d r :
  inv done d ->
  (forall u, url_of r = Some u ->
     exists stored, get u d = Some stored /\ score r <= score stored) ->
  inv (done ++ [r]) d.
Proof.
  intros Hinv Hkeep. split.
  - apply Hinv.
  - intros k v Hget. destruct (inv_best _ _ Hinv k v Hget) as [Hv Hex].
    split; [assumption|]. apply best_snoc; [|assumption].
    intros Hk. destruct (Hkeep k Hk) as (stored & Hget' & Hle). congruence.
  - intros h k Hin Hk. apply in_app_or in Hin. destruct Hin as [Hin|[<-|[]]].
    + eapply inv_keys; eassumption.
    + destruct (Hkeep k Hk) as (stored & Hget' & _). congruence.
Qed.

Lemma inv_step done d r :
  inv done d -> inv (done ++ [r]) (dedupe_step d r).
Proof.
  intros Hinv. unfold dedupe_step.
  destruct (url_of r) as [u|] eqn:Hu.
  - destruct (get u d) as [stored|] eqn:Hget.
    + destruct (score stored <? score r) eqn:E.
      * apply Z.ltb_lt in E. apply inv_replace; auto.
        intros h Hin Hk.
        pose proof (stored_bounds _ _ _ _ _ Hinv Hget Hin Hk). lia.
      * apply Z.ltb_ge in E. apply inv_keep; auto.
        intros u' Hu'. assert (u' = u) by congruence. subst u'.
        exists stored. split; [exact Hget|exact E].
    + apply inv_replace; auto.
      intros h Hin Hk. exfalso.
      exact (inv_keys _ _ Hinv h u Hin Hk Hget).
  - apply inv_keep; auto. intros u Hu'. congruence.
Qed.

Lemma inv_fold l : forall done d,
  inv done d -> inv (done ++ l) (fold_left dedupe_step l d).
Proof.
  induction l as [|r l IH]; intros done d Hinv; simpl.
  - now rewrite app_nil_r.
  - replace (done ++ r :: l)%list with ((done ++ [r]) ++ l)%list
      by now rewrite <- app_assoc.
    apply IH, inv_step, Hinv.
Qed.

Lemma inv_dedupe l : inv l (dedupe l).
Proof. apply (inv_fold l [] empty inv_empty). Qed.

Lemma inv_urls done d :
  inv done d -> map url_of (values d) = map Some (keys d).
Proof.
  intros Hinv. unfold values, keys. rewrite !map_map.
  apply map_ext_in. intros [k v] Hin. simpl.
  apply (In_get _ _ _ (inv_nodup _ _ Hinv)) in Hin.
  apply (inv_best _ _ Hinv) in Hin. tauto.
Qed.

Lemma In_rank h l : In h (rank l) -> In h (values (dedupe l)).
Proof.
  intros Hin. apply In_firstn in Hin.
  eapply Permutation_in; [|exact Hin].
  apply Permutation_sym, sorted_reverse_perm.
Qed.

Lemma rank_nodup l : NoDup (map url_of (rank l)).
Proof.
  unfold rank. rewrite <- firstn_map. apply NoDup_firstn.
  apply Permutation_NoDup
    with (l := map url_of (values (dedupe l))).
  - apply Permutation_map, sorted_reverse_perm.
  - rewrite (inv_urls _ _ (inv_dedupe l)).
    apply Finite.Injective_map_NoDup.
    + intros a b H. now injection H.
    + apply inv_nodup with (done := l), inv_dedupe.
Qed.

Lemma rank_best l h :
  In h (rank l) ->
  exists u, url_of h = Some u /\
    exists before after, l = (before ++ h :: after)%list /\
      (forall h', In h' before -> url_of h' = Some u -> score h' < score h) /\
      (forall h', In h' after -> url_of h' = Some u -> score h' <= score h).
Proof.
  intros Hin. apply In_rank, In_values in Hin. destruct Hin as [k Hin].
  pose proof (inv_dedupe l) as Hinv.
  apply (In_get _ _ _ (inv_nodup _ _ Hinv)) in Hin.
  exists k. now apply (inv_best _ _ Hinv).
Qed.

Lemma rank_sorted l : sorted_desc (rank l).
Proof.
  apply StronglySorted_firstn, sorted_reverse_sorted.
Qed.

Lemma rank_length l : (List.length (rank l) <= top_k)%nat.
Proof. apply firstn_le_length. Qed.

(** A list already in ranked form: every hit is keyed by a URL, the URLs
    are distinct, the scores descend and at most [top_k] hits are there. *)
Record ranked (l : list SearchResult) : Prop := {
  ranked_keyed : forall h, In h l -> url_of h <> None;
  ranked_nodup : NoDup (map url_of l);
  ranked_sorted : sorted_desc l;
  ranked_length : (List.length l <= top_k)%nat
}.

Lemma dedupe_fresh l : forall d,
  (forall h, In h l -> url_of h <> None) ->
  NoDup (map url_of l) ->
  (forall h k, In h l -> url_of h = Some k -> get k d = None) ->
  values (fold_left dedupe_step l d) = (values d ++ l)%list.
Proof.
  induction l as [|r l IH]; intros d Hkeyed Hnd Hfresh; simpl.
  - now rewrite app_nil_r.
  - unfold dedupe_step at 2.
    destruct (url_of r) as [u|] eqn:Hu;
      [|exfalso; apply (Hkeyed r); simpl; auto].
    rewrite (Hfresh r u) by (simpl; auto).
    simpl in Hnd. inversion Hnd as [|? ? Hnotin Hnd']; subst.
    rewrite IH.
    + rewrite set_new by (apply (Hfresh r); simpl; auto).
      unfold values. rewrite map_app. simpl. now rewrite <- app_assoc.
    + intros h Hin. apply Hkeyed. now right.
    + assumption.
    + intros h k Hin Hk. rewrite get_set.
      destruct (String.eqb k u) eqn:E.
      * apply String.eqb_eq in E. subst k. exfalso. apply Hnotin.
        rewrite Hu, <- Hk. now apply in_map.
      * apply (Hfresh h); simpl; auto.
Qed.

Lemma rank_fixed l : ranked l -> rank l = l.
Proof.
  intros [Hkeyed Hnd Hsorted Hlen]. unfold rank, dedupe.
  rewrite dedupe_fresh; auto.
  change (values empty ++ l)%list with l.
  rewrite sorted_reverse_fixed by exact Hsorted.
  now apply firstn_all2.
Qed.

Lemma rank_ranked l : ranked (rank l).
Proof.
  split.
  - intros h Hin. destruct (rank_best l h Hin) as (u & Hu & _). congruence.
  - apply rank_nodup.
  - apply rank_sorted.
  - apply rank_length.
Qed.

Corollary rank_rank l : rank (rank l) = rank l.
Proof. apply rank_fixed, rank_ranked. Qed.

End RankerFacts.

(** ** Lexical order on strings and the sort of identifiers *)

Module StrOrder.

Definition str_lt (a b : string) : Prop := String.ltb a b = true.

Lemma str_lt_iff a b : str_lt a b <-> String_as_OT.lt a b.
Proof.
  unfold str_lt, String.ltb. rewrite <- String_as_OT.cmp_lt.
  unfold String_as_OT.cmp. destruct (String.compare a b); split; congruence.
Qed.

Lemma str_lt_trans a b c : str_lt a b -> str_lt b c -> str_lt a c.
Proof. rewrite !str_lt_iff. apply String_as_OT.lt_trans. Qed.

Lemma str_lt_irrefl a : ~ str_lt a a.
Proof.
  rewrite str_lt_iff. intros H.
  apply String_as_OT.lt_not_eq in H. now apply H.
Qed.

Lemma str_lt_asym a b : str_lt a b -> ~ str_lt b a.
Proof.
  intros H1 H2. apply (str_lt_irrefl a). eapply str_lt_trans; eassumption.
Qed.

Lemma not_ltb_cases a b : String.ltb a b = false -> a = b \/ str_lt b a.
Proof.
  unfold str_lt, String.ltb. rewrite (String.compare_antisym b a).
  destruct (String.compare a b) eqn:E; simpl; intros H.
  - left. now apply String.compare_eq_iff.
  - discriminate.
  - now right.
Qed.

End StrOrder.

Module CitationFacts.
Import PyDict PyDictFacts Re Citations StrOrder.

Lemma insert_str_perm x l : Permutation (x :: l) (insert_str x l).
Proof.
  induction l as [|y l IH]; simpl; [reflexivity|].
  destruct (String.ltb y x); [|reflexivity].
  rewrite perm_swap. now apply perm_skip.
Qed.

Lemma sorted_str_perm l : Permutation l (sorted_str l).
Proof.
  induction l as [|x l IH]; simpl; [reflexivity|].
  rewrite <- insert_str_perm. now apply perm_skip.
Qed.

Lemma insert_str_sorted x l :
  StronglySorted str_lt l -> ~ In x l ->
  StronglySorted str_lt (insert_str x l).
Proof.
  induction 1 as [|y l Hs IH Hall]; simpl; intros Hnotin.
  - repeat constructor.
  - destruct (String.ltb y x) eqn:E.
    + constructor; [apply IH; tauto|].
      apply Forall_forall. intros z Hz.
      apply (Permutation_in _ (Permutation_sym (insert_str_perm x l))) in Hz.
      destruct Hz as [<-|Hz]; [exact E|].
      rewrite Forall_forall in Hall. auto.
    + apply not_ltb_cases in E. destruct E as [->|Hxy]; [tauto|].
      constructor; [now constructor|].
      constructor; [exact Hxy|].
      rewrite Forall_forall in *. intros z Hz.
      eapply str_lt_trans; [exact Hxy|auto].
Qed.

Lemma sorted_str_sorted l :
  NoDup l -> StronglySorted str_lt (sorted_str l).
Proof.
  induction 1 as [|x l Hnotin Hnd IH]; simpl; [constructor|].
  apply insert_str_sorted; [assumption|].
  intros Hin. apply Hnotin.
  eapply Permutation_in; [apply Permutation_sym, sorted_str_perm|exact Hin].
Qed.

(** A strictly ascending list is determined by its elements. *)
Lemma sorted_unique l1 : forall l2,
  StronglySorted str_lt l1 -> StronglySorted str_lt l2 ->
  (forall x, In x l1 <-> In x l2) -> l1 = l2.
Proof.
  induction l1 as [|a l1 IH]; intros [|b l2] H1 H2 Hsame.
  - reflexivity.
  - exfalso. apply (proj2 (Hsame b)). now left.
  - exfalso. apply (proj1 (Hsame a)). now left.
  - inversion H1 as [|? ? Hs1 Hall1]; subst.
    inversion H2 as [|? ? Hs2 Hall2]; subst.
    rewrite Forall_forall in Hall1, Hall2.
    assert (a = b) as ->.
    { destruct (proj1 (Hsame a) (or_introl eq_refl)) as [->|Ha]; [reflexivity|].
      destruct (proj2 (Hsame b) (or_introl eq_refl)) as [->|Hb]; [reflexivity|].
      exfalso. exact (str_lt_asym _ _ (Hall1 _ Hb) (Hall2 _ Ha)). }
    f_equal. apply IH; auto.
    intros x. split; intros Hx.
    + destruct (proj1 (Hsame x) (or_intror Hx)) as [<-|]; [|assumption].
      exfalso. exact (str_lt_irrefl _ (Hall1 _ Hx)).
    + destruct (proj2 (Hsame x) (or_intror Hx)) as [<-|]; [|assumption].
      exfalso. exact (str_lt_irrefl _ (Hall2 _ Hx)).
Qed.

Lemma In_sorted_used report sid :
  In sid (sorted_str (used_ids report)) <-> In sid (findall report).
Proof.
  unfold used_ids. split; intros H.
  - apply (nodup_In string_dec).
    eapply Permutation_in; [apply Permutation_sym, sorted_str_perm|exact H].
  - eapply Permutation_in; [apply sorted_str_perm|].
    now apply (nodup_In string_dec).
Qed.

Lemma sorted_used_sorted report :
  StronglySorted str_lt (sorted_str (used_ids report)).
Proof. apply sorted_str_sorted, NoDup_nodup. Qed.

(** The sorted identifiers depend on the set of cited identifiers only. *)
Lemma sorted_used_ext r1 r2 :
  (forall sid, In sid (findall r1) <-> In sid (findall r2)) ->
  sorted_str (used_ids r1) = sorted_str (used_ids r2).
Proof.
  intros Hsame. apply sorted_unique; try apply sorted_used_sorted.
  intros x. now rewrite !In_sorted_used.
Qed.

Definition numbered (start : nat) (l : list string) : PyDict.t nat :=
  map (fun p => (snd p, fst p)) (enumerate start l).

Lemma keys_numbered start l : keys (numbered start l) = l.
Proof.
  revert start. induction l as [|x l IH]; intros start; simpl; [reflexivity|].
  f_equal. apply IH.
Qed.

Lemma values_numbered start l :
  values (numbered start l) = seq start (List.length l).
Proof.
  revert start. induction l as [|x l IH]; intros start; simpl; [reflexivity|].
  f_equal. apply IH.
Qed.

Lemma fold_numbered l : forall start d,
  NoDup l -> (forall x, In x l -> get x d = None) ->
  fold_left (fun d p => set (snd p) (fst p) d) (enumerate start l) d
  = (d ++ numbered start l)%list.
Proof.
  induction l as [|x l IH]; intros start d Hnd Hfresh; simpl.
  - now rewrite app_nil_r.
  - inversion Hnd as [|? ? Hnotin Hnd']; subst.
    rewrite IH; auto.
    + rewrite set_new by (apply Hfresh; now left).
      now rewrite <- app_assoc.
    + intros y Hy. rewrite get_set.
      destruct (String.eqb y x) eqn:E.
      * apply String.eqb_eq in E. now subst.
      * apply Hfresh. now right.
Qed.

Lemma id_to_num_numbered report :
  id_to_num report = numbered 1 (sorted_str (used_ids report)).
Proof.
  unfold id_to_num. rewrite fold_numbered; auto.
  eapply Permutation_NoDup; [apply sorted_str_perm|apply NoDup_nodup].
Qed.

Lemma get_numbered l : forall start x,
  In x l -> exists n, get x (numbered start l) = Some n /\ (start <= n)%nat.
Proof.
  induction l as [|y l IH]; intros start x Hin; simpl; [destruct Hin|].
  destruct (String.eqb x y) eqn:E.
  - exists start. split; [reflexivity|lia].
  - destruct Hin as [->|Hin]; [now rewrite String.eqb_refl in E|].
    destruct (IH (S start) x Hin) as (n & Hn & Hle).
    exists n. split; [exact Hn|lia].
Qed.

(** Every identifier found in the text has a display number. *)
Lemma id_to_num_total report sid :
  In sid (findall report) ->
  exists n, get sid (id_to_num report) = Some n /\ (1 <= n)%nat.
Proof.
  intros Hin. rewrite id_to_num_numbered.
  apply get_numbered. now apply In_sorted_used.
Qed.

End CitationFacts.

(** ** Scanning and substitution *)

Module ReFacts.
Import Re.

Fixpoint drop (n : nat) (s : string) : string :=
  match n, s with
  | O, _ => s
  | S k, EmptyString => EmptyString
  | S k, String _ s' => drop k s'
  end.

Lemma concat_cons (x : string) (l : list string) :
  String.concat "" (x :: l) = x ++ String.concat "" l.
Proof.
  destruct l; simpl; [|reflexivity].
  induction x; simpl; congruence.
Qed.

Lemma length_append (a b : string) :
  String.length (a ++ b) = (String.length a + String.length b)%nat.
Proof. induction a; simpl; congruence. Qed.

(** Without a match the substitution copies the text. *)
Lemma render_no_match r repl s : forall skip,
  flat_map matched (scan r skip s) = [] ->
  String.concat "" (map (render repl) (scan r skip s)) = drop skip s.
Proof.
  induction s as [|c s IH]; intros skip H.
  - now destruct skip.
  - destruct skip as [|k]; simpl in *.
    + destruct (match_at r (String c s)); [discriminate|].
      simpl in H. rewrite map_cons, concat_cons, (IH 0%nat H).
      reflexivity.
    + now apply IH.
Qed.

Lemma sub_no_match r repl s : matches r s = [] -> sub r repl s = s.
Proof. intros H. apply (render_no_match r repl s 0 H). Qed.

(** With the empty replacement the result has one character per
    unmatched position, so any match shortens the text. *)
Lemma erase_length r s : forall skip,
  let out := String.concat "" (map (render (fun _ => "")) (scan r skip s)) in
  (String.length out <= String.length s)%nat /\
  (flat_map matched (scan r skip s) <> [] ->
   (String.length out < String.length s)%nat).
Proof.
  induction s as [|c s IH]; intros skip.
  - simpl. split; [lia|congruence].
  - destruct skip as [|k]; cbn [scan].
    + destruct (match_at r (String c s)) as [m|].
      * rewrite map_cons, concat_cons. cbn [render append String.length].
        destruct (IH (String.length m - 1)%nat) as [Hle _].
        cbv zeta in Hle. split; intros; lia.
      * rewrite map_cons, concat_cons. cbn [render append String.length].
        destruct (IH 0%nat) as [Hle Hlt]. cbv zeta in Hle, Hlt.
        split; [lia|]. cbn [flat_map matched app]. intros H.
        specialize (Hlt H). lia.
    + destruct (IH k) as [Hle Hlt]. cbv zeta in Hle, Hlt.
      cbn [String.length]. split; [lia|]. intros H. specialize (Hlt H). lia.
Qed.

Lemma erase_fixed_iff r s :
  sub r (fun _ => "") s = s <-> matches r s = [].
Proof.
  split.
  - intros Heq. destruct (matches r s) eqn:E; [reflexivity|].
    exfalso. destruct (erase_length r s 0) as [_ Hlt]. cbv zeta in Hlt.
    unfold matches in E.
    assert (Hne : flat_map matched (scan r 0 s) <> []) by congruence.
    specialize (Hlt Hne). unfold sub in Heq.
    rewrite Heq in Hlt. lia.
  - apply sub_no_match.
Qed.

End ReFacts.

(** ** The formatter on a text without markers, and on its own output *)

Module FormatFacts.
Import PyDict Re ReFacts Citations CitationFacts.

Lemma findall_nil_matches report :
  findall report = [] -> matches marker_re report = [].
Proof. unfold findall. now destruct (matches marker_re report). Qed.

(** With no marker in the text nothing is renumbered and no reference
    list is appended: only the stripping step acts. *)
Lemma format_no_markers report srcs :
  findall report = [] ->
  _format_citations report srcs = strip_references report.
Proof.
  intros H. unfold _format_citations, used_ids. rewrite H. simpl.
  now rewrite sub_no_match by now apply findall_nil_matches.
Qed.

Lemma strip_fixed_iff report :
  strip_references report = report <-> matches references_re report = [].
Proof. apply erase_fixed_iff. Qed.

(** *** Ways of matching *)

Lemma rmatch_seq r1 r2 s mid rest :
  In mid (rmatch r1 s) -> In rest (rmatch r2 mid) ->
  In rest (rmatch (Seq r1 r2) s).
Proof. intros H1 H2. simpl. apply in_flat_map. eauto. Qed.

Lemma rmatch_chr (p : ascii -> bool) c s :
  p c = true -> In s (rmatch (Chr p) (String c s)).
Proof. intros H. simpl. rewrite H. now left. Qed.

Lemma rmatch_opt_take r s rest :
  In rest (rmatch r s) -> In rest (rmatch (Opt r) s).
Proof. intros H. simpl. apply in_or_app. now left. Qed.

Lemma star_stop p s : In s (star_class p s).
Proof.
  destruct s as [|c s]; simpl; [now left|].
  destruct (p c); [apply in_or_app; right|]; now left.
Qed.

Lemma star_more (p : ascii -> bool) c s rest :
  p c = true -> In rest (star_class p s) ->
  In rest (star_class p (String c s)).
Proof. intros Hp H. simpl. rewrite Hp. apply in_or_app. now left. Qed.

Lemma rmatch_shorter r : forall s rest,
  In rest (rmatch r s) -> (String.length rest <= String.length s)%nat.
Proof.
  induction r as [|p|r1 IH1 r2 IH2|r IH|p]; intros s rest; simpl.
  - intros [<-|[]]. lia.
  - destruct s as [|c s]; [intros []|]. destruct (p c); [|intros []].
    intros [<-|[]]. simpl. lia.
  - rewrite in_flat_map. intros (mid & H1 & H2).
    apply IH1 in H1. apply IH2 in H2. lia.
  - intros H. apply in_app_or in H. destruct H as [H|[<-|[]]]; auto.
  - revert rest. induction s as [|c s IHs]; simpl; intros rest.
    + intros [<-|[]]. simpl. lia.
    + destruct (p c).
      * intros H. apply in_app_or in H. destruct H as [H|[<-|[]]].
        -- apply IHs in H. lia.
        -- simpl. lia.
      * intros [<-|[]]. simpl. lia.
Qed.

(** The heading that the formatter writes is one that it strips. *)
Lemma header_matches rest :
  In rest (rmatch references_re (references_header ++ rest)).
Proof.
  unfold references_re, references_header, Plus, nl.
  cbn [append map list_ascii_of_string Lit].
  repeat first
    [ eapply rmatch_seq;
      [ first [ apply rmatch_chr; reflexivity
              | apply rmatch_opt_take, rmatch_chr; reflexivity
              | apply star_more; [reflexivity|apply star_stop]
              | apply star_stop
              | now left ] | ]
    | apply star_stop ].
Qed.

(** A pattern every match of which consumes at least one character. *)
Definition consuming (r : regex) : Prop :=
  forall s rest, In rest (rmatch r s) ->
                 (String.length rest < String.length s)%nat.

Lemma consuming_chr p : consuming (Chr p).
Proof.
  intros [|c s] rest; simpl; [intros []|].
  destruct (p c); [|intros []]. intros [<-|[]]. simpl. lia.
Qed.

Lemma consuming_seq r1 r2 : consuming r1 -> consuming (Seq r1 r2).
Proof.
  intros H s rest. simpl. rewrite in_flat_map. intros (mid & H1 & H2).
  apply H in H1. apply rmatch_shorter in H2. lia.
Qed.

Lemma consuming_references : consuming references_re.
Proof. apply consuming_seq, consuming_seq, consuming_chr. Qed.

Lemma match_at_found r s rest :
  consuming r -> In rest (rmatch r s) -> match_at r s <> None.
Proof.
  intros Hc Hin. unfold match_at.
  destruct (rmatch r s) as [|first l] eqn:E; [destruct Hin|].
  assert (Hlt : (String.length first < String.length s)%nat)
    by (apply Hc; rewrite E; now left).
  destruct s as [|c s]; [simpl in Hlt; lia|].
  destruct (String.length (String c s) - String.length first)%nat eqn:En;
    [lia|].
  simpl. discriminate.
Qed.

Lemma scan_found r tail rest :
  consuming r -> In rest (rmatch r tail) ->
  forall body, matches r (body ++ tail) <> [].
Proof.
  intros Hc Hin. unfold matches.
  assert (Hhere : forall s, match_at r s <> None ->
                            flat_map matched (scan r 0 s) <> []).
  { intros [|c s] H; [exfalso; apply H; unfold match_at; simpl;
                      now destruct (rmatch r "")|].
    simpl. destruct (match_at r (String c s)); [discriminate|congruence]. }
  induction body as [|c body IH].
  - apply Hhere. eapply match_at_found; eassumption.
  - cbn [append scan].
    destruct (match_at r (String c (body ++ tail))); [discriminate|].
    exact IH.
Qed.

Lemma used_ids_nonempty report :
  findall report <> [] -> list_truthy (used_ids report) = true.
Proof.
  intros H. unfold used_ids.
  destruct (findall report) as [|x l] eqn:E; [congruence|].
  assert (Hin : In x (nodup string_dec (x :: l)))
    by (apply nodup_In; now left).
  now destruct (nodup string_dec (x :: l)).
Qed.

(** A report that cites something ends, after formatting, with a
    References section. *)
Lemma format_has_references report srcs :
  findall report <> [] ->
  matches references_re (_format_citations report srcs) <> [].
Proof.
  intros H. unfold _format_citations.
  rewrite (used_ids_nonempty report H), concat_cons.
  eapply scan_found; [apply consuming_references|apply header_matches].
Qed.

(** Hence a second pass over a report that cited something, and in which
    no marker is left, loses text: the formatter is not idempotent on
    such a report. *)
Lemma second_pass_changes report srcs :
  findall report <> [] ->
  findall (_format_citations report srcs) = [] ->
  _format_citations (_format_citations report srcs) srcs
  <> _format_citations report srcs.
Proof.
  intros Hcited Hclean. rewrite (format_no_markers _ srcs Hclean).
  rewrite strip_fixed_iff. now apply format_has_references.
Qed.

End FormatFacts.

(** ** Routing *)

Module GraphFacts.
Import PyDict PyDictFacts Graph.

(** Whether some sub-question of the plan has the identifier [q_id]. *)
Definition in_plan (plan : ResearchPlan) (q_id : string) : bool :=
  existsb (fun sq => String.eqb (sq_question_id sq) q_id)
          (sub_questions plan).

Lemma in_plan_iff plan q_id :
  in_plan plan q_id = true <->
  exists sq, In sq (sub_questions plan) /\ sq_question_id sq = q_id.
Proof.
  unfold in_plan. rewrite existsb_exists.
  split; intros (sq & Hin & H); exists sq; split; auto;
    now apply String.eqb_eq.
Qed.

Lemma fold_set_sound (l : list SubQuestion) : forall d k sq,
  get k (fold_left (fun d sq => set (sq_question_id sq) sq d) l d) = Some sq ->
  (In sq l /\ sq_question_id sq = k) \/ get k d = Some sq.
Proof.
  induction l as [|x l IH]; intros d k sq; simpl; [auto|].
  intros H. apply IH in H. destruct H as [[Hin He]|H]; [auto|].
  rewrite get_set in H. destruct (String.eqb k (sq_question_id x)) eqn:E.
  - apply String.eqb_eq in E. injection H as <-. auto.
  - auto.
Qed.

Lemma fold_set_complete (l : list SubQuestion) : forall d k,
  get k d <> None \/ (exists sq, In sq l /\ sq_question_id sq = k) ->
  get k (fold_left (fun d sq => set (sq_question_id sq) sq d) l d) <> None.
Proof.
  induction l as [|x l IH]; intros d k; simpl.
  - intros [H|(sq & [] & _)]. exact H.
  - intros H. apply IH. rewrite get_set.
    destruct (String.eqb k (sq_question_id x)) eqn:E; [left; discriminate|].
    destruct H as [H|(sq & [<-|Hin] & He)]; [now left| |right; eauto].
    subst k. now rewrite String.eqb_refl in E.
Qed.

Lemma sq_map_get plan k sq :
  get k (sq_map plan) = Some sq ->
  In sq (sub_questions plan) /\ sq_question_id sq = k.
Proof.
  intros H. apply fold_set_sound in H. destruct H as [H|H]; [exact H|].
  discriminate.
Qed.

Lemma sq_map_known plan k :
  in_plan plan k = true <-> get k (sq_map plan) <> None.
Proof.
  split.
  - intros H. apply in_plan_iff in H. apply fold_set_complete. now right.
  - intros H. destruct (get k (sq_map plan)) as [sq|] eqn:E; [|congruence].
    apply sq_map_get in E. apply in_plan_iff. now exists sq.
Qed.

(** The gate at the head of [route_after_reflection]. *)
Definition gate (state : ResearchState) : bool :=
  is_re_research (next_step state)
  && (get_iteration state <? MAX_ITERATIONS)
  && list_truthy (_get_weak_answers state).

Definition fan_out (state : ResearchState) (plan : ResearchPlan)
    : list Send :=
  flat_map (send_for state (sq_map plan) (_get_suggested_searches state))
           (_get_weak_answers state).

Lemma send_for_researcher state sqs suggested wa s :
  In s (send_for state sqs suggested wa) -> is_researcher s = true.
Proof.
  unfold send_for. destruct (get _ sqs); [|intros []].
  destruct (_get_answer_data _ _). intros [<-|[]]. reflexivity.
Qed.

Lemma fan_out_researchers state plan :
  forallb is_researcher (fan_out state plan) = true.
Proof.
  apply forallb_forall. intros s Hs. unfold fan_out in Hs.
  apply in_flat_map in Hs. destruct Hs as (wa & _ & Hs).
  eapply send_for_researcher; eassumption.
Qed.

Lemma enters_nonempty (sends : list Send) :
  forallb is_researcher sends = true ->
  enters_re_research sends = list_truthy sends.
Proof.
  destruct sends as [|s l]; [reflexivity|]. simpl.
  intros H. apply andb_prop in H. destruct H as [-> _]. reflexivity.
Qed.

(** The router either goes to the compiler alone or fans out. *)
Lemma route_cases state :
  (route_after_reflection state = [SendCompiler state]
   /\ enters_re_research (route_after_reflection state) = false)
  \/ (exists plan, research_plan state = Some plan /\ gate state = true
        /\ route_after_reflection state = fan_out state plan
        /\ enters_re_research (route_after_reflection state) = true).
Proof.
  unfold route_after_reflection, gate.
  destruct (is_re_research (next_step state)); simpl; [|now left].
  rewrite Z.leb_antisym.
  destruct (get_iteration state <? MAX_ITERATIONS); simpl; [|now left].
  destruct (list_truthy (_get_weak_answers state)); simpl; [|now left].
  unfold _get_plan.
  destruct (research_plan state) as [plan|]; [|now left].
  fold (fan_out state plan).
  destruct (list_truthy (fan_out state plan)) eqn:E; [|now left].
  right. exists plan. repeat split.
  rewrite enters_nonempty; [exact E|apply fan_out_researchers].
Qed.

Lemma fan_out_nonempty state plan :
  list_truthy (fan_out state plan) = true <->
  exists wa, In wa (_get_weak_answers state)
             /\ in_plan plan (wa_question_id wa) = true.
Proof.
  unfold fan_out. split.
  - intros H.
    destruct (flat_map _ _) as [|s l] eqn:E; [discriminate|].
    assert (Hin : In s (s :: l)) by now left.
    rewrite <- E in Hin. apply in_flat_map in Hin.
    destruct Hin as (wa & Hwa & Hs). exists wa. split; [assumption|].
    apply sq_map_known. unfold send_for in Hs.
    destruct (get _ (sq_map plan)); [discriminate|destruct Hs].
  - intros (wa & Hwa & Hk). apply sq_map_known in Hk.
    destruct (get (wa_question_id wa) (sq_map plan)) as [sq|] eqn:E;
      [|congruence].
    destruct (flat_map _ _) as [|s l] eqn:Ef; [|reflexivity].
    exfalso.
    assert (Hin : In (SendResearcher
      {| in_sub_question := sq;
         in_main_query := None;
         in_previous_answer :=
           Some (fst (_get_answer_data state (wa_question_id wa)));
         in_previous_sources :=
           Some (snd (_get_answer_data state (wa_question_id wa)));
         in_improvement_suggestion := Some (suggestion wa);
         in_suggested_searches := Some (_get_suggested_searches state) |})
      []).
    { rewrite <- Ef. apply in_flat_map. exists wa. split; [assumption|].
      unfold send_for. rewrite E.
      destruct (_get_answer_data state (wa_question_id wa)). now left. }
    destruct Hin.
Qed.

(** The router re-researches exactly when its gate is open and some weak
    answer names a sub-question of the plan. *)
Lemma enters_iff state :
  enters_re_research (route_after_reflection state) = true <->
  gate state = true /\
  exists plan, research_plan state = Some plan /\
    exists wa, In wa (_get_weak_answers state)
               /\ in_plan plan (wa_question_id wa) = true.
Proof.
  split.
  - intros H. destruct (route_cases state) as [[_ Hc]|(plan & Hp & Hg & Hr & _)];
      [congruence|].
    split; [assumption|]. exists plan. split; [assumption|].
    apply fan_out_nonempty. rewrite Hr in H.
    rewrite enters_nonempty in H; [exact H|apply fan_out_researchers].
  - intros (Hg & plan & Hp & Hk). apply fan_out_nonempty in Hk.
    unfold gate in Hg. apply andb_prop in Hg. destruct Hg as [Hg Hw].
    apply andb_prop in Hg. destruct Hg as [Hn Hi].
    unfold route_after_reflection, _get_plan.
    rewrite Hn, Hw, Hp, Z.leb_antisym, Hi. simpl.
    fold (fan_out state plan). rewrite Hk.
    rewrite enters_nonempty; [exact Hk|apply fan_out_researchers].
Qed.


(** What a re-research task for the weak answer [wa] carries. *)
Definition task_for (state : ResearchState) (plan : ResearchPlan)
    (wa : WeakAnswer) (s : Send) : Prop :=
  exists sq,
    In sq (sub_questions plan)
    /\ sq_question_id sq = wa_question_id wa
    /\ s = SendResearcher
             {| in_sub_question := sq;
                in_main_query := None;
                in_previous_answer :=
                  Some (fst (_get_answer_data state (wa_question_id wa)));
                in_previous_sources :=
                  Some (snd (_get_answer_data state (wa_question_id wa)));
                in_improvement_suggestion := Some (suggestion wa);
                in_suggested_searches :=
                  Some (_get_suggested_searches state) |}.

Definition known_weak (plan : ResearchPlan) (weak : list WeakAnswer)
    : list WeakAnswer :=
  filter (fun wa => in_plan plan (wa_question_id wa)) weak.

Lemma fan_out_tasks state plan :
  Forall2 (task_for state plan)
          (known_weak plan (_get_weak_answers state))
          (fan_out state plan).
Proof.
  unfold fan_out, known_weak.
  induction (_get_weak_answers state) as [|wa weak IH]; simpl; [constructor|].
  unfold send_for at 1.
  destruct (get (wa_question_id wa) (sq_map plan)) as [sq|] eqn:E.
  - assert (Hk : in_plan plan (wa_question_id wa) = true)
      by (apply sq_map_known; congruence).
    rewrite Hk. apply sq_map_get in E. destruct E as [Hin He].
    destruct (_get_answer_data state (wa_question_id wa)) as [t srcs] eqn:Ed.
    simpl. constructor; [|exact IH].
    exists sq. rewrite Ed. auto.
  - destruct (in_plan plan (wa_question_id wa)) eqn:Hk; [|exact IH].
    apply sq_map_known in Hk. congruence.
Qed.

Lemma known_weak_length plan weak :
  (List.length (known_weak plan weak) <= List.length weak)%nat.
Proof. apply filter_length_le. Qed.

Lemma known_weak_all plan weak :
  (forall wa, In wa weak -> in_plan plan (wa_question_id wa) = true) ->
  known_weak plan weak = weak.
Proof.
  intros H. unfold known_weak. induction weak as [|wa weak IH]; simpl;
    [reflexivity|].
  rewrite (H wa) by now left. f_equal. apply IH. intros; apply H. now right.
Qed.

End GraphFacts.

(** ** Reflection rounds *)

Module ReflectionFacts.
Import Graph GraphFacts Reflection.

Lemma list_truthy_iff {A : Type} (l : list A) :
  list_truthy l = true <-> l <> [].
Proof. destruct l; simpl; split; congruence. Qed.

Lemma should_improve_iff max_iterations analysis current :
  should_improve max_iterations analysis current = true <->
  overall_assessment analysis = needs_improvement
  /\ weak_answers analysis <> []
  /\ current < max_iterations.
Proof.
  unfold should_improve.
  rewrite !andb_true_iff, list_truthy_iff, Z.ltb_lt.
  destruct (overall_assessment analysis); intuition congruence.
Qed.

Section Round.
Variable analyze_research :
  ResearchPlan -> PyDict.t QuestionAnswer -> AgentAnalysis.
Variable max_iterations : Z.
Variables (state state' : ResearchState) (plan : ResearchPlan).
Hypothesis Hplan : research_plan state = Some plan.
Hypothesis Hnode :
  reflection_node analyze_research max_iterations state = Some state'.

Let analysis := analyze_research plan (question_answers state).
Let needs :=
  should_improve max_iterations analysis (get_iteration state).

Lemma node_plan : research_plan state' = Some plan.
Proof.
  unfold reflection_node in Hnode. rewrite Hplan in Hnode.
  now injection Hnode as <-.
Qed.

Lemma node_analysis : agent_analysis state' = Some analysis.
Proof.
  unfold reflection_node in Hnode. rewrite Hplan in Hnode.
  now injection Hnode as <-.
Qed.

Lemma node_iteration :
  get_iteration state' =
  if needs then get_iteration state + 1 else get_iteration state.
Proof.
  unfold reflection_node in Hnode. rewrite Hplan in Hnode.
  now injection Hnode as <-.
Qed.

Lemma node_step : is_re_research (next_step state') = needs.
Proof.
  unfold reflection_node in Hnode. rewrite Hplan in Hnode.
  injection Hnode as <-. simpl. fold analysis. fold needs.
  now destruct needs.
Qed.

Lemma node_weak : _get_weak_answers state' = weak_answers analysis.
Proof. unfold _get_weak_answers. now rewrite node_analysis. Qed.

(** The gate of the router after the node has run. *)
Lemma node_gate :
  gate state' = needs && (get_iteration state + 1 <? MAX_ITERATIONS).
Proof.
  unfold gate. rewrite node_step, node_iteration, node_weak.
  destruct needs eqn:E; [|reflexivity].
  apply should_improve_iff in E. destruct E as (_ & Hw & _).
  apply list_truthy_iff in Hw. rewrite Hw. now rewrite andb_true_r.
Qed.

Lemma round_enters_iff :
  enters_re_research (route_after_reflection state') = true <->
  needs = true
  /\ get_iteration state + 1 < MAX_ITERATIONS
  /\ exists wa, In wa (weak_answers analysis)
                /\ in_plan plan (wa_question_id wa) = true.
Proof.
  rewrite enters_iff, node_gate, andb_true_iff, Z.ltb_lt, node_weak.
  split.
  - intros ((Hn & Hi) & plan' & Hp & Hk).
    rewrite node_plan in Hp. injection Hp as <-. auto.
  - intros (Hn & Hi & Hk). split; [auto|].
    exists plan. split; [apply node_plan|exact Hk].
Qed.
End Round.

End ReflectionFacts.

(** ** Sample data *)

Module Samples.
Import Citations.

Definition sq (q_id : string) : SubQuestion :=
  {| sq_question_id := q_id; sq_question := "What is " ++ q_id ++ "?";
     sq_search_strategy := "web"; sq_importance := "critical" |}.

Definition plan2 : ResearchPlan :=
  {| main_question := "Main"; sub_questions := [sq "q1"; sq "q2"] |}.

Definition empty_plan : ResearchPlan :=
  {| main_question := "Main"; sub_questions := [] |}.

Definition source (i u t : string) : SourceMetadata :=
  {| src_id := i; src_url := u; src_title := t;
     src_full_content := "text"; src_timestamp := "2025-01-01T00:00:00" |}.

Definition answer1 : QuestionAnswer :=
  {| qa_question_id := "q1"; qa_question := "What is q1?";
     answer := "First answer [src_a1]."; key_findings := [];
     sources := [source "src_a1" "http://a" "A"];
     confidence := "high"; completeness := "complete" |}.

Definition weak (q_id : string) : WeakAnswer :=
  {| wa_question_id := q_id; issue := "thin"; suggestion := "dig deeper" |}.

Definition analysis (weak : list WeakAnswer) : AgentAnalysis :=
  {| overall_assessment := needs_improvement; weak_answers := weak;
     knowledge_gaps := []; conflicting_info := [];
     suggested_questions := []; suggested_searches := ["more about q1"];
     reasoning := "" |}.

(** The analyzer that flags [weak] whatever it is shown. *)
Definition analyzer (weak : list WeakAnswer)
    : ResearchPlan -> PyDict.t QuestionAnswer -> AgentAnalysis :=
  fun _ _ => analysis weak.

(** A state as the aggregate stage leaves it, with the given plan and
    iteration count. *)
Definition researched (plan : ResearchPlan) (iteration : option Z)
    : ResearchState :=
  {| original_query := Some "Main";
     research_plan := Some plan;
     question_answers := [("q1", answer1)];
     compressed_findings := [("q1", "# Research: What is q1?")];
     current_iteration := iteration;
     agent_analysis := None;
     final_report := None;
     next_step := None |}.

(** A state as the planner leaves it. *)
Definition planned (plan : option ResearchPlan) : ResearchState :=
  {| original_query := Some "Main";
     research_plan := plan;
     question_answers := [];
     compressed_findings := [];
     current_iteration := None;
     agent_analysis := None;
     final_report := None;
     next_step := None |}.

(** A state as the reflection node leaves it when it asks for
    re-research. *)
Definition reflected (weak : list WeakAnswer) : ResearchState :=
  {| original_query := Some "Main";
     research_plan := Some plan2;
     question_answers := [("q1", answer1)];
     compressed_findings := [("q1", "# Research: What is q1?")];
     current_iteration := Some 1;
     agent_analysis := Some (analysis weak);
     final_report := None;
     next_step := Some "re_research" |}.

Definition hit (u : string) (s : Z) : SearchResult :=
  {| res_url := Some u; res_title := Some "t"; res_content := Some "c";
     res_score := Some s; res_full_content := None |}.

Definition cited_once : string := "A [src_a].".

Definition catalogue : list SourceMetadata := [source "src_a" "http://u" "T"].

Definition text_BAC : string := "x [src_B] y [src_A] z [src_C].".

Definition text_ABC : string := "[src_A][src_B] and [src_C], again [src_B]".

End Samples.

(** ** The claims as the specification words them, where the code differs *)

Module AsStated.
Import Graph Reflection Citations.

(** Re-research is entered if and only if the assessment is
    [needs_improvement], some answer is weak and the iteration count is
    below the bound. *)
Definition re_research_iff_three_conditions
    (analyze_research :
       ResearchPlan -> PyDict.t QuestionAnswer -> AgentAnalysis)
    (max_iterations : Z) (state : ResearchState) : Prop :=
  forall state' sends analysis,
    reflection_round analyze_research max_iterations state
      = Some (state', sends) ->
    agent_analysis state' = Some analysis ->
    (enters_re_research sends = true <->
     overall_assessment analysis = needs_improvement
     /\ weak_answers analysis <> []
     /\ get_iteration state < max_iterations).

(** Re-research dispatches exactly [len(weak_answers)] tasks. *)
Definition one_task_per_weak_answer (state : ResearchState) : Prop :=
  enters_re_research (route_after_reflection state) = true ->
  List.length (route_after_reflection state)
  = List.length (_get_weak_answers state).

(** The formatter returns its own output unchanged. *)
Definition idempotent_on_output (report : string)
    (srcs : list SourceMetadata) : Prop :=
  findall (_format_citations report srcs) = [] ->
  _format_citations (_format_citations report srcs) srcs
  = _format_citations report srcs.

End AsStated.

(** * The claims *)

Import Graph GraphFacts Reflection ReflectionFacts.
Import Ranker RankerFacts Citations CitationFacts FormatFacts StrOrder.

(** C1 (as the code has it).  In a reflection round the machine enters
    re-research only if the assessment is [needs_improvement], some answer
    is weak and the iteration count is below [max_iterations], and
    moreover some weak answer names a sub-question of the plan.  When it
    does not enter re-research it goes to the compiler alone, which is the
    case whenever one of the three conditions fails.  In the first round
    (iteration count 0) the conditions are also sufficient. *)
Theorem reflection_round_re_research_conditions :
  forall (analyze_research :
            ResearchPlan -> PyDict.t QuestionAnswer -> AgentAnalysis)
         (max_iterations : Z) (state : ResearchState) (plan : ResearchPlan),
    research_plan state = Some plan ->
    let analysis := analyze_research plan (question_answers state) in
    let three :=
      overall_assessment analysis = needs_improvement
      /\ weak_answers analysis <> []
      /\ get_iteration state < max_iterations in
    let known :=
      exists wa, In wa (weak_answers analysis)
                 /\ in_plan plan (wa_question_id wa) = true in
    exists state',
      reflection_round analyze_research max_iterations state
        = Some (state', route_after_reflection state')
      /\ agent_analysis state' = Some analysis
      /\ (enters_re_research (route_after_reflection state') = true ->
          three /\ known)
      /\ (enters_re_research (route_after_reflection state') = false ->
          route_after_reflection state' = [SendCompiler state'])
      /\ (~ three ->
          enters_re_research (route_after_reflection state') = false)
      /\ (get_iteration state = 0 -> three -> known ->
          enters_re_research (route_after_reflection state') = true).
Proof.
  intros analyze_research max_iterations state plan Hplan analysis three known.
  destruct (reflection_node analyze_research max_iterations state)
    as [state'|] eqn:Hnode;
    [|unfold reflection_node in Hnode; rewrite Hplan in Hnode; discriminate].
  exists state'.
  pose proof (round_enters_iff _ _ _ _ _ Hplan Hnode) as Hiff.
  fold analysis in Hiff. rewrite should_improve_iff in Hiff. fold three in Hiff.
  split; [unfold reflection_round; now rewrite Hnode|].
  split; [eapply node_analysis; eassumption|].
  split; [intros H; apply Hiff in H; tauto|].
  split.
  - intros H. destruct (route_cases state') as [[Hc _]|(_ & _ & _ & _ & He)];
      [exact Hc|congruence].
  - split.
    + intros Hn.
      destruct (enters_re_research (route_after_reflection state')) eqn:E;
        [|reflexivity].
      exfalso. apply Hn. now apply Hiff.
    + intros H0 H3 Hk. apply Hiff. rewrite H0.
      split; [exact H3|]. split; [reflexivity|exact Hk].
Qed.

Lemma reflection_round_re_research_conditions_witness :
  research_plan (Samples.researched Samples.plan2 None) = Some Samples.plan2
  /\ enters_re_research
       (match reflection_round (Samples.analyzer [Samples.weak "q1"]) 2
                (Samples.researched Samples.plan2 None) with
        | Some (_, sends) => sends
        | None => []
        end) = true.
Proof.
  split; [reflexivity|].
  destruct (reflection_round_re_research_conditions
              (Samples.analyzer [Samples.weak "q1"]) 2
              (Samples.researched Samples.plan2 None) Samples.plan2 eq_refl)
    as (state' & Hround & _ & _ & _ & _ & Hsuff).
  rewrite Hround. apply Hsuff.
  - reflexivity.
  - split; [reflexivity|]. split; [discriminate|reflexivity].
  - exists (Samples.weak "q1"). split; [now left|reflexivity].
Defined.

(** C1, counterexample.  In the first round, with the default bound 2, an
    assessment [needs_improvement] whose only weak answer names a question
    that is not in the plan meets the three conditions, and the machine
    goes to the compiler. *)
Lemma re_research_iff_three_conditions_counterexample :
  ~ AsStated.re_research_iff_three_conditions
      (Samples.analyzer [Samples.weak "zz"]) 2
      (Samples.researched Samples.plan2 None).
Proof.
  intros H.
  specialize (H _ _ _ eq_refl eq_refl). destruct H as [_ H].
  assert (Hthree :
    overall_assessment (Samples.analysis [Samples.weak "zz"])
      = needs_improvement
    /\ weak_answers (Samples.analysis [Samples.weak "zz"]) <> []
    /\ get_iteration (Samples.researched Samples.plan2 None) < 2).
  { split; [reflexivity|]. split; [discriminate|reflexivity]. }
  apply H in Hthree. vm_compute in Hthree. discriminate.
Qed.

(** C8, the code at the failing input.  With the default bound 2 and
    iteration count 1, a round whose assessment is [needs_improvement]
    with a weak answer for a question of the plan raises the count to 2
    and then goes to the compiler: the count has grown on a path to
    compiling. *)
Theorem iteration_incremented_on_path_to_compiler :
  exists state',
    reflection_round (Samples.analyzer [Samples.weak "q1"]) 2
                     (Samples.researched Samples.plan2 (Some 1))
      = Some (state', [SendCompiler state'])
    /\ get_iteration (Samples.researched Samples.plan2 (Some 1)) = 1
    /\ get_iteration state' = 2.
Proof.
  eexists. split; [vm_compute; reflexivity|]. split; reflexivity.
Qed.

(** A run that never re-researches can end with a count other than 0: in
    the first round a weak answer naming an unknown question raises the
    count to 1 and the machine goes to the compiler. *)
Lemma iteration_incremented_without_re_research :
  exists state',
    reflection_round (Samples.analyzer [Samples.weak "zz"]) 2
                     (Samples.researched Samples.plan2 None)
      = Some (state', [SendCompiler state'])
    /\ get_iteration state' = 1.
Proof.
  eexists. split; [vm_compute; reflexivity|reflexivity].
Qed.

(** Whenever a round does enter re-research the count grows by exactly
    one, and it is unchanged when the node itself decides to compile. *)
Lemma iteration_on_re_research
    (analyze_research :
       ResearchPlan -> PyDict.t QuestionAnswer -> AgentAnalysis)
    (max_iterations : Z) (state state' : ResearchState) (sends : list Send) :
  reflection_round analyze_research max_iterations state = Some (state', sends) ->
  (enters_re_research sends = true ->
   get_iteration state' = get_iteration state + 1)
  /\ (is_re_research (next_step state') = false ->
      get_iteration state' = get_iteration state).
Proof.
  unfold reflection_round.
  destruct (reflection_node analyze_research max_iterations state)
    as [st|] eqn:Hnode; [|discriminate].
  intros [= -> <-].
  destruct (research_plan state) as [plan|] eqn:Hplan;
    [|unfold reflection_node in Hnode; rewrite Hplan in Hnode; discriminate].
  rewrite (node_iteration _ _ _ _ _ Hplan Hnode).
  rewrite (node_step _ _ _ _ _ Hplan Hnode).
  split.
  - intros H. apply (round_enters_iff _ _ _ _ _ Hplan Hnode) in H.
    destruct H as [-> _]. reflexivity.
  - intros ->. reflexivity.
Qed.

(** C2, the code at the failing input.  For a plan with no sub-question
    the edge out of the planner yields no [Send] at all: neither a
    researcher nor the compiler is scheduled. *)
Theorem route_after_planner_empty_plan_sends_nothing :
  route_after_planner (Samples.planned (Some Samples.empty_plan)) = [].
Proof. reflexivity. Qed.

(** The same for every state whose plan has no sub-question. *)
Lemma route_after_planner_no_sub_questions state plan :
  research_plan state = Some plan -> sub_questions plan = [] ->
  route_after_planner state = [].
Proof.
  intros Hp Hs. unfold route_after_planner, _get_plan. now rewrite Hp, Hs.
Qed.

(** The planner's edge reaches the compiler only from a state without a
    plan, and there [compiler_node] raises instead of producing a
    report. *)
Lemma route_after_planner_compiler_fails
    (write_sections : string -> string -> string -> list string) state :
  In (SendCompiler state) (route_after_planner state) ->
  Compiler.compiler_node write_sections state = None.
Proof.
  unfold route_after_planner, _get_plan, Compiler.compiler_node.
  destruct (research_plan state) as [plan|]; [|reflexivity].
  intros H. apply in_map_iff in H. destruct H as (sq & Hsq & _). discriminate.
Qed.

(** The sibling edge has the fallback: out of reflection, an empty fan-out
    goes to the compiler. *)
Lemma route_after_reflection_never_empty state :
  route_after_reflection state <> [].
Proof.
  destruct (route_cases state) as [[-> _]|(_ & _ & _ & _ & He)]; [discriminate|].
  intros H. rewrite H in He. discriminate.
Qed.

(** C9 (as the code has it).  When the machine enters re-research it
    dispatches, in order, one task for each entry of [weak_answers] whose
    question is in the plan, and nothing for the other entries: at most
    [len(weak_answers)] tasks, and exactly that many when every entry
    names a question of the plan.  Each task carries the sub-question, the
    previous answer and previous sources stored for it, the entry's
    suggestion and the assessment's suggested searches. *)
Theorem re_research_dispatches_known_weak_answers :
  forall (state : ResearchState) (plan : ResearchPlan),
    research_plan state = Some plan ->
    enters_re_research (route_after_reflection state) = true ->
    let weak := _get_weak_answers state in
    Forall2 (task_for state plan) (known_weak plan weak)
            (route_after_reflection state)
    /\ (List.length (route_after_reflection state) <= List.length weak)%nat
    /\ ((forall wa, In wa weak -> in_plan plan (wa_question_id wa) = true) ->
        List.length (route_after_reflection state) = List.length weak).
Proof.
  intros state plan Hplan Henters weak.
  destruct (route_cases state) as [[_ Hc]|(plan' & Hp & _ & Hr & _)];
    [congruence|].
  rewrite Hplan in Hp. injection Hp as <-.
  pose proof (fan_out_tasks state plan) as Htasks. rewrite <- Hr in Htasks.
  fold weak in Htasks. split; [exact Htasks|].
  apply Forall2_length in Htasks. rewrite <- Htasks. split.
  - apply known_weak_length.
  - intros Hall. now rewrite known_weak_all.
Qed.

Lemma re_research_dispatches_known_weak_answers_witness :
  research_plan (Samples.reflected [Samples.weak "q1"; Samples.weak "zz"])
    = Some Samples.plan2
  /\ enters_re_research
       (route_after_reflection
          (Samples.reflected [Samples.weak "q1"; Samples.weak "zz"])) = true
  /\ Forall2
       (task_for (Samples.reflected [Samples.weak "q1"; Samples.weak "zz"])
                 Samples.plan2)
       [Samples.weak "q1"]
       (route_after_reflection
          (Samples.reflected [Samples.weak "q1"; Samples.weak "zz"])).
Proof.
  split; [reflexivity|]. split; [reflexivity|].
  exact (proj1 (re_research_dispatches_known_weak_answers
                  (Samples.reflected [Samples.weak "q1"; Samples.weak "zz"])
                  Samples.plan2 eq_refl eq_refl)).
Defined.

(** C9, counterexample.  With weak answers for [q1] and for an unknown
    question the machine re-researches and dispatches one task, not
    two. *)
Lemma one_task_per_weak_answer_counterexample :
  ~ AsStated.one_task_per_weak_answer
      (Samples.reflected [Samples.weak "q1"; Samples.weak "zz"]).
Proof.
  intros H. specialize (H eq_refl). vm_compute in H. discriminate.
Qed.

(** C3.  For every list of search hits the ranked list has at most one
    entry per URL; each entry is a hit of the input that carries a URL,
    every earlier input hit of that URL scores strictly less and every
    later one scores at most as much, so the entry has the highest score
    of its URL and a later hit replaces a stored one only by a strictly
    higher score; the list descends by score and has at most 10 entries;
    the empty input gives the empty list. *)
Theorem rank_dedup_best_sorted_bounded :
  forall all_results : list SearchResult,
    NoDup (map url_of (rank all_results))
    /\ (forall h, In h (rank all_results) ->
        exists u, url_of h = Some u /\
          exists before after,
            all_results = (before ++ h :: after)%list /\
            (forall h', In h' before -> url_of h' = Some u ->
                        score h' < score h) /\
            (forall h', In h' after -> url_of h' = Some u ->
                        score h' <= score h))
    /\ sorted_desc (rank all_results)
    /\ (List.length (rank all_results) <= 10)%nat
    /\ rank [] = [].
Proof.
  intros all_results. split; [apply rank_nodup|].
  split; [intros h; apply rank_best|].
  split; [apply rank_sorted|].
  split; [apply rank_length|reflexivity].
Qed.

(** C4.  Ranking a list that is already deduplicated by URL (every hit
    keyed by its URL, the URLs distinct), sorted by score descending and
    of length at most 10 returns the list unchanged. *)
Theorem rank_idempotent_on_ranked :
  forall l : list SearchResult,
    (forall h, In h l -> url_of h <> None) ->
    NoDup (map url_of l) ->
    sorted_desc l ->
    (List.length l <= 10)%nat ->
    rank l = l.
Proof.
  intros l Hkeyed Hnd Hsorted Hlen. apply rank_fixed. now split.
Qed.

Lemma rank_idempotent_on_ranked_witness :
  let l := [Samples.hit "http://a" 9; Samples.hit "http://b" 9;
            Samples.hit "http://c" 4] in
  (forall h, In h l -> url_of h <> None)
  /\ NoDup (map url_of l)
  /\ sorted_desc l
  /\ (List.length l <= 10)%nat
  /\ rank l = l.
Proof.
  intros l.
  assert (Hkeyed : forall h, In h l -> url_of h <> None).
  { intros h [<-|[<-|[<-|[]]]]; discriminate. }
  assert (Hnd : NoDup (map url_of l)).
  { repeat constructor; simpl; intuition discriminate. }
  assert (Hsorted : sorted_desc l).
  { unfold sorted_desc.
    repeat match goal with
           | |- StronglySorted _ _ => constructor
           | |- Forall _ _ => constructor
           | |- _ <= _ => vm_compute; discriminate
           end. }
  assert (Hlen : (List.length l <= 10)%nat) by (simpl; lia).
  split; [exact Hkeyed|]. split; [exact Hnd|].
  split; [exact Hsorted|]. split; [exact Hlen|].
  exact (rank_idempotent_on_ranked l Hkeyed Hnd Hsorted Hlen).
Defined.

(** C5.  The display numbers are a function of the set of identifiers
    cited in the text: two texts citing the same identifiers, in whatever
    order and however often, get the same numbering.  The numbering lists
    the cited identifiers in strictly ascending lexical order and numbers
    them 1, 2, 3, ... *)
Theorem citation_numbers_depend_on_cited_set :
  forall report report' : string,
    (forall sid, In sid (findall report) <-> In sid (findall report')) ->
    id_to_num report = id_to_num report'
    /\ StronglySorted str_lt (PyDict.keys (id_to_num report))
    /\ PyDict.values (id_to_num report)
       = seq 1 (List.length (PyDict.keys (id_to_num report)))
    /\ (forall sid, In sid (PyDict.keys (id_to_num report))
                    <-> In sid (findall report)).
Proof.
  intros report report' Hsame.
  rewrite !id_to_num_numbered, (sorted_used_ext _ _ Hsame).
  rewrite keys_numbered, values_numbered.
  rewrite <- (sorted_used_ext _ _ Hsame).
  split; [reflexivity|]. split; [apply sorted_used_sorted|].
  split; [reflexivity|]. intros sid. apply In_sorted_used.
Qed.

Lemma citation_numbers_depend_on_cited_set_witness :
  (forall sid, In sid (findall Samples.text_BAC)
               <-> In sid (findall Samples.text_ABC))
  /\ id_to_num Samples.text_BAC = [("src_A", 1); ("src_B", 2); ("src_C", 3)]%nat
  /\ id_to_num Samples.text_ABC = id_to_num Samples.text_BAC.
Proof.
  assert (Hsame : forall sid, In sid (findall Samples.text_BAC)
                              <-> In sid (findall Samples.text_ABC)).
  { intros sid. vm_compute. tauto. }
  split; [exact Hsame|]. split; [reflexivity|].
  symmetry.
  exact (proj1 (citation_numbers_depend_on_cited_set
                  Samples.text_BAC Samples.text_ABC Hsame)).
Defined.

(** C6 (as the code has it).  On a text in which no marker is left, such
    as a report the formatter has produced, the formatter renumbers
    nothing and appends nothing: it returns the text with its References
    section stripped.  The text comes back unchanged exactly when it has
    no References heading. *)
Theorem format_citations_without_markers_strips_references :
  forall (report : string) (srcs : list SourceMetadata),
    findall report = [] ->
    _format_citations report srcs = strip_references report
    /\ (_format_citations report srcs = report
        <-> Re.matches references_re report = []).
Proof.
  intros report srcs H. rewrite (format_no_markers report srcs H).
  split; [reflexivity|apply strip_fixed_iff].
Qed.

Lemma format_citations_without_markers_strips_references_witness :
  let out := _format_citations Samples.cited_once Samples.catalogue in
  findall out = []
  /\ _format_citations out Samples.catalogue = "A [1]."
  /\ _format_citations "A [1]." Samples.catalogue = "A [1].".
Proof.
  intros out. split; [reflexivity|].
  pose proof (format_citations_without_markers_strips_references
                out Samples.catalogue eq_refl) as [H1 _].
  pose proof (format_citations_without_markers_strips_references
                "A [1]." Samples.catalogue eq_refl) as [_ H2].
  split; [rewrite H1; reflexivity|apply H2; reflexivity].
Defined.

(** C6, counterexample.  The report produced for a text with one resolved
    citation carries a reference list; formatting it again strips the
    list. *)
Lemma format_citations_not_idempotent :
  ~ AsStated.idempotent_on_output Samples.cited_once Samples.catalogue.
Proof.
  intros H. specialize (H eq_refl). vm_compute in H. discriminate.
Qed.

(** C7, the code at the failing input.  A marker whose identifier is not
    in the catalogue is given a display number like any other; no [[?]]
    is written.  The identifier has no line in the reference list, so
    only the heading is appended. *)
Theorem unresolved_marker_is_numbered :
  _format_citations "See [src_zz]." []
  = "See [1]." ++ references_header.
Proof. reflexivity. Qed.

(** For every text, the replacement written for a marker is a display
    number: the [?] default of [replace] is never taken. *)
Lemma marker_always_numbered report m :
  In (Re.Match m) (Re.scan marker_re 0 report) ->
  exists n, (1 <= n)%nat
            /\ replace (id_to_num report) m = "[" ++ str_of_nat n ++ "]".
Proof.
  intros Hin.
  assert (Hsid : In (group1 m) (findall report)).
  { unfold findall, Re.matches. apply in_map, in_flat_map.
    exists (Re.Match m). split; [exact Hin|now left]. }
  destruct (id_to_num_total report _ Hsid) as (n & Hn & Hle).
  exists n. split; [exact Hle|]. unfold replace. now rewrite Hn.
Qed.

(** An identifier with no catalogue entry has no line in the reference
    list. *)
Lemma unresolved_reference_omitted report srcs sid :
  PyDict.get sid (source_map srcs) = None ->
  reference_entry (id_to_num report) (source_map srcs) sid = [].
Proof.
  intros H. unfold reference_entry. rewrite H.
  now destruct (PyDict.get sid (id_to_num report)).
Qed.

(** C10.  In [improve_research], when the searches return no result at
    all the answer keeps the previous text and has no sources; when
    results are found and no finding is extracted from them it keeps the
    previous text and the previous sources.  In both cases there are no
    findings, the confidence is "medium" and the completeness "partial",
    whatever the previous round had. *)
Theorem improve_research_fallbacks :
  forall (search_tavily : string -> Z -> list SearchResult)
         (extract_full_content : list string -> PyDict.t string)
         (extract_findings :
            list SearchResult -> SubQuestion
            -> list Finding * list SourceMetadata)
         (_synthesize_improved :
            SubQuestion -> string -> list Finding -> string -> string)
         (sub_question : SubQuestion)
         (previous_answer improvement_suggestion : string)
         (previous_sources : option (list SourceMetadata))
         (suggested_searches : option (list string)),
    let all_results :=
      Researcher.collect_results search_tavily
        (Researcher.queries_of improvement_suggestion
                               (or_empty suggested_searches)) in
    let top_results := rank all_results in
    let top_urls :=
      flat_map (fun r => match url_of r with Some u => [u] | None => [] end)
               top_results in
    let enriched :=
      map (Researcher.enrich (extract_full_content top_urls)) top_results in
    let result :=
      Researcher.improve_research search_tavily extract_full_content
        extract_findings _synthesize_improved sub_question previous_answer
        improvement_suggestion previous_sources suggested_searches in
    let fallback srcs :=
      {| qa_question_id := sq_question_id sub_question;
         qa_question := sq_question sub_question;
         answer := previous_answer;
         key_findings := [];
         sources := srcs;
         confidence := "medium";
         completeness := "partial" |} in
    (all_results = [] -> result = fallback [])
    /\ (all_results <> [] ->
        fst (extract_findings enriched sub_question) = [] ->
        result = fallback (or_empty previous_sources)).
Proof.
  intros. subst result. unfold Researcher.improve_research.
  fold all_results. split.
  - intros ->. reflexivity.
  - intros Hne Hnone.
    destruct all_results as [|r l] eqn:E; [congruence|].
    cbn [list_truthy negb]. fold top_results. fold top_urls. fold enriched.
    destruct (extract_findings enriched sub_question) as [findings srcs].
    simpl in Hnone. subst findings. reflexivity.
Qed.

Lemma improve_research_fallbacks_witness :
  let silent : string -> Z -> list SearchResult := fun _ _ => [] in
  let one_hit : string -> Z -> list SearchResult :=
    fun _ _ => [Samples.hit "http://a" 7] in
  let no_content : list string -> PyDict.t string := fun _ => [] in
  let no_findings :
    list SearchResult -> SubQuestion -> list Finding * list SourceMetadata :=
    fun _ _ => ([], [Samples.source "src_n" "http://a" "N"]) in
  let synth : SubQuestion -> string -> list Finding -> string -> string :=
    fun _ _ _ _ => "improved" in
  let prev := Some (sources Samples.answer1) in
  (Researcher.collect_results silent
     (Researcher.queries_of "dig deeper" (or_empty (Some ["more about q1"])))
   = []
   /\ sources (Researcher.improve_research silent no_content no_findings synth
                 (Samples.sq "q1") "old" "dig deeper" prev
                 (Some ["more about q1"])) = [])
  /\ (Researcher.collect_results one_hit
        (Researcher.queries_of "dig deeper" (or_empty (Some ["more about q1"])))
      <> []
      /\ sources (Researcher.improve_research one_hit no_content no_findings
                    synth (Samples.sq "q1") "old" "dig deeper" prev
                    (Some ["more about q1"])) = sources Samples.answer1).
Proof.
  intros silent one_hit no_content no_findings synth prev. split.
  - split; [reflexivity|].
    rewrite (proj1 (improve_research_fallbacks silent no_content no_findings
                      synth (Samples.sq "q1") "old" "dig deeper" prev
                      (Some ["more about q1"])) eq_refl).
    reflexivity.
  - split; [discriminate|].
    rewrite (proj2 (improve_research_fallbacks one_hit no_content no_findings
                      synth (Samples.sq "q1") "old" "dig deeper" prev
                      (Some ["more about q1"]))).
    + reflexivity.
    + discriminate.
    + reflexivity.
Defined.

(** * Further properties of the code *)

(** ** String methods *)

Module PyStrFacts.
Import PyStr.

Definition starts_clean (s : string) : Prop :=
  match s with
  | EmptyString => True
  | String c _ => Citations.is_space c = false
  end.

Lemma lstrip_clean s : starts_clean (lstrip s).
Proof.
  induction s as [|c s IH]; simpl; [exact I|].
  destruct (Citations.is_space c) eqn:E; [exact IH|exact E].
Qed.

Lemma lstrip_fixed s : starts_clean s -> lstrip s = s.
Proof. destruct s as [|c s]; simpl; [reflexivity|]. now intros ->. Qed.

Lemma rstrip_clean s : starts_clean s -> starts_clean (rstrip s).
Proof.
  destruct s as [|c s]; simpl; [trivial|]. intros H.
  destruct (rstrip s); [rewrite H|]; exact H.
Qed.

Lemma rstrip_cons c s :
  rstrip (String c s)
  = match rstrip s with
    | EmptyString =>
        if Citations.is_space c then EmptyString else String c EmptyString
    | r => String c r
    end.
Proof. reflexivity. Qed.

Lemma rstrip_idem s : rstrip (rstrip s) = rstrip s.
Proof.
  induction s as [|c s IH]; [reflexivity|].
  rewrite rstrip_cons. destruct (rstrip s) as [|d r] eqn:E.
  - destruct (Citations.is_space c) eqn:Ec; [reflexivity|].
    simpl. now rewrite Ec.
  - rewrite rstrip_cons, IH. reflexivity.
Qed.

(** [strip] leaves a stripped string alone. *)
Lemma strip_idem s : strip (strip s) = strip s.
Proof.
  unfold strip.
  rewrite (lstrip_fixed (rstrip (lstrip s))).
  - apply rstrip_idem.
  - apply rstrip_clean, lstrip_clean.
Qed.

End PyStrFacts.

(** ** The reducers of the result store *)

Module StoreFacts.
Import PyDict PyDictFacts.

Section Update.
Context {V : Type}.
Implicit Types (d new : PyDict.t V) (k : string).

Lemma get_fold_set new : forall d k,
  ~ In k (keys new) ->
  get k (fold_left (fun acc kv => set (fst kv) (snd kv) acc) new d) = get k d.
Proof.
  induction new as [|[k' v'] new IH]; intros d k Hk; simpl; [reflexivity|].
  simpl in Hk. rewrite IH by tauto. apply get_set_other. intuition.
Qed.

(** After [merged.update(new)] a key of [new] has the value of [new], any
    other key the value it had. *)
Lemma get_update d new k :
  NoDup (keys new) ->
  get k (update d new)
  = match get k new with Some v => Some v | None => get k d end.
Proof.
  unfold update. revert d.
  induction new as [|[k' v'] new IH]; intros d Hnd; simpl; [reflexivity|].
  inversion Hnd as [|? ? Hnotin Hnd']; subst.
  destruct (String.eqb k k') eqn:E.
  - apply String.eqb_eq in E. subst k'.
    rewrite get_fold_set by exact Hnotin. apply get_set_same.
  - rewrite IH by exact Hnd'. destruct (get k new); [reflexivity|].
    apply String.eqb_neq in E. now apply get_set_other.
Qed.

Lemma set_same k v d : get k d = Some v -> set k v d = d.
Proof.
  induction d as [|[k' v'] d IH]; simpl; [discriminate|].
  destruct (String.eqb k k') eqn:E.
  - apply String.eqb_eq in E. subst. now intros [= ->].
  - intros H. now rewrite IH.
Qed.

Lemma fold_set_fixed new : forall d,
  (forall k v, In (k, v) new -> get k d = Some v) ->
  fold_left (fun acc kv => set (fst kv) (snd kv) acc) new d = d.
Proof.
  induction new as [|[k v] new IH]; intros d H; simpl; [reflexivity|].
  rewrite set_same by (apply H; now left). apply IH.
  intros k' v' Hin. apply H. now right.
Qed.

Lemma update_idem d new :
  NoDup (keys new) -> update (update d new) new = update d new.
Proof.
  intros Hnd. unfold update at 1. apply fold_set_fixed.
  intros k v Hin. rewrite get_update by exact Hnd.
  now rewrite (In_get _ _ _ Hnd Hin).
Qed.

Lemma keys_fold_set new : forall d k,
  In k (keys d) ->
  In k (keys (fold_left (fun acc kv => set (fst kv) (snd kv) acc) new d)).
Proof.
  induction new as [|[k' v'] new IH]; intros d k Hk; simpl; [exact Hk|].
  apply IH. destruct (get k' d) eqn:E.
  - rewrite keys_set_present; congruence.
  - rewrite set_new by exact E. unfold keys. rewrite map_app.
    apply in_or_app. now left.
Qed.
End Update.

End StoreFacts.

(** X1.  Merging an update into the result store is last-writer-wins per
    key: a key of the update gets the update's value, every other key
    keeps the value it had; and merging the same update a second time
    changes nothing.  The same holds for both reducers. *)
Theorem merge_last_writer_wins :
  forall (existing new : PyDict.t QuestionAnswer)
         (existing_c new_c : PyDict.t string) (k : string),
    NoDup (PyDict.keys new) -> NoDup (PyDict.keys new_c) ->
    PyDict.get k (merge_question_answers existing new)
    = match PyDict.get k new with
      | Some a => Some a
      | None => PyDict.get k existing
      end
    /\ PyDict.get k (merge_compressed_findings existing_c new_c)
       = match PyDict.get k new_c with
         | Some c => Some c
         | None => PyDict.get k existing_c
         end
    /\ merge_question_answers (merge_question_answers existing new) new
       = merge_question_answers existing new
    /\ merge_compressed_findings
         (merge_compressed_findings existing_c new_c) new_c
       = merge_compressed_findings existing_c new_c.
Proof.
  intros existing new existing_c new_c k Hnd Hndc.
  unfold merge_question_answers, merge_compressed_findings.
  repeat split;
    first [ now apply StoreFacts.get_update
          | now apply StoreFacts.update_idem ].
Qed.

Lemma merge_last_writer_wins_witness :
  let existing := [("q1", Samples.answer1)] in
  let new := [("q2", Samples.answer1)] in
  NoDup (PyDict.keys new) /\ NoDup (PyDict.keys [("q2", "text")])
  /\ PyDict.get "q1" (merge_question_answers existing new)
     = Some Samples.answer1.
Proof.
  intros existing new.
  assert (H1 : NoDup (PyDict.keys new))
    by (repeat constructor; simpl; tauto).
  assert (H2 : NoDup (PyDict.keys [("q2", "text")]))
    by (repeat constructor; simpl; tauto).
  split; [exact H1|]. split; [exact H2|].
  rewrite (proj1 (merge_last_writer_wins existing new [] [("q2", "text")]
                    "q1" H1 H2)).
  reflexivity.
Defined.

(** ** Planning *)

Module PlannerFacts.
Import Planner Graph.

(** The rank of an importance level in the cut: critical first. *)
Definition priority (q : SubQuestion) : nat :=
  if has_importance "critical" q then 0
  else if has_importance "important" q then 1
  else if has_importance "supporting" q then 2
  else 3.

Definition by_priority (l : list SubQuestion) : Prop :=
  StronglySorted (fun a b => (priority a <= priority b)%nat) l.

Lemma In_slice_to {A : Type} (n : Z) (l : list A) (x : A) :
  In x (list_slice_to n l) -> In x l.
Proof. unfold list_slice_to. destruct (n <? 0); apply In_firstn. Qed.

Lemma slice_to_length {A : Type} (n : Z) (l : list A) :
  0 <= n -> Z.of_nat (List.length (list_slice_to n l)) <= n.
Proof.
  intros Hn. unfold list_slice_to.
  destruct (n <? 0) eqn:E; [apply Z.ltb_lt in E; lia|].
  pose proof (firstn_le_length (Z.to_nat n) l). lia.
Qed.

Lemma StronglySorted_app {A : Type} (R : A -> A -> Prop) (l1 l2 : list A) :
  StronglySorted R l1 -> StronglySorted R l2 ->
  (forall a b, In a l1 -> In b l2 -> R a b) ->
  StronglySorted R (l1 ++ l2).
Proof.
  induction 1 as [|x l1 Hs IH Hall]; intros H2 Hcross; simpl; [exact H2|].
  constructor.
  - apply IH; [exact H2|]. intros a b Ha Hb. apply Hcross; [now right|exact Hb].
  - apply Forall_app. split; [exact Hall|].
    apply Forall_forall. intros b Hb. apply Hcross; [now left|exact Hb].
Qed.

Lemma filter_constant (level : string) (n : nat) (l : list SubQuestion) :
  (forall q, has_importance level q = true -> priority q = n) ->
  by_priority (filter (has_importance level) l)
  /\ forall q, In q (filter (has_importance level) l) -> priority q = n.
Proof.
  intros Hn.
  assert (Hall : forall q, In q (filter (has_importance level) l) ->
                           priority q = n).
  { intros q Hq. apply filter_In in Hq. now apply Hn. }
  split; [|exact Hall].
  induction l as [|x l IH]; simpl in *; [constructor|].
  destruct (has_importance level x) eqn:E; [|now apply IH].
  constructor.
  - apply IH. intros q Hq. apply Hall. now right.
  - apply Forall_forall. intros q Hq.
    rewrite (Hall x) by now left. rewrite (Hall q) by now right. lia.
Qed.

Lemma priority_critical q : has_importance "critical" q = true -> priority q = 0%nat.
Proof. unfold priority. now intros ->. Qed.

Lemma priority_important q :
  has_importance "important" q = true -> priority q = 1%nat.
Proof.
  unfold priority, has_importance. intros H.
  apply String.eqb_eq in H. now rewrite H.
Qed.

Lemma priority_supporting q :
  has_importance "supporting" q = true -> priority q = 2%nat.
Proof.
  unfold priority, has_importance. intros H.
  apply String.eqb_eq in H. now rewrite H.
Qed.

Section Limit.
Variable max_questions : Z.

Lemma limit_cut (p : ResearchPlan) :
  max_questions < Z.of_nat (List.length (sub_questions p)) ->
  by_priority (sub_questions (limit max_questions p))
  /\ forall q, In q (sub_questions (limit max_questions p)) ->
               In q (sub_questions p) /\ (priority q <= 2)%nat.
Proof.
  intros Hover. unfold limit. apply Z.ltb_lt in Hover. rewrite Hover. simpl.
  destruct (filter_constant "critical" 0 (sub_questions p) priority_critical)
    as [Sc Pc].
  destruct (filter_constant "important" 1 (sub_questions p) priority_important)
    as [Si Pi].
  destruct (filter_constant "supporting" 2 (sub_questions p)
              priority_supporting) as [Ss Ps].
  assert (Hsorted : by_priority
    (filter (has_importance "critical") (sub_questions p)
     ++ filter (has_importance "important") (sub_questions p)
     ++ filter (has_importance "supporting") (sub_questions p))%list).
  { apply StronglySorted_app; [exact Sc| |].
    - apply StronglySorted_app; [exact Si|exact Ss|].
      intros a b Ha Hb. rewrite (Pi a Ha), (Ps b Hb). lia.
    - intros a b Ha Hb. rewrite (Pc a Ha). lia. }
  split.
  - unfold list_slice_to. destruct (max_questions <? 0);
      now apply StronglySorted_firstn.
  - intros q Hq. apply In_slice_to in Hq.
    apply in_app_or in Hq. destruct Hq as [Hq|Hq].
    + split; [apply (proj1 (filter_In _ _ _) Hq)|]. rewrite (Pc q Hq). lia.
    + apply in_app_or in Hq. destruct Hq as [Hq|Hq].
      * split; [apply (proj1 (filter_In _ _ _) Hq)|]. rewrite (Pi q Hq). lia.
      * split; [apply (proj1 (filter_In _ _ _) Hq)|]. rewrite (Ps q Hq). lia.
Qed.

Lemma limit_subset (p : ResearchPlan) q :
  In q (sub_questions (limit max_questions p)) -> In q (sub_questions p).
Proof.
  destruct (max_questions <? Z.of_nat (List.length (sub_questions p))) eqn:E.
  - intros H. apply Z.ltb_lt in E. now apply (limit_cut p E).
  - unfold limit. now rewrite E.
Qed.

Lemma limit_length (p : ResearchPlan) :
  0 <= max_questions ->
  Z.of_nat (List.length (sub_questions (limit max_questions p)))
  <= max_questions.
Proof.
  intros Hn. unfold limit.
  destruct (max_questions <? Z.of_nat (List.length (sub_questions p))) eqn:E.
  - simpl. now apply slice_to_length.
  - apply Z.ltb_ge in E. exact E.
Qed.
End Limit.

Lemma last_human_snoc messages m :
  last_human (messages ++ [m])
  = match m with
    | HumanMessage content => Some content
    | OtherMessage _ => last_human messages
    end.
Proof.
  unfold last_human. rewrite rev_app_distr. simpl. now destruct m.
Qed.

(** What the planner stores and what its edge sends. *)
Lemma planner_route max_questions parse_request llm_plan state messages
    planned preferences :
  planner_node max_questions parse_request llm_plan state messages
    = Some (planned, preferences) ->
  exists query,
    research_plan planned = Some (plan max_questions llm_plan preferences)
    /\ get_iteration planned = get_iteration state
    /\ route_after_planner planned
       = map (fun sq =>
                SendResearcher
                  {| in_sub_question := sq;
                     in_main_query := Some query;
                     in_previous_answer := None;
                     in_previous_sources := None;
                     in_improvement_suggestion := None;
                     in_suggested_searches := None |})
             (sub_questions (plan max_questions llm_plan preferences)).
Proof.
  unfold planner_node.
  destruct (find_query state messages) as [query|]; [|discriminate].
  intros [= <- <-]. exists query. repeat split.
Qed.

End PlannerFacts.

(** X2.  The planner leaves a plan within [max_questions] as the
    completion service gave it.  A longer plan is cut: what is kept are
    sub-questions of the given plan whose importance is one of critical,
    important, supporting (any other is dropped), with all critical ones
    before all important ones before all supporting ones; and for a
    non-negative [max_questions] at most that many are kept. *)
Theorem plan_cut_by_importance :
  forall (max_questions : Z) (llm_plan : ReportPreferences -> ResearchPlan)
         (preferences : ReportPreferences),
    let given := llm_plan preferences in
    let result := Planner.plan max_questions llm_plan preferences in
    (Z.of_nat (List.length (sub_questions given)) <= max_questions ->
     result = given)
    /\ (max_questions < Z.of_nat (List.length (sub_questions given)) ->
        PlannerFacts.by_priority (sub_questions result)
        /\ forall q, In q (sub_questions result) ->
                     In q (sub_questions given)
                     /\ (PlannerFacts.priority q <= 2)%nat)
    /\ (0 <= max_questions ->
        Z.of_nat (List.length (sub_questions result)) <= max_questions).
Proof.
  intros max_questions llm_plan preferences given result.
  subst result. unfold Planner.plan. fold given. split; [|split].
  - intros H. unfold Planner.limit.
    destruct (max_questions <? Z.of_nat (List.length (sub_questions given)))
      eqn:E; [apply Z.ltb_lt in E; lia|reflexivity].
  - apply PlannerFacts.limit_cut.
  - apply PlannerFacts.limit_length.
Qed.

Lemma plan_cut_by_importance_witness :
  let q (i imp : string) :=
    {| sq_question_id := i; sq_question := "?"; sq_search_strategy := "web";
       sq_importance := imp |} in
  let given :=
    {| main_question := "Main";
       sub_questions := [q "a" "supporting"; q "b" "optional";
                         q "c" "critical"] |} in
  2 < Z.of_nat (List.length (sub_questions given))
  /\ 0 <= 2
  /\ sub_questions (Planner.plan 2 (fun _ => given)
                      {| research_question := "Main"; style := "general";
                         focus_areas := []; audience := "general";
                         constraints := "" |})
     = [q "c" "critical"; q "a" "supporting"]
  /\ PlannerFacts.by_priority [q "c" "critical"; q "a" "supporting"].
Proof.
  intros q given.
  assert (H1 : 2 < Z.of_nat (List.length (sub_questions given)))
    by (simpl; lia).
  split; [exact H1|]. split; [lia|]. split; [reflexivity|].
  exact (proj1 (proj1 (proj2 (plan_cut_by_importance 2 (fun _ => given)
           {| research_question := "Main"; style := "general";
              focus_areas := []; audience := "general";
              constraints := "" |})) H1)).
Defined.

(** X3.  When [planner_node] returns, the edge out of the planner sends
    one researcher task per sub-question of the stored plan, in order;
    each task is for a sub-question of the plan the completion service
    gave, carries the query as main query and no previous answer or
    suggestion; and for a non-negative [max_questions] there are at most
    that many tasks. *)
Theorem planner_fan_out_bounded :
  forall (max_questions : Z) (parse_request : string -> ReportPreferences)
         (llm_plan : ReportPreferences -> ResearchPlan)
         (state planned : ResearchState) (messages : list Message)
         (preferences : ReportPreferences),
    Planner.planner_node max_questions parse_request llm_plan state messages
      = Some (planned, preferences) ->
    exists query stored,
      original_query planned = Some query
      /\ research_plan planned = Some stored
      /\ Graph.route_after_planner planned
         = map (fun sq =>
                  SendResearcher
                    {| in_sub_question := sq;
                       in_main_query := Some query;
                       in_previous_answer := None;
                       in_previous_sources := None;
                       in_improvement_suggestion := None;
                       in_suggested_searches := None |})
               (sub_questions stored)
      /\ (forall sq, In sq (sub_questions stored) ->
                     In sq (sub_questions (llm_plan preferences)))
      /\ (0 <= max_questions ->
          Z.of_nat (List.length (Graph.route_after_planner planned))
          <= max_questions).
Proof.
  intros max_questions parse_request llm_plan state planned messages
         preferences H.
  unfold Planner.planner_node in H.
  destruct (Planner.find_query state messages) as [query|]; [|discriminate].
  injection H as <- <-.
  exists query, (Planner.plan max_questions llm_plan (parse_request query)).
  split; [reflexivity|]. split; [reflexivity|]. split; [reflexivity|].
  split.
  - intros sq. apply PlannerFacts.limit_subset.
  - intros Hn. unfold Graph.route_after_planner. simpl.
    rewrite length_map. now apply PlannerFacts.limit_length.
Qed.

Lemma planner_fan_out_bounded_witness :
  let prefs := {| research_question := "Main"; style := "general";
                  focus_areas := []; audience := "general";
                  constraints := "" |} in
  exists planned,
    Planner.planner_node 1 (fun _ => prefs) (fun _ => Samples.plan2)
                         (Samples.planned None) [] = Some (planned, prefs)
    /\ 0 <= 1
    /\ Z.of_nat (List.length (Graph.route_after_planner planned)) <= 1.
Proof.
  intros prefs. eexists. split; [reflexivity|]. split; [lia|].
  destruct (planner_fan_out_bounded 1 (fun _ => prefs) (fun _ => Samples.plan2)
              (Samples.planned None) _ [] prefs eq_refl)
    as (query & stored & _ & _ & _ & _ & Hlen).
  apply Hlen. lia.
Defined.

(** X4.  [planner_node] raises exactly when the state has no non-empty
    [original_query] and the last human message is missing or empty (an
    earlier human message is not looked at); a non-empty
    [original_query] is used whatever the messages are. *)
Theorem planner_raises_without_query :
  forall (max_questions : Z) (parse_request : string -> ReportPreferences)
         (llm_plan : ReportPreferences -> ResearchPlan)
         (state : ResearchState) (messages : list Message),
    (Planner.planner_node max_questions parse_request llm_plan state messages
       = None
     <-> (original_query state = None \/ original_query state = Some "")
         /\ (Planner.last_human messages = None
             \/ Planner.last_human messages = Some ""))
    /\ (forall q, original_query state = Some q -> q <> "" ->
        exists planned,
          Planner.planner_node max_questions parse_request llm_plan
                               state messages
            = Some (planned, parse_request q)
          /\ original_query planned = Some q).
Proof.
  intros max_questions parse_request llm_plan state messages.
  assert (Htruthy : forall s, str_truthy s = false <-> s = "").
  { intros s. unfold str_truthy. rewrite negb_false_iff. apply String.eqb_eq. }
  unfold Planner.planner_node, Planner.find_query. split.
  - destruct (original_query state) as [q|];
      [destruct (str_truthy q) eqn:Eq|];
      try (destruct (Planner.last_human messages) as [c|];
           [destruct (str_truthy c) eqn:Ec|]);
      rewrite ?Eq, ?Ec;
      repeat match goal with
             | H : str_truthy _ = false |- _ => apply Htruthy in H; subst
             end;
      split; intros H; try discriminate H; auto;
      destruct H as [[H1|H1] [H2|H2]];
      try discriminate; try (injection H1 as ->); try (injection H2 as ->);
      discriminate.
  - intros q Hq Hne. rewrite Hq.
    destruct (str_truthy q) eqn:Eq; [|apply Htruthy in Eq; contradiction].
    rewrite Eq. eexists. split; reflexivity.
Qed.

Lemma planner_raises_without_query_witness :
  original_query (Samples.planned None) = Some "Main" /\ "Main" <> ""
  /\ exists planned,
       Planner.planner_node 5
         (fun q => {| research_question := q; style := "general";
                      focus_areas := []; audience := "general";
                      constraints := "" |})
         (fun _ => Samples.plan2) (Samples.planned None)
         [HumanMessage "ignored"]
       = Some (planned,
               {| research_question := "Main"; style := "general";
                  focus_areas := []; audience := "general";
                  constraints := "" |})
       /\ original_query planned = Some "Main".
Proof.
  split; [reflexivity|]. split; [discriminate|].
  exact (proj2 (planner_raises_without_query 5
           (fun q => {| research_question := q; style := "general";
                        focus_areas := []; audience := "general";
                        constraints := "" |})
           (fun _ => Samples.plan2) (Samples.planned None)
           [HumanMessage "ignored"]) "Main" eq_refl
           ltac:(discriminate)).
Defined.

(** ** The research pipeline *)

Module PipelineFacts.
Import Researcher Pipeline PyDict PyDictFacts.

Lemma str_truthy_iff s : str_truthy s = true <-> s <> "".
Proof.
  unfold str_truthy. rewrite negb_true_iff. apply String.eqb_neq.
Qed.

Lemma opt_truthy_iff o :
  opt_truthy o = true <-> exists s, o = Some s /\ s <> "".
Proof.
  destruct o as [s|]; simpl.
  - rewrite str_truthy_iff. split; [eauto|]. now intros (s' & [= <-] & H).
  - split; [discriminate|]. now intros (s & H & _).
Qed.

Lemma mem_In x l : mem x l = true <-> In x l.
Proof.
  unfold mem. rewrite existsb_exists. split.
  - intros (y & Hy & E). apply String.eqb_eq in E. now subst.
  - intros H. exists x. split; [exact H|apply String.eqb_refl].
Qed.

(** *** Parsing the findings *)

(** A finding as the parser produces them. *)
Record parsed (f : Finding) : Prop := {
  parsed_claim : claim f <> "" /\ PyStr.strip (claim f) = claim f;
  parsed_confidence : In (f_confidence f) confidence_levels;
  parsed_sources :
    source_ids f = [] \/ exists s, s <> "" /\ source_ids f = [s]
}.

(** The draft between two lines. *)
Record drafted (d : Draft) : Prop := {
  drafted_claim :
    forall c, d_claim d = Some c -> PyStr.strip c = c;
  drafted_confidence :
    forall c, d_confidence d = Some c -> In c confidence_levels;
  drafted_sources :
    forall l, d_source_ids d = Some l ->
              l = [] \/ exists s, s <> "" /\ l = [s]
}.

Lemma finish_parsed d :
  drafted d -> opt_truthy (d_claim d) = true -> parsed (finish d).
Proof.
  intros [Hc Hk Hs] Ht. apply opt_truthy_iff in Ht.
  destruct Ht as (c & Ec & Hne). split; unfold finish; simpl.
  - rewrite Ec. simpl. split; [exact Hne|now apply Hc].
  - destruct (d_confidence d) as [k|] eqn:E; [now apply Hk|].
    simpl. tauto.
  - destruct (d_source_ids d) as [l|] eqn:E; [now apply Hs|now left].
Qed.

Lemma source_ids_ok (src : string) :
  let l := if str_truthy src then [src] else [] in
  l = [] \/ exists s, s <> "" /\ l = [s].
Proof.
  simpl. destruct (str_truthy src) eqn:E; [|now left].
  right. exists src. split; [now apply str_truthy_iff|reflexivity].
Qed.

Lemma confidence_ok (conf : string) :
  In (if mem conf confidence_levels then conf else "medium")
     confidence_levels.
Proof.
  destruct (mem conf confidence_levels) eqn:E.
  - now apply mem_In.
  - simpl. tauto.
Qed.

Lemma parse_line_keeps acc line :
  Forall parsed (fst acc) -> drafted (snd acc) ->
  Forall parsed (fst (parse_line acc line))
  /\ drafted (snd (parse_line acc line)).
Proof.
  destruct acc as [found current]. intros Hf Hd.
  change (fst (found, current)) with found in Hf.
  change (snd (found, current)) with current in Hd.
  unfold parse_line.
  destruct (PyStr.startswith "CLAIM:" (PyStr.strip line)).
  { split.
    - change (Forall parsed
                (if opt_truthy (d_claim current)
                 then (found ++ [finish current])%list else found)).
      destruct (opt_truthy (d_claim current)) eqn:E; [|exact Hf].
      apply Forall_app. split; [exact Hf|].
      constructor; [now apply finish_parsed|constructor].
    - split.
      + intros c H. injection H as <-. apply PyStrFacts.strip_idem.
      + intros c H. discriminate H.
      + intros l H. discriminate H. }
  destruct (PyStr.startswith "EVIDENCE:" (PyStr.strip line)).
  { destruct Hd as [Hc Hk Hs].
    split; [exact Hf|]. split; [exact Hc|exact Hk|exact Hs]. }
  destruct (PyStr.startswith "SOURCE:" (PyStr.strip line)).
  { destruct Hd as [Hc Hk Hs].
    split; [exact Hf|]. split; [exact Hc|exact Hk|].
    intros l H. injection H as <-. apply source_ids_ok. }
  destruct (PyStr.startswith "CONFIDENCE:" (PyStr.strip line)).
  { destruct Hd as [Hc Hk Hs].
    split; [exact Hf|]. split; [exact Hc| |exact Hs].
    intros c H. injection H as <-. apply confidence_ok. }
  now split.
Qed.

Lemma parse_lines_keep lines : forall acc,
  Forall parsed (fst acc) -> drafted (snd acc) ->
  Forall parsed (fst (fold_left parse_line lines acc))
  /\ drafted (snd (fold_left parse_line lines acc)).
Proof.
  induction lines as [|line lines IH]; intros acc Hf Hd; simpl; [now split|].
  destruct (parse_line_keeps acc line Hf Hd) as [Hf' Hd'].
  now apply IH.
Qed.

Lemma parse_findings_parsed text : Forall parsed (parse_findings text).
Proof.
  unfold parse_findings.
  destruct (parse_lines_keep (PyStr.split_lines text) ([], empty_draft))
    as [Hf Hd].
  - constructor.
  - split; simpl; discriminate.
  - destruct (fold_left parse_line _ _) as [found current]. simpl in *.
    destruct (opt_truthy (d_claim current)) eqn:E; [|exact Hf].
    apply Forall_app. split; [exact Hf|].
    constructor; [now apply finish_parsed|constructor].
Qed.

End PipelineFacts.

(** X5.  Whatever text the completion service returns for the findings,
    every finding parsed from it has a non-empty claim without
    surrounding whitespace, a confidence that is one of high, medium,
    low, and at most one source identifier, which is then non-empty. *)
Theorem parsed_findings_well_formed :
  forall (findings_text : string) (f : Finding),
    In f (Pipeline.parse_findings findings_text) ->
    claim f <> ""
    /\ PyStr.strip (claim f) = claim f
    /\ In (f_confidence f) ["high"; "medium"; "low"]
    /\ (source_ids f = [] \/ exists s, s <> "" /\ source_ids f = [s]).
Proof.
  intros findings_text f Hin.
  pose proof (PipelineFacts.parse_findings_parsed findings_text) as H.
  rewrite Forall_forall in H. destruct (H f Hin) as [[Hc Hs] Hk Hi].
  repeat split; assumption.
Qed.

Lemma parsed_findings_well_formed_witness :
  let text :=
    "intro" ++ Citations.nl
    ++ "CLAIM:  Growth was 4% " ++ Citations.nl
    ++ "EVIDENCE: the report says so" ++ Citations.nl
    ++ "SOURCE: src_ab12cd34" ++ Citations.nl
    ++ "CONFIDENCE: Certain" ++ Citations.nl
    ++ "CLAIM:" ++ Citations.nl
    ++ "EVIDENCE: orphan" in
  let f := {| claim := "Growth was 4%";
              evidence := "the report says so";
              source_ids := ["src_ab12cd34"];
              f_confidence := "medium" |} in
  Pipeline.parse_findings text = [f] /\ claim f <> "".
Proof.
  intros text f.
  assert (Hp : Pipeline.parse_findings text = [f]) by reflexivity.
  split; [exact Hp|].
  refine (proj1 (parsed_findings_well_formed text f _)).
  rewrite Hp. now left.
Defined.

(** X6.  From whatever text the completion service returns,
    [generate_search_queries] yields at most four queries, none of them
    empty and none with surrounding whitespace. *)
Theorem search_queries_clean :
  forall (llm_queries : SubQuestion -> string -> string)
         (sub_question : SubQuestion) (main_query : string),
    let queries :=
      Pipeline.generate_search_queries llm_queries sub_question main_query in
    (List.length queries <= 4)%nat
    /\ forall q, In q queries -> q <> "" /\ PyStr.strip q = q.
Proof.
  intros llm_queries sub_question main_query queries. subst queries.
  unfold Pipeline.generate_search_queries. split.
  - apply firstn_le_length.
  - intros q Hq. apply In_firstn, filter_In in Hq. destruct Hq as [Hq Ht].
    split; [now apply PipelineFacts.str_truthy_iff|].
    apply in_map_iff in Hq. destruct Hq as (x & <- & _).
    apply PyStrFacts.strip_idem.
Qed.

Module ExtractFacts.
Import Pipeline PyDict PyDictFacts PipelineFacts.



End ExtractFacts.


Module SourceFacts.
Import Pipeline Researcher.

Section Sources.
Variable uuid_hex : nat -> string.
Variable now : string.

Lemma make_sources_urls results : forall i,
  map src_url (make_sources uuid_hex now i results)
  = map (fun r => get_str (res_url r)) results.
Proof.
  induction results as [|r results IH]; intros i; simpl; [reflexivity|].
  now rewrite IH.
Qed.

Lemma make_sources_length results : forall i,
  List.length (make_sources uuid_hex now i results) = List.length results.
Proof.
  induction results as [|r results IH]; intros i; simpl; [reflexivity|].
  now rewrite IH.
Qed.
End Sources.

Lemma fallback_findings_low srcs f :
  In f (flat_map fallback_finding srcs) ->
  f_confidence f = "low"
  /\ exists s, In s srcs /\ src_full_content s <> ""
               /\ source_ids f = [src_id s] /\ claim f = src_title s.
Proof.
  intros H. apply in_flat_map in H. destruct H as (s & Hs & Hf).
  unfold fallback_finding in Hf.
  destruct (str_truthy (src_full_content s)) eqn:E; [|destruct Hf].
  destruct Hf as [<-|[]]. split; [reflexivity|].
  exists s. repeat split; auto. now apply PipelineFacts.str_truthy_iff.
Qed.

Lemma flat_map_length_le {A B : Type} (f : A -> list B) (l : list A) :
  (forall x, List.length (f x) <= 1)%nat ->
  (List.length (flat_map f l) <= List.length l)%nat.
Proof.
  intros H. induction l as [|x l IH]; simpl; [lia|].
  rewrite length_app. specialize (H x). lia.
Qed.

End SourceFacts.

(** X8.  [extract_findings] makes one source per search result, in the
    order of the results and with the result's URL (empty when the result
    has none), whether or not any finding is extracted.  When the
    completion fails, the findings are at most five, all of confidence
    low, each citing exactly one of the first five sources, one that has
    content. *)
Theorem extract_findings_sources :
  forall (uuid_hex : nat -> string) (now : string)
         (llm_findings : SubQuestion -> string -> option string)
         (search_results : list SearchResult) (sub_question : SubQuestion),
    let result :=
      Pipeline.extract_findings uuid_hex now llm_findings search_results
                                sub_question in
    map src_url (snd result)
      = map (fun r => Pipeline.get_str (res_url r)) search_results
    /\ (llm_findings sub_question
          (Pipeline.formatted_sources
             (Pipeline.make_sources uuid_hex now 0 search_results)) = None ->
        (List.length (fst result) <= 5)%nat
        /\ forall f, In f (fst result) ->
             f_confidence f = "low"
             /\ exists s, In s (firstn 5 (snd result))
                          /\ src_full_content s <> ""
                          /\ source_ids f = [src_id s]).
Proof.
  intros uuid_hex now llm_findings search_results sub_question result.
  subst result. unfold Pipeline.extract_findings.
  destruct search_results as [|r rest]; [split; [reflexivity|]|].
  - intros _. split; [simpl; lia|intros f []].
  - cbn [list_truthy negb].
    destruct (llm_findings sub_question _) as [text|] eqn:E.
    + split; [apply SourceFacts.make_sources_urls|discriminate].
    + split; [apply SourceFacts.make_sources_urls|]. intros _.
      cbn [fst snd]. split.
      * etransitivity.
        -- apply SourceFacts.flat_map_length_le. intros s.
           unfold Pipeline.fallback_finding.
           destruct (str_truthy (src_full_content s)); simpl; lia.
        -- apply firstn_le_length.
      * intros f Hf. apply SourceFacts.fallback_findings_low in Hf.
        destruct Hf as (Hlow & s & Hs & Hc & Hid & _). eauto.
Qed.

Lemma extract_findings_sources_witness :
  let failing : SubQuestion -> string -> option string := fun _ _ => None in
  let results := [Samples.hit "http://a" 7] in
  failing (Samples.sq "q1")
    (Pipeline.formatted_sources
       (Pipeline.make_sources (fun _ => "0123456789abcdef") "t" 0 results))
    = None
  /\ (List.length
        (fst (Pipeline.extract_findings (fun _ => "0123456789abcdef") "t"
                failing results (Samples.sq "q1"))) <= 5)%nat.
Proof.
  intros failing results. split; [reflexivity|].
  exact (proj1 (proj2 (extract_findings_sources
                         (fun _ => "0123456789abcdef") "t" failing results
                         (Samples.sq "q1")) eq_refl)).
Defined.

(** X9.  The two self-assessments agree: an answer rated confidence high
    is rated complete, an answer rated complete is not rated confidence
    low, and an answer rated insufficient is rated confidence low. *)
Theorem confidence_and_completeness_agree :
  forall (findings : list Finding) (srcs : list SourceMetadata),
    (Researcher._assess_confidence findings srcs = "high" ->
     Researcher._assess_completeness findings srcs = "complete")
    /\ (Researcher._assess_completeness findings srcs = "complete" ->
        Researcher._assess_confidence findings srcs <> "low")
    /\ (Researcher._assess_completeness findings srcs = "insufficient" ->
        Researcher._assess_confidence findings srcs = "low").
Proof.
  intros findings srcs.
  unfold Researcher._assess_confidence, Researcher._assess_completeness.
  destruct (5 <=? List.length srcs)%nat eqn:E5;
    destruct (4 <=? List.length findings)%nat eqn:E4;
    destruct (3 <=? List.length srcs)%nat eqn:E3;
    destruct (2 <=? List.length findings)%nat eqn:E2;
    destruct (3 <=? List.length findings)%nat eqn:F3;
    simpl; repeat split; intros H; try discriminate H; try reflexivity;
    repeat match goal with
           | H : (_ <=? _)%nat = true |- _ => apply Nat.leb_le in H
           | H : (_ <=? _)%nat = false |- _ => apply Nat.leb_gt in H
           end; try lia; try discriminate.
Qed.

Module MergeFacts.
Import Researcher.

(** What the loop of [_merge_sources] maintains: [seen] holds the URLs of
    [all_sources], which is [new] followed by sources of [prev] with
    fresh, distinct URLs. *)
Record merged (new done : list SourceMetadata)
    (acc : list SourceMetadata * list string) : Prop := {
  merged_seen : forall u, In u (snd acc) <-> In u (map src_url (fst acc));
  merged_added : exists added,
    fst acc = (new ++ added)%list
    /\ (forall s, In s added ->
                  In s done /\ ~ In (src_url s) (map src_url new))
    /\ NoDup (map src_url added);
  merged_covers : forall s, In s done -> In (src_url s) (map src_url (fst acc))
}.

Lemma merged_start new : merged new [] (new, map src_url new).
Proof.
  split; simpl.
  - tauto.
  - exists []. rewrite app_nil_r. split; [reflexivity|].
    split; [intros s Hs; destruct Hs|constructor].
  - intros s Hs. destruct Hs.
Qed.

Lemma merged_step new done acc src :
  merged new done acc -> merged new (done ++ [src]) (merge_step acc src).
Proof.
  destruct acc as [all seen]. intros [Hseen (added & Hall & Hadded & Hnd) Hcov].
  simpl in *. unfold merge_step.
  destruct (mem (src_url src) seen) eqn:E.
  - apply PipelineFacts.mem_In in E. split; simpl.
    + exact Hseen.
    + exists added. split; [exact Hall|]. split; [|exact Hnd].
      intros s Hs. split; [|now apply Hadded].
      apply in_or_app. left. now apply Hadded.
    + intros s Hs. apply in_app_or in Hs. destruct Hs as [Hs|[<-|[]]]; auto.
      now apply Hseen.
  - assert (Hfresh : ~ In (src_url src) (map src_url all)).
    { intros H. apply Hseen in H. apply PipelineFacts.mem_In in H. congruence. }
    split; simpl.
    + intros u. rewrite map_app, in_app_iff. simpl. rewrite <- Hseen. tauto.
    + exists (added ++ [src])%list. subst all.
      split; [now rewrite app_assoc|]. split.
      * intros s Hs. apply in_app_or in Hs. destruct Hs as [Hs|[<-|[]]].
        -- split; [|now apply Hadded].
           apply in_or_app. left. now apply Hadded.
        -- split; [apply in_or_app; right; now left|].
           intros Hin. apply Hfresh. rewrite map_app. apply in_or_app. now left.
      * rewrite map_app. simpl.
        apply Permutation_NoDup with (l := src_url src :: map src_url added).
        -- apply Permutation_cons_append.
        -- constructor; [|exact Hnd]. intros Hin. apply Hfresh.
           rewrite map_app. apply in_or_app. now right.
    + intros s Hs. rewrite map_app. apply in_or_app.
      apply in_app_or in Hs. destruct Hs as [Hs|[<-|[]]].
      * left. now apply Hcov.
      * right. now left.
Qed.

Lemma merged_fold new prev : forall done acc,
  merged new done acc ->
  merged new (done ++ prev) (fold_left merge_step prev acc).
Proof.
  induction prev as [|src prev IH]; intros done acc H; simpl.
  - now rewrite app_nil_r.
  - replace (done ++ src :: prev)%list with ((done ++ [src]) ++ prev)%list
      by now rewrite <- app_assoc.
    apply IH, merged_step, H.
Qed.

End MergeFacts.

(** X10.  [_merge_sources] returns the new sources followed by some of the
    previous ones: a previous source is appended when its URL is neither
    among the new sources nor already appended, so the appended URLs are
    distinct, and every previous source's URL is present in the result.
    If the new sources have distinct URLs, so has the result. *)
Theorem merge_sources_appends_fresh_urls :
  forall new prev : list SourceMetadata,
    exists added,
      Researcher._merge_sources new prev = (new ++ added)%list
      /\ (forall s, In s added ->
                    In s prev /\ ~ In (src_url s) (map src_url new))
      /\ NoDup (map src_url added)
      /\ (forall s, In s prev ->
                    In (src_url s)
                       (map src_url (Researcher._merge_sources new prev)))
      /\ (NoDup (map src_url new) ->
          NoDup (map src_url (Researcher._merge_sources new prev))).
Proof.
  intros new prev. unfold Researcher._merge_sources.
  destruct (MergeFacts.merged_fold new prev [] _ (MergeFacts.merged_start new))
    as [_ (added & Hall & Hadded & Hnd) Hcov].
  simpl in Hcov. exists added. rewrite Hall in *.
  split; [reflexivity|]. split; [exact Hadded|]. split; [exact Hnd|].
  split; [exact Hcov|].
  intros Hnew. rewrite map_app. apply NoDup_app; auto.
  intros u Hu Hu'. apply in_map_iff in Hu'. destruct Hu' as (s & <- & Hs).
  now apply (Hadded s Hs).
Qed.

Module UrlFacts.
Import Ranker RankerFacts Pipeline.

Lemma urls_of_keyed l :
  (forall h, In h l -> url_of h <> None) ->
  map Some (urls_of l) = map url_of l.
Proof.
  intros H. unfold urls_of. induction l as [|h l IH]; simpl; [reflexivity|].
  destruct (url_of h) eqn:E; [|exfalso; apply (H h); simpl; auto].
  simpl. f_equal. apply IH. intros h' Hh'. apply H. now right.
Qed.

Lemma url_of_nonempty h u : url_of h = Some u -> u <> "".
Proof.
  unfold url_of. destruct (res_url h) as [v|]; [|discriminate].
  destruct (str_truthy v) eqn:E; [|discriminate].
  intros [= <-]. now apply PipelineFacts.str_truthy_iff.
Qed.

End UrlFacts.

(** X11.  The URLs that a research task hands to content extraction, for
    any search results, are at most ten, pairwise distinct, non-empty,
    and each the URL of one of the results; so the cut to ten URLs inside
    [extract_full_content] never drops one. *)
Theorem extraction_urls_bounded :
  forall all_results : list SearchResult,
    let top_urls := Pipeline.urls_of (Ranker.rank all_results) in
    (List.length top_urls <= 10)%nat
    /\ NoDup top_urls
    /\ (forall u, In u top_urls ->
          u <> "" /\ exists h, In h all_results /\ res_url h = Some u)
    /\ firstn 10 top_urls = top_urls.
Proof.
  intros all_results top_urls.
  pose proof (RankerFacts.rank_ranked all_results) as [Hkeyed Hnd _ Hlen].
  pose proof (UrlFacts.urls_of_keyed _ Hkeyed) as Hmap.
  assert (Hl : List.length top_urls = List.length (Ranker.rank all_results)).
  { subst top_urls.
    rewrite <- (length_map Some), Hmap. apply length_map. }
  assert (Hle : (List.length top_urls <= 10)%nat)
    by (rewrite Hl; exact Hlen).
  split; [exact Hle|]. split; [|split].
  - apply (NoDup_map_inv Some). subst top_urls. now rewrite Hmap.
  - intros u Hu. subst top_urls. unfold Pipeline.urls_of in Hu.
    apply in_flat_map in Hu. destruct Hu as (h & Hh & Hu).
    destruct (Ranker.url_of h) as [v|] eqn:E; [|destruct Hu].
    destruct Hu as [<-|[]].
    split; [now apply (UrlFacts.url_of_nonempty h)|].
    destruct (RankerFacts.rank_best _ _ Hh) as (_ & _ & before & after & -> & _).
    exists h. split; [apply in_or_app; right; now left|].
    unfold Ranker.url_of in E. destruct (res_url h) as [w|]; [|discriminate].
    destruct (str_truthy w); [now injection E as ->|discriminate].
  - now apply firstn_all2.
Qed.

Module QuestionFacts.
Import Researcher Pipeline.

Lemma flat_map_nil {A B : Type} (f : A -> list B) (l : list A) :
  (forall x, f x = []) -> flat_map f l = [].
Proof.
  intros H. induction l as [|x l IH]; simpl; [reflexivity|].
  now rewrite H, IH.
Qed.

Section Calls.
Variable max_search_results : Z.
Variable chars_per_source : Z.
Variable client_search : string -> Z -> option (list SearchResult).
Variable client_extract : list string -> option (list ExtractResult).
Variable uuid_hex : nat -> string.
Variable now : string.
Variable llm_queries : SubQuestion -> string -> string.
Variable llm_findings : SubQuestion -> string -> option string.
Variable llm_answer : SubQuestion -> list Finding -> bool -> string.
Variable _synthesize_improved :
  SubQuestion -> string -> list Finding -> string -> string.
Variable llm_compress : string -> option string.

Lemma synthesize_keyed sq findings srcs :
  qa_question_id (synthesize_answer llm_answer sq findings srcs)
  = sq_question_id sq.
Proof. unfold synthesize_answer. now destruct findings. Qed.

Lemma synthesize_no_findings sq findings srcs :
  key_findings (synthesize_answer llm_answer sq findings srcs) = [] ->
  findings = [].
Proof. unfold synthesize_answer. now destruct findings. Qed.

Lemma research_question_keyed sq main_query :
  qa_question_id
    (research_question max_search_results client_search client_extract
       uuid_hex now llm_queries llm_findings llm_answer sq main_query)
  = sq_question_id sq.
Proof.
  unfold research_question.
  destruct (list_truthy (flat_map _ _)); simpl; [|reflexivity].
  destruct (extract_findings _ _ _ _ _) as [findings srcs].
  apply synthesize_keyed.
Qed.

Lemma improve_keyed sq previous_answer suggestion previous_sources searches :
  qa_question_id
    (improve max_search_results client_search client_extract uuid_hex now
       llm_findings _synthesize_improved sq previous_answer suggestion
       previous_sources searches)
  = sq_question_id sq.
Proof.
  unfold improve, improve_research.
  destruct (list_truthy (collect_results _ _)); simpl; [|reflexivity].
  destruct (extract_findings _ _ _ _ _) as [findings srcs].
  now destruct findings.
Qed.
End Calls.

End QuestionFacts.



(** X13.  The update returned by [researcher_node] has exactly one entry
    in each of the two mappings, both under the identifier of the
    sub-question it was sent, and the answer stored there names the same
    identifier: whichever procedure ran and whatever the providers
    returned. *)
Theorem researcher_node_update_keyed :
  forall (max_search_results chars_per_source : Z)
         (client_search : string -> Z -> option (list SearchResult))
         (client_extract : list string -> option (list ExtractResult))
         (uuid_hex : nat -> string) (now : string)
         (llm_queries : SubQuestion -> string -> string)
         (llm_findings : SubQuestion -> string -> option string)
         (llm_answer : SubQuestion -> list Finding -> bool -> string)
         (_synthesize_improved :
            SubQuestion -> string -> list Finding -> string -> string)
         (llm_compress : string -> option string)
         (input : ResearcherInput),
    let q_id := sq_question_id (in_sub_question input) in
    exists ans compressed,
      Pipeline.researcher_node max_search_results chars_per_source
        client_search client_extract uuid_hex now llm_queries llm_findings
        llm_answer _synthesize_improved llm_compress input
      = ([(q_id, ans)], [(q_id, compressed)])
      /\ qa_question_id ans = q_id.
Proof.
  intros. unfold Pipeline.researcher_node. fold q_id.
  eexists. eexists. split; [reflexivity|].
  destruct (Pipeline.is_improvement input).
  - apply QuestionFacts.improve_keyed.
  - apply QuestionFacts.research_question_keyed.
Qed.

(** X14.  A weak answer for a question that has no stored answer, or an
    empty one, is re-researched from scratch: the task that the router
    sends for it carries an empty previous answer, so [researcher_node]
    runs [research_question] with an empty main query and the
    assessment's suggested searches are not used. *)
Theorem weak_answer_without_previous_answer_is_researched_afresh :
  forall (max_search_results chars_per_source : Z)
         (client_search : string -> Z -> option (list SearchResult))
         (client_extract : list string -> option (list ExtractResult))
         (uuid_hex : nat -> string) (now : string)
         (llm_queries : SubQuestion -> string -> string)
         (llm_findings : SubQuestion -> string -> option string)
         (llm_answer : SubQuestion -> list Finding -> bool -> string)
         (_synthesize_improved :
            SubQuestion -> string -> list Finding -> string -> string)
         (llm_compress : string -> option string)
         (state : ResearchState) (plan : ResearchPlan)
         (suggested : list string) (wa : WeakAnswer) (input : ResearcherInput),
    In (SendResearcher input)
       (Graph.send_for state (Graph.sq_map plan) suggested wa) ->
    fst (Graph._get_answer_data state (wa_question_id wa)) = "" ->
    in_suggested_searches input = Some suggested
    /\ fst (Pipeline.researcher_node max_search_results chars_per_source
              client_search client_extract uuid_hex now llm_queries
              llm_findings llm_answer _synthesize_improved llm_compress
              input)
       = [(sq_question_id (in_sub_question input),
           Pipeline.research_question max_search_results client_search
             client_extract uuid_hex now llm_queries llm_findings
             llm_answer (in_sub_question input) "")].
Proof.
  intros until input. intros Hin Hprev.
  unfold Graph.send_for in Hin.
  destruct (PyDict.get (wa_question_id wa) (Graph.sq_map plan)) as [sq|];
    [|destruct Hin].
  destruct (Graph._get_answer_data state (wa_question_id wa))
    as [prev_text prev_sources].
  simpl in Hprev. subst prev_text.
  destruct Hin as [Hin|[]]. injection Hin as <-.
  split; reflexivity.
Qed.

Lemma weak_answer_without_previous_answer_is_researched_afresh_witness :
  let state := Samples.reflected [Samples.weak "q2"] in
  let input :=
    {| in_sub_question := Samples.sq "q2";
       in_main_query := None;
       in_previous_answer := Some "";
       in_previous_sources := Some [];
       in_improvement_suggestion := Some "dig deeper";
       in_suggested_searches := Some ["more about q1"] |} in
  In (SendResearcher input)
     (Graph.send_for state (Graph.sq_map Samples.plan2) ["more about q1"]
                     (Samples.weak "q2"))
  /\ fst (Graph._get_answer_data state "q2") = ""
  /\ in_suggested_searches input = Some ["more about q1"].
Proof.
  intros state input.
  assert (H1 : In (SendResearcher input)
                  (Graph.send_for state (Graph.sq_map Samples.plan2)
                                  ["more about q1"] (Samples.weak "q2")))
    by (now left).
  assert (H2 : fst (Graph._get_answer_data state "q2") = "") by reflexivity.
  split; [exact H1|]. split; [exact H2|].
  exact (proj1 (weak_answer_without_previous_answer_is_researched_afresh
                  5 12000 (fun _ _ => None) (fun _ => None)
                  (fun _ => "0123456789abcdef") "t" (fun _ _ => "q")
                  (fun _ _ => None) (fun _ _ _ => "text")
                  (fun _ _ _ _ => "better") (fun _ => None)
                  state Samples.plan2 ["more about q1"] (Samples.weak "q2")
                  input H1 H2)).
Defined.

(** ** Compilation *)

Module GatherFacts.
Import Researcher Compiler.

Definition all_of (answers : PyDict.t QuestionAnswer) : list SourceMetadata :=
  flat_map (fun kv => sources (snd kv)) answers.

Lemma fold_flat (answers : PyDict.t QuestionAnswer) : forall acc,
  fold_left (fun acc kv => fold_left gather_step (sources (snd kv)) acc)
            answers acc
  = fold_left gather_step (all_of answers) acc.
Proof.
  induction answers as [|kv answers IH]; intros acc; simpl; [reflexivity|].
  unfold all_of in *. simpl. now rewrite fold_left_app, IH.
Qed.

(** What the gathering loop maintains over the sources [done] met so
    far. *)
Record gathered (done : list SourceMetadata)
    (acc : list SourceMetadata * list string) : Prop := {
  gathered_seen : forall u, In u (snd acc) <-> In u (map src_url (fst acc));
  gathered_nodup : NoDup (map src_url (fst acc));
  gathered_first : forall s, In s (fst acc) ->
    src_url s <> ""
    /\ exists before after,
         done = (before ++ s :: after)%list
         /\ forall s', In s' before -> src_url s' <> src_url s;
  gathered_covers : forall s, In s done -> src_url s <> "" ->
                              In (src_url s) (map src_url (fst acc))
}.

Lemma gathered_start : gathered [] ([], []).
Proof.
  split; simpl; [tauto|constructor|intros s Hs; destruct Hs
                |intros s Hs; destruct Hs].
Qed.

Lemma first_snoc (done : list SourceMetadata) s src :
  (exists before after,
      done = (before ++ s :: after)%list
      /\ forall s', In s' before -> src_url s' <> src_url s) ->
  exists before after,
    (done ++ [src] = before ++ s :: after)%list
    /\ forall s', In s' before -> src_url s' <> src_url s.
Proof.
  intros (before & after & -> & H).
  exists before, (after ++ [src])%list. split; [|exact H].
  now rewrite <- app_assoc.
Qed.

Lemma gathered_step done acc src :
  gathered done acc -> gathered (done ++ [src]) (gather_step acc src).
Proof.
  destruct acc as [all seen]. intros [Hseen Hnd Hfirst Hcov].
  simpl in *. unfold gather_step.
  destruct (str_truthy (src_url src)) eqn:Et; simpl.
  - destruct (mem (src_url src) seen) eqn:Em; simpl.
    + apply PipelineFacts.mem_In in Em. split; simpl; auto.
      * intros s Hs. destruct (Hfirst s Hs) as [Hne Hex].
        split; [exact Hne|now apply first_snoc].
      * intros s Hs Hne. apply in_app_or in Hs.
        destruct Hs as [Hs|[<-|[]]]; [now apply Hcov|now apply Hseen].
    + assert (Hfresh : ~ In (src_url src) (map src_url all)).
      { intros H. apply Hseen, PipelineFacts.mem_In in H. congruence. }
      split; simpl.
      * intros u. rewrite map_app, in_app_iff. simpl. rewrite <- Hseen. tauto.
      * rewrite map_app. simpl.
        apply Permutation_NoDup with (l := src_url src :: map src_url all);
          [apply Permutation_cons_append|now constructor].
      * intros s Hs. apply in_app_or in Hs. destruct Hs as [Hs|[<-|[]]].
        -- destruct (Hfirst s Hs) as [Hne Hex].
           split; [exact Hne|now apply first_snoc].
        -- split; [now apply PipelineFacts.str_truthy_iff|].
           exists done, []. split; [reflexivity|].
           intros s' Hs' Heq. apply Hfresh. rewrite <- Heq.
           apply Hcov; [exact Hs'|]. rewrite Heq.
           now apply PipelineFacts.str_truthy_iff.
      * intros s Hs Hne. rewrite map_app. apply in_or_app.
        apply in_app_or in Hs. destruct Hs as [Hs|[<-|[]]].
        -- left. now apply Hcov.
        -- right. now left.
  - split; simpl; auto.
    + intros s Hs. destruct (Hfirst s Hs) as [Hne Hex].
      split; [exact Hne|now apply first_snoc].
    + intros s Hs Hne. apply in_app_or in Hs.
      destruct Hs as [Hs|[<-|[]]]; [now apply Hcov|].
      apply PipelineFacts.str_truthy_iff in Hne. congruence.
Qed.

Lemma gathered_fold rest : forall done acc,
  gathered done acc ->
  gathered (done ++ rest) (fold_left gather_step rest acc).
Proof.
  induction rest as [|src rest IH]; intros done acc H; simpl.
  - now rewrite app_nil_r.
  - replace (done ++ src :: rest)%list with ((done ++ [src]) ++ rest)%list
      by now rewrite <- app_assoc.
    apply IH, gathered_step, H.
Qed.

End GatherFacts.

(** X15.  The source catalogue that [compiler_node] gathers from the
    answers has pairwise distinct, non-empty URLs; for each URL it holds
    the first source with that URL in the order of the answers and of
    their source lists; and every non-empty URL of any answer's sources
    is in it. *)
Theorem gathered_sources_first_seen_url_wins :
  forall answers : PyDict.t QuestionAnswer,
    let every := flat_map (fun kv => sources (snd kv)) answers in
    let catalogue := Compiler.gather_sources answers in
    NoDup (map src_url catalogue)
    /\ (forall s, In s catalogue ->
          src_url s <> ""
          /\ exists before after,
               every = (before ++ s :: after)%list
               /\ forall s', In s' before -> src_url s' <> src_url s)
    /\ (forall s, In s every -> src_url s <> "" ->
                  In (src_url s) (map src_url catalogue)).
Proof.
  intros answers every catalogue. subst catalogue.
  unfold Compiler.gather_sources. rewrite GatherFacts.fold_flat.
  destruct (GatherFacts.gathered_fold (GatherFacts.all_of answers) [] _
              GatherFacts.gathered_start) as [_ Hnd Hfirst Hcov].
  simpl in Hfirst, Hcov. auto.
Qed.

Module ReferenceFacts.
Import PyDict PyDictFacts Citations CitationFacts.

Section ByKey.
Context {A : Type} (key : A -> nat).

Let lt_key (a b : A) : Prop := (key a < key b)%nat.

Lemma sorted_middle (l1 l2 : list A) (x : A) :
  StronglySorted lt_key (l1 ++ x :: l2) ->
  (forall y, In y l1 -> lt_key y x)
  /\ (forall z, In z l2 -> lt_key x z)
  /\ StronglySorted lt_key (l1 ++ l2).
Proof.
  induction l1 as [|a l1 IH]; simpl; intros H.
  - inversion H as [|? ? Hs Hall]; subst. rewrite Forall_forall in Hall.
    split; [intros y Hy; destruct Hy|]. split; [exact Hall|exact Hs].
  - inversion H as [|? ? Hs Hall]; subst. rewrite Forall_forall in Hall.
    destruct (IH Hs) as (H1 & H2 & H3). split; [|split].
    + intros y [<-|Hy]; [|now apply H1].
      apply Hall, in_or_app. right. now left.
    + exact H2.
    + constructor; [exact H3|]. apply Forall_forall. intros z Hz.
      apply Hall. apply in_app_or in Hz. apply in_or_app.
      destruct Hz as [Hz|Hz]; [now left|right; now right].
Qed.

Lemma insert_asc_middle (l1 l2 : list A) (x : A) :
  (forall y, In y l1 -> lt_key y x) -> (forall z, In z l2 -> lt_key x z) ->
  insert_asc key x (l1 ++ l2) = (l1 ++ x :: l2)%list.
Proof.
  intros H1 H2. induction l1 as [|a l1 IH]; simpl.
  - destruct l2 as [|z l2]; simpl; [reflexivity|].
    assert (Hz : lt_key x z) by (apply H2; now left).
    unfold lt_key in Hz.
    destruct (key z <=? key x)%nat eqn:E; [|reflexivity].
    apply Nat.leb_le in E. lia.
  - assert (Ha : lt_key a x) by (apply H1; now left).
    unfold lt_key in Ha.
    destruct (key a <=? key x)%nat eqn:E.
    + f_equal. apply IH. intros y Hy. apply H1. now right.
    + apply Nat.leb_gt in E. lia.
Qed.

(** The only list in strictly ascending key order that [sorted] can
    return for a permutation of it. *)
Lemma sorted_by_key_unique (l : list A) : forall l',
  Permutation l l' -> StronglySorted lt_key l' -> sorted_by_key key l = l'.
Proof.
  induction l as [|x l IH]; intros l' Hperm Hsorted.
  - apply Permutation_nil in Hperm. now subst.
  - assert (Hin : In x l') by (apply (Permutation_in _ Hperm); now left).
    apply in_split in Hin. destruct Hin as (l1 & l2 & ->).
    apply Permutation_cons_app_inv in Hperm.
    destruct (sorted_middle _ _ _ Hsorted) as (H1 & H2 & H3).
    simpl. rewrite (IH _ Hperm H3). now apply insert_asc_middle.
Qed.
End ByKey.

Definition number_of (nums : PyDict.t nat) (x : string) : nat :=
  match get x nums with Some n => n | None => 999%nat end.

Lemma get_numbered_other start x l y :
  y <> x -> get y (numbered start (x :: l)) = get y (numbered (S start) l).
Proof.
  intros H. simpl. apply String.eqb_neq in H. now rewrite H.
Qed.

Lemma enumerate_In {A : Type} (l : list A) : forall start i x,
  In (i, x) (enumerate start l) -> In x l /\ (start <= i)%nat.
Proof.
  induction l as [|y l IH]; intros start i x Hin; simpl in *; [destruct Hin|].
  destruct Hin as [[= <- <-]|Hin]; [split; [now left|lia]|].
  destruct (IH _ _ _ Hin) as [H1 H2]. split; [now right|lia].
Qed.

Lemma numbered_get_enumerate l : forall start i x,
  NoDup l -> In (i, x) (enumerate start l) ->
  get x (numbered start l) = Some i.
Proof.
  induction l as [|y l IH]; intros start i x Hnd Hin; simpl in *;
    [destruct Hin|].
  inversion Hnd as [|? ? Hnotin Hnd']; subst.
  destruct Hin as [[= <- <-]|Hin].
  - now rewrite String.eqb_refl.
  - destruct (String.eqb x y) eqn:E.
    + apply String.eqb_eq in E. subst y. exfalso. apply Hnotin.
      now apply (enumerate_In l (S start) i x).
    + now apply IH.
Qed.

Lemma StronglySorted_ext_in {A : Type} (R R' : A -> A -> Prop) (l : list A) :
  (forall a b, In a l -> In b l -> R a b -> R' a b) ->
  StronglySorted R l -> StronglySorted R' l.
Proof.
  intros Hext Hs. induction Hs as [|a l Hs IH Hall]; [constructor|].
  constructor.
  - apply IH. intros x y Hx Hy. apply Hext; now right.
  - rewrite Forall_forall in *. intros b Hb.
    apply Hext; [now left|now right|now apply Hall].
Qed.

Lemma numbered_increasing l : forall start,
  NoDup l ->
  StronglySorted
    (fun a b => (number_of (numbered start l) a
                 < number_of (numbered start l) b)%nat) l.
Proof.
  induction l as [|x l IH]; intros start Hnd; [constructor|].
  inversion Hnd as [|? ? Hnotin Hnd']; subst.
  assert (Hx : number_of (numbered start (x :: l)) x = start).
  { unfold number_of. simpl. now rewrite String.eqb_refl. }
  assert (Htail : forall y, In y l ->
            number_of (numbered start (x :: l)) y
            = number_of (numbered (S start) l) y
            /\ (S start <= number_of (numbered (S start) l) y)%nat).
  { intros y Hy. unfold number_of.
    rewrite get_numbered_other by (intros ->; contradiction).
    destruct (get_numbered l (S start) y Hy) as (n & -> & Hle). auto. }
  constructor.
  - apply (StronglySorted_ext_in _ _ l) with (2 := IH (S start) Hnd').
    intros a b Ha Hb.
    rewrite (proj1 (Htail a Ha)), (proj1 (Htail b Hb)). trivial.
  - apply Forall_forall. intros y Hy. rewrite Hx.
    destruct (Htail y Hy) as [-> Hle]. lia.
Qed.

(** Sorting the cited identifiers by display number lists them in
    ascending lexical order. *)
Lemma sorted_by_number report :
  sorted_by_key (number_of (id_to_num report)) (used_ids report)
  = sorted_str (used_ids report).
Proof.
  apply sorted_by_key_unique; [apply sorted_str_perm|].
  rewrite id_to_num_numbered. apply numbered_increasing.
  eapply Permutation_NoDup; [apply sorted_str_perm|apply NoDup_nodup].
Qed.

(** The line written for the identifier numbered [num]. *)
Definition line (srcs : PyDict.t SourceMetadata) (p : nat * string)
    : list string :=
  match get (snd p) srcs with
  | Some source =>
      ["[" ++ str_of_nat (fst p) ++ "] [" ++ src_title source ++ "]("
           ++ src_url source ++ ")" ++ nl]
  | None => []
  end.

Lemma entries_lines (nums : PyDict.t nat) srcs l : forall start,
  (1 <= start)%nat ->
  (forall i x, In (i, x) (enumerate start l) -> get x nums = Some i) ->
  flat_map (reference_entry nums srcs) l
  = flat_map (line srcs) (enumerate start l).
Proof.
  induction l as [|x l IH]; intros start Hs Hget; simpl; [reflexivity|].
  rewrite (IH (S start)); [|lia|intros i y Hin; apply Hget; now right].
  f_equal. unfold reference_entry, line. simpl.
  rewrite (Hget start x) by now left.
  destruct (get x srcs); [|reflexivity].
  destruct (start =? 0)%nat eqn:E; [apply Nat.eqb_eq in E; lia|].
  reflexivity.
Qed.

Lemma entries_enumerate report srcs :
  flat_map (reference_entry (id_to_num report) srcs)
           (sorted_str (used_ids report))
  = flat_map (line srcs) (enumerate 1 (sorted_str (used_ids report))).
Proof.
  apply entries_lines; [lia|].
  intros i x Hin. rewrite id_to_num_numbered.
  apply numbered_get_enumerate; [|exact Hin].
  eapply Permutation_NoDup; [apply sorted_str_perm|apply NoDup_nodup].
Qed.

End ReferenceFacts.

(** X16.  For a report that cites something, the formatter appends the
    heading and then one line per cited identifier that the catalogue
    resolves, in ascending display number, which is the ascending lexical
    order of the identifiers; the line carries the number that replaced
    the identifier in the text.  An identifier that the catalogue does
    not resolve has no line, so its number is missing from the list. *)
Theorem reference_list_in_display_order :
  forall (report : string) (srcs : list SourceMetadata),
    findall report <> [] ->
    _format_citations report srcs
    = strip_references (Re.sub marker_re (replace (id_to_num report)) report)
      ++ references_header
      ++ String.concat ""
           (flat_map (ReferenceFacts.line (source_map srcs))
                     (enumerate 1 (sorted_str (used_ids report)))).
Proof.
  intros report srcs H. unfold _format_citations.
  rewrite (used_ids_nonempty report H), ReFacts.concat_cons.
  change (fun x => match PyDict.get x (id_to_num report) with
                   | Some n => n
                   | None => 999%nat
                   end)
    with (ReferenceFacts.number_of (id_to_num report)).
  now rewrite ReferenceFacts.sorted_by_number,
              ReferenceFacts.entries_enumerate.
Qed.

Lemma reference_list_in_display_order_witness :
  let report := "First [src_b], then [src_a]." in
  let srcs := [Samples.source "src_b" "http://b" "B"] in
  findall report <> []
  /\ _format_citations report srcs
     = "First [2], then [1]." ++ references_header
       ++ "[2] [B](http://b)" ++ nl.
Proof.
  intros report srcs.
  assert (H : findall report <> []) by discriminate.
  split; [exact H|].
  rewrite (reference_list_in_display_order report srcs H). reflexivity.
Defined.

(** ** Runs of the graph *)

Module RunFacts.
Import PyDict PyDictFacts Graph GraphFacts Reflection ReflectionFacts Run.

Definition task_id (input : ResearcherInput) : string :=
  sq_question_id (in_sub_question input).

(** A researcher node whose update is one entry per mapping under the
    identifier of its sub-question, as [researcher_node] returns it. *)
Definition keyed
    (node : ResearcherInput -> PyDict.t QuestionAnswer * PyDict.t string)
    : Prop :=
  forall input, exists ans compressed,
    node input = ([(task_id input, ans)], [(task_id input, compressed)]).

Section Nodes.
Variable max_questions : Z.
Variable parse_request : string -> ReportPreferences.
Variable llm_plan : ReportPreferences -> ResearchPlan.
Variable researcher_node :
  ResearcherInput -> PyDict.t QuestionAnswer * PyDict.t string.
Variable analyze_research :
  ResearchPlan -> PyDict.t QuestionAnswer -> AgentAnalysis.
Variable max_iterations : Z.
Variable write_sections : string -> string -> string -> list string.

Abbreviation dispatch := (Run.dispatch researcher_node).
Abbreviation assess :=
  (Run.assess researcher_node analyze_research max_iterations write_sections).

(** Dispatching touches the two mappings only. *)
Lemma dispatch_frame sends : forall state,
  research_plan (dispatch sends state) = research_plan state
  /\ current_iteration (dispatch sends state) = current_iteration state.
Proof.
  induction sends as [|s sends IH]; intros state; simpl; [now split|].
  destruct s as [st|input]; [apply IH|].
  destruct (IH (apply_update state (researcher_node input))) as [H1 H2].
  now rewrite H1, H2.
Qed.

Lemma dispatch_iteration sends state :
  get_iteration (dispatch sends state) = get_iteration state.
Proof.
  unfold get_iteration. now rewrite (proj2 (dispatch_frame sends state)).
Qed.

Lemma node_some state state' :
  reflection_node analyze_research max_iterations state = Some state' ->
  exists plan, research_plan state = Some plan.
Proof.
  unfold reflection_node. destruct (research_plan state) as [plan|];
    [eauto|discriminate].
Qed.

(** A re-research round uses up one unit of the budget. *)
Lemma round_spends state state' :
  reflection_node analyze_research max_iterations state = Some state' ->
  enters_re_research (route_after_reflection state') = true ->
  (budget state
   = S (budget (aggregate_research
                  (dispatch (route_after_reflection state') state'))))%nat.
Proof.
  intros Hnode Henters. destruct (node_some _ _ Hnode) as [plan Hplan].
  apply (round_enters_iff _ _ _ _ _ Hplan Hnode) in Henters.
  destruct Henters as (Hneeds & Hlt & _).
  unfold aggregate_research, budget. rewrite dispatch_iteration.
  rewrite (node_iteration _ _ _ _ _ Hplan Hnode), Hneeds.
  unfold MAX_ITERATIONS in *. lia.
Qed.

Lemma compile_finished rounds state :
  Run.compile write_sections rounds state <> Unfinished.
Proof.
  unfold Run.compile.
  destruct (Compiler.compiler_node write_sections state); discriminate.
Qed.

Lemma compile_report rounds state st r :
  Run.compile write_sections rounds state = Compiled st r ->
  r = rounds /\ final_report st <> None
  /\ research_plan st = research_plan state
  /\ question_answers st = question_answers state
  /\ compressed_findings st = compressed_findings state.
Proof.
  unfold Run.compile.
  destruct (Compiler.compiler_node write_sections state); [|discriminate].
  intros [= <- <-]. simpl. repeat split. discriminate.
Qed.

(** With fuel above the budget the loop ends, and it spends at most the
    budget on re-research rounds. *)
Lemma assess_bounded fuel : forall rounds state,
  (budget state < fuel)%nat ->
  assess fuel rounds state <> Unfinished
  /\ forall st r, assess fuel rounds state = Compiled st r ->
                  (rounds <= r <= rounds + budget state)%nat
                  /\ final_report st <> None.
Proof.
  induction fuel as [|fuel IH]; intros rounds state Hfuel; [lia|].
  simpl.
  destruct (reflection_node analyze_research max_iterations state)
    as [state'|] eqn:Hnode; [|split; [discriminate|intros st r H; discriminate H]].
  destruct (enters_re_research (route_after_reflection state')) eqn:Henters.
  - pose proof (round_spends _ _ Hnode Henters) as Hb.
    destruct (IH (S rounds)
                 (aggregate_research
                    (Run.dispatch researcher_node
                       (route_after_reflection state') state')))
      as [Hfin Hbound]; [lia|].
    split; [exact Hfin|]. intros st r H.
    destruct (Hbound st r H) as [Hr Hrep]. split; [lia|exact Hrep].
  - split; [apply compile_finished|].
    intros st r H. apply compile_report in H.
    destruct H as (-> & Hrep & _). split; [lia|exact Hrep].
Qed.

(** *** The result store along a run *)

Hypothesis Hkeyed : keyed researcher_node.

Definition stored (k : string) (state : ResearchState) : Prop :=
  get k (question_answers state) <> None
  /\ get k (compressed_findings state) <> None.

Lemma update_single {V : Type} (d : PyDict.t V) k v :
  update d [(k, v)] = set k v d.
Proof. reflexivity. Qed.

Lemma apply_update_stored state input k :
  stored k state \/ task_id input = k ->
  stored k (apply_update state (researcher_node input)).
Proof.
  destruct (Hkeyed input) as (ans & compressed & ->).
  unfold stored, apply_update, merge_question_answers,
    merge_compressed_findings.
  cbn [fst snd question_answers compressed_findings].
  rewrite !update_single, !get_set.
  intros [[H1 H2]|<-].
  - destruct (String.eqb k (task_id input)); split; congruence.
  - rewrite String.eqb_refl. split; discriminate.
Qed.

Lemma dispatch_stored sends : forall state k,
  stored k state
  \/ (exists input, In (SendResearcher input) sends /\ task_id input = k) ->
  stored k (dispatch sends state).
Proof.
  induction sends as [|s sends IH]; intros state k H; simpl.
  - destruct H as [H|(input & [] & _)]. exact H.
  - destruct s as [st|input].
    + apply IH. destruct H as [H|(input & [Hin|Hin] & Hk)];
        [now left|discriminate|right; eauto].
    + apply IH. destruct H as [H|(input' & [Hin|Hin] & Hk)].
      * left. apply apply_update_stored. now left.
      * injection Hin as ->. left. apply apply_update_stored. now right.
      * right. eauto.
Qed.

Lemma dispatch_untouched sends : forall state k,
  (forall input, In (SendResearcher input) sends -> task_id input <> k) ->
  get k (question_answers (dispatch sends state))
  = get k (question_answers state)
  /\ get k (compressed_findings (dispatch sends state))
     = get k (compressed_findings state).
Proof.
  induction sends as [|s sends IH]; intros state k H; simpl; [now split|].
  destruct s as [st|input].
  - apply IH. intros input Hin. apply H. now right.
  - destruct (IH (apply_update state (researcher_node input)) k) as [H1 H2].
    { intros input' Hin. apply H. now right. }
    rewrite H1, H2.
    destruct (Hkeyed input) as (ans & compressed & ->).
    unfold apply_update, merge_question_answers, merge_compressed_findings.
    cbn [fst snd question_answers compressed_findings].
    rewrite !update_single.
    assert (Hne : k <> task_id input)
      by (intros ->; apply (H input); [now left|reflexivity]).
    now rewrite !get_set_other.
Qed.

(** Every sub-question of [plan] has an entry in both mappings. *)
Definition covered (plan : ResearchPlan) (state : ResearchState) : Prop :=
  research_plan state = Some plan
  /\ forall sq, In sq (sub_questions plan) ->
                stored (sq_question_id sq) state.

Lemma node_covered plan state state' :
  reflection_node analyze_research max_iterations state = Some state' ->
  covered plan state -> covered plan state'.
Proof.
  unfold reflection_node. destruct (research_plan state) as [p|] eqn:Hp;
    [|discriminate].
  intros [= <-] [Hplan Hall]. split; [simpl; congruence|exact Hall].
Qed.

Lemma assess_covered plan fuel : forall rounds state st r,
  covered plan state ->
  assess fuel rounds state = Compiled st r -> covered plan st.
Proof.
  induction fuel as [|fuel IH]; intros rounds state st r Hcov; simpl;
    [discriminate|].
  destruct (reflection_node analyze_research max_iterations state)
    as [state'|] eqn:Hnode; [|discriminate].
  pose proof (node_covered plan _ _ Hnode Hcov) as [Hplan' Hall'].
  destruct (enters_re_research (route_after_reflection state')).
  - apply IH. unfold aggregate_research. split.
    + now rewrite (proj1 (dispatch_frame _ state')).
    + intros sq Hsq. apply dispatch_stored. left. now apply Hall'.
  - intros H. apply compile_report in H.
    destruct H as (_ & _ & Hp & Hq & Hc). split; [congruence|].
    intros sq Hsq. unfold stored. rewrite Hq, Hc. now apply Hall'.
Qed.
End Nodes.

End RunFacts.

(** X17.  A run of the graph always ends: it raises, halts after the
    planner, or compiles a report.  When it compiles, the re-research
    rounds it ran are at most [MAX_ITERATIONS - 1] less the iteration
    count it started with, whatever the assessments say and whatever
    [max_iterations] is configured; a run started without an iteration
    count re-researches at most once. *)
Theorem run_re_research_rounds_bounded :
  forall (max_questions : Z) (parse_request : string -> ReportPreferences)
         (llm_plan : ReportPreferences -> ResearchPlan)
         (researcher_node :
            ResearcherInput -> PyDict.t QuestionAnswer * PyDict.t string)
         (analyze_research :
            ResearchPlan -> PyDict.t QuestionAnswer -> AgentAnalysis)
         (max_iterations : Z)
         (write_sections : string -> string -> string -> list string)
         (state : ResearchState) (messages : list Message),
    let outcome :=
      Run.run max_questions parse_request llm_plan researcher_node
              analyze_research max_iterations write_sections state messages in
    outcome <> Unfinished
    /\ forall final rounds,
         outcome = Compiled final rounds ->
         (rounds <= Z.to_nat (MAX_ITERATIONS - 1 - get_iteration state))%nat
         /\ (current_iteration state = None -> (rounds <= 1)%nat)
         /\ final_report final <> None.
Proof.
  intros until messages. intros outcome. subst outcome. unfold Run.run.
  destruct (Planner.planner_node max_questions parse_request llm_plan
                                 state messages)
    as [[planned prefs]|] eqn:Hplanner;
    [|split; [discriminate|intros final rounds H; discriminate H]].
  assert (Hiter : get_iteration planned = get_iteration state).
  { unfold Planner.planner_node in Hplanner.
    destruct (Planner.find_query state messages); [|discriminate].
    now injection Hplanner as <- _. }
  assert (Hfresh : current_iteration state = None ->
                   Z.to_nat (MAX_ITERATIONS - 1 - get_iteration state) = 1%nat).
  { unfold get_iteration. now intros ->. }
  destruct (route_after_planner planned) as [|s sends];
    [split; [discriminate|intros final rounds H; discriminate H]|].
  destruct (enters_re_research (s :: sends)).
  - set (researched := Run.aggregate_research
                         (Run.dispatch researcher_node (s :: sends) planned)).
    assert (Hb : Run.budget researched
                 = Z.to_nat (MAX_ITERATIONS - 1 - get_iteration state)).
    { unfold Run.budget, researched, Run.aggregate_research.
      now rewrite RunFacts.dispatch_iteration, Hiter. }
    destruct (RunFacts.assess_bounded researcher_node analyze_research
                max_iterations write_sections (S (Run.budget researched)) 0
                researched) as [Hfin Hbound]; [lia|].
    split; [exact Hfin|]. intros final rounds H.
    destruct (Hbound final rounds H) as [Hr Hrep].
    split; [lia|]. split; [|exact Hrep].
    intros Hnone. specialize (Hfresh Hnone). lia.
  - split; [apply RunFacts.compile_finished|].
    intros final rounds H. apply RunFacts.compile_report in H.
    destruct H as (-> & Hrep & _). split; [lia|]. split; [lia|exact Hrep].
Qed.

(** X18.  When a run compiles a report, the plan stored at compile time
    is the one the planner stored, and every sub-question of it has an
    entry in both mappings of the result store, given that each
    researcher returns its update under its sub-question's identifier as
    [researcher_node] does. *)
Theorem run_result_store_covers_plan :
  forall (max_questions : Z) (parse_request : string -> ReportPreferences)
         (llm_plan : ReportPreferences -> ResearchPlan)
         (researcher_node :
            ResearcherInput -> PyDict.t QuestionAnswer * PyDict.t string)
         (analyze_research :
            ResearchPlan -> PyDict.t QuestionAnswer -> AgentAnalysis)
         (max_iterations : Z)
         (write_sections : string -> string -> string -> list string)
         (state final : ResearchState) (messages : list Message)
         (rounds : nat),
    RunFacts.keyed researcher_node ->
    Run.run max_questions parse_request llm_plan researcher_node
            analyze_research max_iterations write_sections state messages
      = Compiled final rounds ->
    exists planned prefs plan,
      Planner.planner_node max_questions parse_request llm_plan state messages
        = Some (planned, prefs)
      /\ research_plan planned = Some plan
      /\ research_plan final = Some plan
      /\ forall sq, In sq (sub_questions plan) ->
           PyDict.get (sq_question_id sq) (question_answers final) <> None
           /\ PyDict.get (sq_question_id sq) (compressed_findings final)
              <> None.
Proof.
  intros until rounds. intros Hkeyed. unfold Run.run.
  destruct (Planner.planner_node max_questions parse_request llm_plan
                                 state messages)
    as [[planned prefs]|] eqn:Hplanner; [|discriminate].
  destruct (PlannerFacts.planner_route _ _ _ _ _ _ _ Hplanner)
    as (query & Hplan & _ & Hroute).
  rewrite Hroute.
  set (plan := Planner.plan max_questions llm_plan prefs) in *.
  destruct (sub_questions plan) as [|sq0 rest] eqn:Hsubs;
    [discriminate|].
  cbn [map enters_re_research existsb is_researcher orb].
  intros H.
  exists planned, prefs, plan. split; [reflexivity|]. split; [exact Hplan|].
  apply (RunFacts.assess_covered researcher_node analyze_research
           max_iterations write_sections Hkeyed plan) in H; [|].
  - destruct H as [Hp Hall]. split; [exact Hp|]. intros sq Hsq.
    apply Hall. exact Hsq.
  - unfold Run.aggregate_research. split.
    + now rewrite (proj1 (RunFacts.dispatch_frame researcher_node _ planned)).
    + intros sq Hsq. apply RunFacts.dispatch_stored; [exact Hkeyed|].
      right. exists {| in_sub_question := sq;
                       in_main_query := Some query;
                       in_previous_answer := None;
                       in_previous_sources := None;
                       in_improvement_suggestion := None;
                       in_suggested_searches := None |}.
      split; [|reflexivity]. rewrite Hsubs in Hsq.
      exact (in_map (fun sq => SendResearcher
                       {| in_sub_question := sq;
                          in_main_query := Some query;
                          in_previous_answer := None;
                          in_previous_sources := None;
                          in_improvement_suggestion := None;
                          in_suggested_searches := None |})
                    (sq0 :: rest) sq Hsq).
Qed.

(** X19.  In one fan-out, with researchers that return their update under
    their sub-question's identifier, the entries of both mappings for a
    question that no task of the fan-out is about are left as they were,
    and every question that some task is about has an entry in both
    mappings afterwards. *)
Theorem dispatch_writes_only_dispatched_keys :
  forall (researcher_node :
            ResearcherInput -> PyDict.t QuestionAnswer * PyDict.t string)
         (sends : list Send) (state : ResearchState) (k : string),
    RunFacts.keyed researcher_node ->
    let after := Run.dispatch researcher_node sends state in
    ((forall input, In (SendResearcher input) sends ->
                    sq_question_id (in_sub_question input) <> k) ->
     PyDict.get k (question_answers after)
       = PyDict.get k (question_answers state)
     /\ PyDict.get k (compressed_findings after)
        = PyDict.get k (compressed_findings state))
    /\ ((exists input, In (SendResearcher input) sends
                       /\ sq_question_id (in_sub_question input) = k) ->
        PyDict.get k (question_answers after) <> None
        /\ PyDict.get k (compressed_findings after) <> None).
Proof.
  intros researcher_node sends state k Hkeyed after. subst after. split.
  - now apply RunFacts.dispatch_untouched.
  - intros H. apply RunFacts.dispatch_stored; [exact Hkeyed|now right].
Qed.

Module RunSamples.

Definition node (input : ResearcherInput)
    : PyDict.t QuestionAnswer * PyDict.t string :=
  ([(sq_question_id (in_sub_question input), Samples.answer1)],
   [(sq_question_id (in_sub_question input), "# Research")]).

Definition preferences (q : string) : ReportPreferences :=
  {| research_question := q; style := "general"; focus_areas := [];
     audience := "general"; constraints := "" |}.

Definition outcome : Outcome :=
  Run.run 10 preferences (fun _ => Samples.plan2) node
          (Samples.analyzer [Samples.weak "q1"]) 2
          (fun _ _ _ => ["Body [src_a1]."])
          (Samples.planned None) [].

Lemma node_keyed : RunFacts.keyed node.
Proof. intros input. eexists. eexists. reflexivity. Qed.

End RunSamples.

Lemma dispatch_writes_only_dispatched_keys_witness :
  RunFacts.keyed RunSamples.node
  /\ PyDict.get "q1"
       (question_answers
          (Run.dispatch RunSamples.node
             (route_after_reflection (Samples.reflected [Samples.weak "q2"]))
             (Samples.reflected [Samples.weak "q2"])))
     = Some Samples.answer1.
Proof.
  split; [exact RunSamples.node_keyed|].
  refine (eq_trans
            (proj1 (proj1 (dispatch_writes_only_dispatched_keys
                             RunSamples.node
                             (route_after_reflection
                                (Samples.reflected [Samples.weak "q2"]))
                             (Samples.reflected [Samples.weak "q2"]) "q1"
                             RunSamples.node_keyed) _))
            eq_refl).
  intros input [H|[]]. injection H as <-. discriminate.
Defined.

Lemma run_result_store_covers_plan_witness :
  RunFacts.keyed RunSamples.node
  /\ exists final rounds,
       RunSamples.outcome = Compiled final rounds
       /\ rounds = 1%nat
       /\ PyDict.get "q2" (question_answers final) <> None.
Proof.
  split; [exact RunSamples.node_keyed|].
  assert (Hrun : exists final,
                   RunSamples.outcome = Compiled final 1).
  { eexists. vm_compute. reflexivity. }
  destruct Hrun as (final & Hrun).
  exists final, 1%nat. split; [exact Hrun|]. split; [reflexivity|].
  destruct (run_result_store_covers_plan 10 RunSamples.preferences
              (fun _ => Samples.plan2) RunSamples.node
              (Samples.analyzer [Samples.weak "q1"]) 2
              (fun _ _ _ => ["Body [src_a1]."])
              (Samples.planned None) final [] 1
              RunSamples.node_keyed Hrun)
    as (planned & prefs & plan & Hplanner & Hplan & _ & Hall).
  injection Hplanner as <- _. injection Hplan as <-.
  apply (Hall (Samples.sq "q2")). right. now left.
Defined.

(** X20.  When a re-research task finds no search result at all (every
    search fails or returns nothing), [researcher_node] keeps the
    previous answer text in [question_answers], without sources, and
    writes "No sources found." under the question's heading as its
    compressed findings, without calling the completion service: merged
    into the store, this replaces the question's earlier compressed
    findings. *)
Theorem re_research_without_results_resets_compressed_findings :
  forall (max_search_results chars_per_source : Z)
         (client_search : string -> Z -> option (list SearchResult))
         (client_extract : list string -> option (list ExtractResult))
         (uuid_hex : nat -> string) (now : string)
         (llm_queries : SubQuestion -> string -> string)
         (llm_findings : SubQuestion -> string -> option string)
         (llm_answer : SubQuestion -> list Finding -> bool -> string)
         (_synthesize_improved :
            SubQuestion -> string -> list Finding -> string -> string)
         (llm_compress : string -> option string)
         (input : ResearcherInput) (existing : PyDict.t string),
    Pipeline.is_improvement input = true ->
    (forall query n, client_search query n = None
                     \/ client_search query n = Some []) ->
    let sq := in_sub_question input in
    let update :=
      Pipeline.researcher_node max_search_results chars_per_source
        client_search client_extract uuid_hex now llm_queries llm_findings
        llm_answer _synthesize_improved llm_compress input in
    let nothing :=
      "## " ++ sq_question sq ++ nl ++ nl ++ "No sources found." ++ nl in
    fst update
      = [(sq_question_id sq,
          Researcher._make_answer sq
            (Pipeline.get_str (in_previous_answer input)) [] [])]
    /\ snd update = [(sq_question_id sq, nothing)]
    /\ PyDict.get (sq_question_id sq)
         (merge_compressed_findings existing (snd update))
       = Some nothing.
Proof.
  intros until existing. intros Himp Hnone sq update nothing.
  assert (Hans :
    Pipeline.improve max_search_results client_search client_extract
      uuid_hex now llm_findings _synthesize_improved sq
      (Pipeline.get_str (in_previous_answer input))
      (Pipeline.get_str (in_improvement_suggestion input))
      (Some (or_empty (in_previous_sources input)))
      (Some (or_empty (in_suggested_searches input)))
    = Researcher._make_answer sq
        (Pipeline.get_str (in_previous_answer input)) [] []).
  { unfold Pipeline.improve, Researcher.improve_research,
      Researcher.collect_results.
    rewrite QuestionFacts.flat_map_nil; [reflexivity|].
    intros query. unfold Pipeline.search_tavily.
    destruct (Hnone query 5) as [-> | ->]; reflexivity. }
  assert (Hupdate : update
    = ([(sq_question_id sq,
         Researcher._make_answer sq
           (Pipeline.get_str (in_previous_answer input)) [] [])],
       [(sq_question_id sq, nothing)])).
  { subst update. unfold Pipeline.researcher_node. fold sq.
    rewrite Himp, Hans. reflexivity. }
  rewrite Hupdate. split; [reflexivity|]. split; [reflexivity|].
  unfold merge_compressed_findings. cbn [snd].
  rewrite RunFacts.update_single. apply PyDictFacts.get_set_same.
Qed.

Lemma re_research_without_results_resets_compressed_findings_witness :
  let input :=
    {| in_sub_question := Samples.sq "q1";
       in_main_query := None;
       in_previous_answer := Some "First answer [src_a1].";
       in_previous_sources := Some (sources Samples.answer1);
       in_improvement_suggestion := Some "dig deeper";
       in_suggested_searches := Some ["more about q1"] |} in
  let failing : string -> Z -> option (list SearchResult) := fun _ _ => None in
  Pipeline.is_improvement input = true
  /\ (forall query n, failing query n = None \/ failing query n = Some [])
  /\ PyDict.get "q1"
       (merge_compressed_findings [("q1", "# Research: What is q1?")]
          (snd (Pipeline.researcher_node 5 12000 failing (fun _ => None)
                  (fun _ => "0123456789abcdef") "t" (fun _ _ => "q")
                  (fun _ _ => None) (fun _ _ _ => "text")
                  (fun _ _ _ _ => "better") (fun _ => Some "compressed")
                  input)))
     = Some ("## What is q1?" ++ nl ++ nl ++ "No sources found." ++ nl).
Proof.
  intros input failing.
  assert (H1 : Pipeline.is_improvement input = true) by reflexivity.
  assert (H2 : forall query n,
                 failing query n = None \/ failing query n = Some [])
    by (intros; now left).
  split; [exact H1|]. split; [exact H2|].
  exact (proj2 (proj2
           (re_research_without_results_resets_compressed_findings
              5 12000 failing (fun _ => None) (fun _ => "0123456789abcdef")
              "t" (fun _ _ => "q") (fun _ _ => None) (fun _ _ _ => "text")
              (fun _ _ _ _ => "better") (fun _ => Some "compressed")
              input [("q1", "# Research: What is q1?")] H1 H2))).
Defined.

Module TopFacts.
Import PyDict PyDictFacts Ranker RankerFacts.

Lemma sorted_cross {A : Type} (R : A -> A -> Prop) (l1 l2 : list A) :
  StronglySorted R (l1 ++ l2) ->
  forall a b, In a l1 -> In b l2 -> R a b.
Proof.
  induction l1 as [|x l1 IH]; simpl; intros H a b Ha Hb; [destruct Ha|].
  inversion H as [|? ? Hs Hall]; subst. rewrite Forall_forall in Hall.
  destruct Ha as [<-|Ha]; [|now apply IH].
  apply Hall, in_or_app. now right.
Qed.

(** A stored hit that the cut leaves out scores no more than any hit that
    is kept, and then ten hits are kept. *)
Lemma cut_keeps_best l v :
  In v (values (dedupe l)) ->
  In v (rank l)
  \/ (List.length (rank l) = top_k
      /\ forall h, In h (rank l) -> score v <= score h).
Proof.
  intros Hv. unfold rank.
  set (sorted := sorted_reverse score (values (dedupe l))).
  assert (Hin : In v sorted)
    by (apply (Permutation_in _ (sorted_reverse_perm score _)); exact Hv).
  rewrite <- (firstn_skipn top_k sorted) in Hin.
  apply in_app_or in Hin. destruct Hin as [Hin|Hin]; [now left|right].
  split.
  - apply firstn_length_le.
    destruct (Nat.le_gt_cases top_k (List.length sorted)) as [H|H];
      [exact H|].
    rewrite skipn_all2 in Hin by lia. destruct Hin.
  - intros h Hh.
    pose proof (sorted_reverse_sorted score (values (dedupe l))) as Hs.
    fold sorted in Hs. rewrite <- (firstn_skipn top_k sorted) in Hs.
    exact (sorted_cross _ _ _ Hs h v Hh Hin).
Qed.

End TopFacts.

(** X21.  A search hit with a URL is represented in the ranking unless
    ten better candidates are: either the ranked list has a hit of the
    same URL that scores at least as much, or the ranked list is full
    (ten hits) and every hit in it scores at least as much. *)
Theorem rank_leaves_out_only_lower_scores :
  forall (all_results : list SearchResult) (h' : SearchResult) (u : string),
    In h' all_results -> url_of h' = Some u ->
    (exists h, In h (rank all_results) /\ url_of h = Some u
               /\ score h' <= score h)
    \/ (List.length (rank all_results) = 10%nat
        /\ forall h, In h (rank all_results) -> score h' <= score h).
Proof.
  intros all_results h' u Hin Hu.
  pose proof (inv_dedupe all_results) as Hinv.
  destruct (PyDict.get u (dedupe all_results)) as [v|] eqn:Hget;
    [|exfalso; exact (inv_keys _ _ Hinv h' u Hin Hu Hget)].
  pose proof (stored_bounds _ _ _ _ _ Hinv Hget Hin Hu) as Hle.
  destruct (inv_best _ _ Hinv u v Hget) as [Hv _].
  assert (Hval : In v (PyDict.values (dedupe all_results))).
  { apply PyDictFacts.get_In in Hget. unfold PyDict.values.
    change v with (snd (u, v)). now apply in_map. }
  destruct (TopFacts.cut_keeps_best all_results v Hval) as [Hr|[Hlen Hall]].
  - left. exists v. auto.
  - right. split; [exact Hlen|]. intros h Hh. specialize (Hall h Hh). lia.
Qed.

Lemma rank_leaves_out_only_lower_scores_witness :
  let l := [Samples.hit "http://a" 3; Samples.hit "http://a" 8] in
  In (Samples.hit "http://a" 3) l
  /\ url_of (Samples.hit "http://a" 3) = Some "http://a"
  /\ ((exists h, In h (rank l) /\ url_of h = Some "http://a"
                 /\ score (Samples.hit "http://a" 3) <= score h)
      \/ (List.length (rank l) = 10%nat
          /\ forall h, In h (rank l) ->
                       score (Samples.hit "http://a" 3) <= score h)).
Proof.
  intros l.
  assert (H1 : In (Samples.hit "http://a" 3) l) by (now left).
  assert (H2 : url_of (Samples.hit "http://a" 3) = Some "http://a")
    by reflexivity.
  split; [exact H1|]. split; [exact H2|].
  exact (rank_leaves_out_only_lower_scores l _ _ H1 H2).
Defined.

(** X22.  The edge out of reflection always schedules something, and
    never a mix: either the compiler alone, with the state as it is, or
    researchers only, and then every task carries a previous answer, a
    suggestion and the suggested searches but no main query. *)
Theorem route_after_reflection_compiler_or_researchers :
  forall state : ResearchState,
    route_after_reflection state = [SendCompiler state]
    \/ (route_after_reflection state <> []
        /\ forall s, In s (route_after_reflection state) ->
             exists input,
               s = SendResearcher input
               /\ in_main_query input = None
               /\ in_previous_answer input <> None
               /\ in_improvement_suggestion input <> None
               /\ in_suggested_searches input
                  = Some (_get_suggested_searches state)).
Proof.
  intros state.
  destruct (route_cases state) as [[Hc _]|(plan & _ & _ & Hr & He)];
    [now left|right].
  split; [intros H; rewrite H in He; discriminate He|].
  rewrite Hr. intros s Hs. unfold fan_out in Hs.
  apply in_flat_map in Hs. destruct Hs as (wa & _ & Hs).
  unfold send_for in Hs.
  destruct (PyDict.get (wa_question_id wa) (sq_map plan)) as [sq|];
    [|destruct Hs].
  destruct (_get_answer_data state (wa_question_id wa)) as [text srcs].
  destruct Hs as [<-|[]]. eexists. split; [reflexivity|].
  repeat split; discriminate.
Qed.

(** X23.  In a reflection round that enters re-research the iteration
    count grows by exactly one; in a round in which the reflection node
    itself decides to compile the count is unchanged. *)
Theorem iteration_count_step :
  forall (analyze_research :
            ResearchPlan -> PyDict.t QuestionAnswer -> AgentAnalysis)
         (max_iterations : Z) (state state' : ResearchState)
         (sends : list Send),
    reflection_round analyze_research max_iterations state
      = Some (state', sends) ->
    (enters_re_research sends = true ->
     get_iteration state' = get_iteration state + 1)
    /\ (next_step state' = Some "compile" ->
        get_iteration state' = get_iteration state)
    /\ (next_step state' = Some "compile"
        \/ next_step state' = Some "re_research").
Proof.
  intros analyze_research max_iterations state state' sends.
  unfold reflection_round.
  destruct (reflection_node analyze_research max_iterations state)
    as [st|] eqn:Hnode; [|discriminate].
  intros [= -> <-].
  destruct (research_plan state) as [plan|] eqn:Hplan;
    [|unfold reflection_node in Hnode; rewrite Hplan in Hnode; discriminate].
  pose proof (node_iteration _ _ _ _ _ Hplan Hnode) as Hiter.
  pose proof (node_step _ _ _ _ _ Hplan Hnode) as Hstep.
  split; [|split].
  - intros H. apply (round_enters_iff _ _ _ _ _ Hplan Hnode) in H.
    destruct H as [Hn _]. now rewrite Hiter, Hn.
  - intros Hc. rewrite Hc in Hstep. simpl in Hstep.
    now rewrite Hiter, <- Hstep.
  - unfold reflection_node in Hnode. rewrite Hplan in Hnode.
    injection Hnode as <-. simpl.
    destruct (should_improve _ _ _); [now right|now left].
Qed.

Lemma iteration_count_step_witness :
  exists state' sends,
    reflection_round (Samples.analyzer [Samples.weak "q1"]) 2
                     (Samples.researched Samples.plan2 None)
      = Some (state', sends)
    /\ enters_re_research sends = true
    /\ get_iteration state' = 1.
Proof.
  eexists. eexists.
  assert (Hround :
    reflection_round (Samples.analyzer [Samples.weak "q1"]) 2
                     (Samples.researched Samples.plan2 None)
    = Some (_, _)) by reflexivity.
  split; [exact Hround|]. split; [reflexivity|].
  exact (proj1 (iteration_count_step _ _ _ _ _ Hround) eq_refl).
Defined.

(** X24.  For every report that cites at least one identifier and whose
    formatted output contains no marker, formatting the output again
    changes it: the second pass strips the appended reference list and
    does not rebuild it. *)
Theorem second_pass_strips_reference_list :
  forall (report : string) (srcs : list SourceMetadata),
    findall report <> [] ->
    findall (_format_citations report srcs) = [] ->
    _format_citations (_format_citations report srcs) srcs
      = strip_references (_format_citations report srcs)
    /\ _format_citations (_format_citations report srcs) srcs
       <> _format_citations report srcs.
Proof.
  intros report srcs Hcited Hclean.
  rewrite (format_no_markers _ srcs Hclean). split; [reflexivity|].
  rewrite strip_fixed_iff. now apply format_has_references.
Qed.

Lemma second_pass_strips_reference_list_witness :
  findall Samples.cited_once <> []
  /\ findall (_format_citations Samples.cited_once Samples.catalogue) = []
  /\ _format_citations
       (_format_citations Samples.cited_once Samples.catalogue)
       Samples.catalogue
     <> _format_citations Samples.cited_once Samples.catalogue.
Proof.
  assert (H1 : findall Samples.cited_once <> []) by discriminate.
  assert (H2 : findall (_format_citations Samples.cited_once
                                          Samples.catalogue) = [])
    by reflexivity.
  split; [exact H1|]. split; [exact H2|].
  exact (proj2 (second_pass_strips_reference_list
                  Samples.cited_once Samples.catalogue H1 H2)).
Defined.
